(** * MetaMask multi-chain holdings aggregator (lib/metamask.ts)

    A shallow embedding of the wallet library: the chain registry, the
    network-switch coordinator ([waitForNetworkChange], [switchChain]), the
    balance reader ([getNativeTokenBalance], [getTokenBalance]), the holdings
    aggregator ([getAccountHoldings]) and the account connector
    ([connectMetaMask]).

    Asynchronous functions are functions in a state-and-exception monad over
    the page state ([World]): an [await] is a bind, a rejected promise is a
    thrown [JsError].  The injected wallet ([window.ethereum]) and the chain
    data behind it are a record of reply functions ([Wallet]), the simulated
    ledger every statement quantifies over. *)

From Stdlib Require Import String Ascii List Bool Arith ZArith NArith Lia.
From Stdlib Require Import DecimalString DecimalN.
Import ListNotations.
Open Scope string_scope.
Open Scope list_scope.

(* ------------------------------------------------------------------ *)
(** ** Errors *)

(** A thrown JavaScript value: the [name] and [message] of an [Error] and the
    numeric [code] wallet errors carry (EIP-1193).  A code that is not a
    number (ethers uses strings) never equals 4902 or 4001 and is [None]. *)
Record JsError := mkJsError {
  err_name : string;
  err_message : string;
  err_code : option Z
}.

(** [new Error(message)] *)
Definition Error (message : string) : JsError :=
  mkJsError "Error" message None.

(** [class MetaMaskError extends Error]: [this.name = 'MetaMaskError']. *)
Definition MetaMaskError (message : string) : JsError :=
  mkJsError "MetaMaskError" message None.

Inductive Result (A : Type) : Type :=
| Ok (a : A)
| Err (e : JsError).
Arguments Ok {A} a.
Arguments Err {A} e.

Definition is_ok {A} (r : Result A) : bool :=
  match r with Ok _ => true | Err _ => false end.

(* ------------------------------------------------------------------ *)
(** ** Data model *)

Module TokenHolding.
Record t := mk {
  symbol : string;
  chain : string;
  quantity : string;
  selected : option bool
}.
End TokenHolding.

Module Account.
Record t := mk {
  address : string;
  holdings : list TokenHolding.t
}.
End Account.

Module Currency.
Record t := mk {
  symbol : string;
  decimals : nat
}.
End Currency.

Module Chain.
Record t := mk {
  chainId : string;
  name : string;
  rpc : string;
  nativeCurrency : Currency.t
}.
End Chain.

Module Token.
Record t := mk {
  address : string;
  symbol : string
}.
End Token.

(** The entries of [SUPPORTED_CHAINS]. *)
Definition ETH_MAINNET : Chain.t :=
  Chain.mk "0x1" "ETHEREUM" "https://mainnet.infura.io/v3/your-project-id"
           (Currency.mk "ETH" 18).

Definition BSC : Chain.t :=
  Chain.mk "0x38" "BNB CHAIN" "https://bsc-dataseed.binance.org"
           (Currency.mk "BNB" 18).

Definition POLYGON : Chain.t :=
  Chain.mk "0x89" "POLYGON" "https://polygon-rpc.com" (Currency.mk "MATIC" 18).

Definition ARBITRUM : Chain.t :=
  Chain.mk "0xa4b1" "ARBITRUM" "https://arb1.arbitrum.io/rpc"
           (Currency.mk "ETH" 18).

(** [SUPPORTED_CHAINS]: an object literal, so its keys keep insertion order. *)
Definition SUPPORTED_CHAINS : list (string * Chain.t) :=
  [ ("ETH_MAINNET", ETH_MAINNET); ("BSC", BSC); ("POLYGON", POLYGON);
    ("ARBITRUM", ARBITRUM) ].

(** [Object.values] *)
Definition Object_values {A} (o : list (string * A)) : list A := map snd o.

(** [getCommonTokensForChain]: a [switch] on the chain identifier. *)
Definition getCommonTokensForChain (chainId : string) : list Token.t :=
  if chainId =? "0x1" then
    [ Token.mk "0xA0b86991c6218b36c1d19D4a2e9Eb0cE3606eB48" "USDC";
      Token.mk "0xdAC17F958D2ee523a2206206994597C13D831ec7" "USDT";
      Token.mk "0x2260FAC5E5542a773Aa44fBCfeDf7C193bc2C599" "WBTC" ]
  else if chainId =? "0x38" then
    [ Token.mk "0x8AC76a51cc950d9822D68b83fE1Ad97B32Cd580d" "USDC";
      Token.mk "0x55d398326f99059fF775485246999027B3197955" "USDT" ]
  else [].

(* ------------------------------------------------------------------ *)
(** ** Decimal scaling *)

(** Decimal rendering of a natural number ([BigNumber.toString]). *)
Definition decimal (n : N) : string :=
  NilEmpty.string_of_uint (N.to_uint n).

Fixpoint zeros (k : nat) : string :=
  match k with
  | O => ""
  | S k' => String "0" (zeros k')
  end.

(** Left-pads the fraction with zeros up to the number of decimals. *)
Definition pad (width : nat) (s : string) : string :=
  (zeros (width - String.length s) ++ s)%string.

(** Drops the zeros that end a string (the result may be empty). *)
Fixpoint drop_trailing_zeros (s : string) : string :=
  match s with
  | "" => ""
  | String c rest =>
      match drop_trailing_zeros rest with
      | "" => if Ascii.eqb c "0" then "" else String c ""
      | kept => String c kept
      end
  end.

(** The fraction without its trailing zeros, a single zero if nothing is
    left. *)
Definition strip (s : string) : string :=
  match drop_trailing_zeros s with
  | "" => "0"
  | kept => kept
  end.

(** Modelled from the spec: [ethers.utils.formatUnits] is a function of the
    ethers library, which is not among the sources.  The spec asks for exact
    full-precision division by [10^decimals] rendered as a decimal string, with
    ["1.0"] for one whole unit and ["0.5"] for half a unit: the whole part,
    a point, and the fraction padded to [decimals] digits with its trailing
    zeros dropped (one digit is always kept).  With no decimals the whole
    part stands alone; a negative value carries a minus sign.  [decimals] is
    the registry's constant 18 or a token's [uint8], so it is a [nat]. *)
Definition formatUnits (value : Z) (decimals : nat) : string :=
  let multiplier := (10 ^ N.of_nat decimals)%N in
  let magnitude := Z.abs_N value in
  let fraction := strip (pad decimals (decimal (magnitude mod multiplier)%N)) in
  let whole := decimal (magnitude / multiplier)%N in
  let unsigned :=
    match decimals with
    | O => whole
    | S _ => (whole ++ "." ++ fraction)%string
    end in
  if (value <? 0)%Z then ("-" ++ unsigned)%string else unsigned.

(** [BigNumber.isZero] *)
Definition isZero (value : Z) : bool := (value =? 0)%Z.

(** A quantity string is zero when none of its characters is a digit from 1
    to 9. *)
Definition nonzero_digit (c : ascii) : bool :=
  let n := nat_of_ascii c in (49 <=? n)%nat && (n <=? 57)%nat.

Fixpoint has_nonzero_digit (s : string) : bool :=
  match s with
  | "" => false
  | String c rest => nonzero_digit c || has_nonzero_digit rest
  end.

Definition zero_quantity (s : string) : bool := negb (has_nonzero_digit s).


(* ------------------------------------------------------------------ *)
(** ** The wallet and the page *)

(** Parameter object of [wallet_addEthereumChain]. *)
Record AddChainParams := mkAddChainParams {
  add_chainId : string;
  add_chainName : string;
  add_rpcUrls : list string;
  add_nativeCurrency : Currency.t
}.

(** What the library asks of the wallet: [window.ethereum.request] methods,
    and the read calls an ethers provider sends on to it.  A read names the
    network the provider is bound to. *)
Inductive Request :=
| eth_requestAccounts
| wallet_switchEthereumChain (chainId : string)
| wallet_addEthereumChain (params : AddChainParams)
| eth_getBalance (network address : string)
| erc20_balanceOf (network token owner : string)
| erc20_symbol (network token : string)
| erc20_decimals (network token : string).

(** The simulated wallet: its reply to every request, and the [chainChanged]
    notifications it emits once the switch to a chain is under way, each with
    the milliseconds that pass before it (after the listener is registered for
    the first one, after the previous notification for the others) and the
    identifier it reports. *)
Record Wallet := mkWallet {
  accounts_reply : Result (list string);
  switch_reply : string -> Result unit;
  add_reply : AddChainParams -> Result unit;
  emits : string -> list (N * string);
  native_raw : string -> string -> Result Z;
  token_raw : string -> string -> string -> Result Z;
  token_symbol : string -> string -> Result string;
  token_decimals : string -> string -> Result nat
}.

(** [typeof window === 'undefined'] on the server; in a browser
    [window.ethereum] is the injected wallet, if any. *)
Inductive Global :=
| ServerSide
| Browser (ethereum : option Wallet).

(** What happens to the wallet's [chainChanged] listeners and to timers. *)
Inductive Hook :=
| Registered (listener : nat)
| Deregistered (listener : nat)
| TimerArmed (timer : nat)
| TimerCleared (timer : nat).

(** The mutable state of the page: the clock (milliseconds), the network the
    wallet is on, the [chainChanged] listeners on [window.ethereum], the armed
    timers, the next closure or timer identity, and three logs: the requests
    sent, the listener and timer operations, and [console.error]. *)
Record World := mkWorld {
  clock : N;
  active : string;
  listeners : list nat;
  timers : list nat;
  fresh : nat;
  requests : list Request;
  hooks : list Hook;
  console : list (string * JsError)
}.

(** A connection handle: [new ethers.providers.Web3Provider(window.ethereum)]
    wraps the wallet and is bound to the network active when it is made. *)
Record Web3Provider := mkWeb3Provider {
  underlying : Wallet;
  network : string
}.

(* ------------------------------------------------------------------ *)
(** ** The monad of asynchronous code *)

(** A computation on state [S] that returns or throws; the state survives a
    throw, as side effects do. *)
Definition M (S A : Type) : Type := S -> Result A * S.

Definition ret {S A} (a : A) : M S A := fun s => (Ok a, s).

Definition throw {S A} (e : JsError) : M S A := fun s => (Err e, s).

Definition bind {S A B} (m : M S A) (k : A -> M S B) : M S B :=
  fun s =>
    match m s with
    | (Ok a, s') => k a s'
    | (Err e, s') => (Err e, s')
    end.

(** [try { body } catch (error) { handler }] *)
Definition try_catch {S A} (body : M S A) (handler : JsError -> M S A) : M S A :=
  fun s =>
    match body s with
    | (Ok a, s') => (Ok a, s')
    | (Err e, s') => handler e s'
    end.

Notation "x <- m ;; k" := (bind m (fun x => k))
  (at level 61, m at next level, right associativity).
Notation "m ;; k" := (bind m (fun _ => k))
  (at level 61, right associativity).

(** [for (const x of xs) { body }] *)
Fixpoint for_of {S A} (xs : list A) (body : A -> M S unit) : M S unit :=
  match xs with
  | [] => ret tt
  | x :: rest => body x ;; for_of rest body
  end.

(** [Promise.all]: every task has been started, so every one runs; the
    result is the list of their values in the order of the tasks, or the
    rejection of the first that rejects. *)
Fixpoint Promise_all {S A} (tasks : list (M S A)) : M S (list A) :=
  fun s =>
    match tasks with
    | [] => (Ok [], s)
    | task :: rest =>
        let (r, s1) := task s in
        let (rs, s2) := Promise_all rest s1 in
        (match r, rs with
         | Ok a, Ok l => Ok (a :: l)
         | Err e, _ => Err e
         | Ok _, Err e => Err e
         end, s2)
    end.

(* ------------------------------------------------------------------ *)
(** ** Primitive operations on the page *)

Definition tick (ms : N) : M World unit := fun w =>
  (Ok tt, mkWorld (clock w + ms) (active w) (listeners w) (timers w) (fresh w)
                  (requests w) (hooks w) (console w)).

Definition set_active (networkId : string) : M World unit := fun w =>
  (Ok tt, mkWorld (clock w) networkId (listeners w) (timers w) (fresh w)
                  (requests w) (hooks w) (console w)).

(** A new closure: its identity. *)
Definition new_closure : M World nat := fun w =>
  (Ok (fresh w),
   mkWorld (clock w) (active w) (listeners w) (timers w) (S (fresh w))
           (requests w) (hooks w) (console w)).

(** [setTimeout]: arms a timer and returns its identity. *)
Definition setTimeout : M World nat := fun w =>
  (Ok (fresh w),
   mkWorld (clock w) (active w) (listeners w) (timers w ++ [fresh w])
           (S (fresh w)) (requests w) (hooks w ++ [TimerArmed (fresh w)])
           (console w)).

(** [clearTimeout] *)
Definition clearTimeout (timer : nat) : M World unit := fun w =>
  (Ok tt,
   mkWorld (clock w) (active w) (listeners w)
           (remove Nat.eq_dec timer (timers w)) (fresh w) (requests w)
           (hooks w ++ [TimerCleared timer]) (console w)).

(** [window.ethereum?.on('chainChanged', listener)]: nothing happens without
    a wallet. *)
Definition ethereum_on (ethereum : option Wallet) (listener : nat)
  : M World unit := fun w =>
  match ethereum with
  | None => (Ok tt, w)
  | Some _ =>
      (Ok tt,
       mkWorld (clock w) (active w) (listeners w ++ [listener]) (timers w)
               (fresh w) (requests w) (hooks w ++ [Registered listener])
               (console w))
  end.

(** [window.ethereum?.removeListener('chainChanged', listener)] *)
Definition ethereum_removeListener (ethereum : option Wallet) (listener : nat)
  : M World unit := fun w =>
  match ethereum with
  | None => (Ok tt, w)
  | Some _ =>
      (Ok tt,
       mkWorld (clock w) (active w)
               (remove Nat.eq_dec listener (listeners w)) (timers w)
               (fresh w) (requests w) (hooks w ++ [Deregistered listener])
               (console w))
  end.

(** A request reaches the wallet: it is logged and the wallet's reply is the
    outcome of the promise. *)
Definition send {A} (r : Request) (reply : Result A) : M World A := fun w =>
  (reply,
   mkWorld (clock w) (active w) (listeners w) (timers w) (fresh w)
           (requests w ++ [r]) (hooks w) (console w)).

(** [console.error(message, error)] *)
Definition console_error (message : string) (error : JsError)
  : M World unit := fun w =>
  (Ok tt,
   mkWorld (clock w) (active w) (listeners w) (timers w) (fresh w)
           (requests w) (hooks w) (console w ++ [(message, error)])).

(** [await new Promise(resolve => setTimeout(resolve, ms))]: the timer is
    armed, fires after [ms] and is gone. *)
Definition delay (ms : N) : M World unit := fun w =>
  (Ok tt,
   mkWorld (clock w + ms) (active w) (listeners w) (timers w) (S (fresh w))
           (requests w) (hooks w) (console w)).

(** [new ethers.providers.Web3Provider(window.ethereum as any)]: ethers
    refuses a missing provider. *)
Definition new_Web3Provider (ethereum : option Wallet) : M World Web3Provider :=
  fun w =>
    match ethereum with
    | Some wallet => (Ok (mkWeb3Provider wallet (active w)), w)
    | None => (Err (Error "missing provider"), w)
    end.

(* ------------------------------------------------------------------ *)
(** ** Network switch coordinator *)

(** The delay passed to [setTimeout] in [waitForNetworkChange]. *)
Definition NETWORK_CHANGE_TIMEOUT : N := 3000.

(** [window.ethereum?.request(...)] with the result discarded: without a
    wallet the expression is [undefined] and the [await] goes on. *)
Definition ethereum_request (ethereum : option Wallet) (r : Request)
    (reply : Wallet -> Result unit) : M World unit :=
  match ethereum with
  | Some wallet => send r (reply wallet)
  | None => ret tt
  end.

(** The [cleanup] closure of [waitForNetworkChange]. *)
Definition cleanup (ethereum : option Wallet) (timeout handleNetworkChange : nat)
  : M World unit :=
  clearTimeout timeout ;;
  ethereum_removeListener ethereum handleNetworkChange.

(** The event loop while the promise of [waitForNetworkChange] is pending.
    [pending] are the notifications still to come and [elapsed] the time since
    the timer was armed.  A notification due at or after the deadline loses
    to the timer, whose callback cleans up and rejects.  One that comes
    earlier moves the wallet to the network it reports and runs
    [handleNetworkChange]: on the target it cleans up and resolves, on any
    other identifier the wait goes on. *)
Fixpoint pump (ethereum : option Wallet) (targetChainId : string)
    (timeout handleNetworkChange : nat) (pending : list (N * string))
    (elapsed : N) : M World unit :=
  let timer_fires :=
    tick (NETWORK_CHANGE_TIMEOUT - elapsed) ;;
    cleanup ethereum timeout handleNetworkChange ;;
    throw (Error "Network change timeout") in
  match pending with
  | [] => timer_fires
  | (gap, networkId) :: rest =>
      if (NETWORK_CHANGE_TIMEOUT <=? elapsed + gap)%N then timer_fires
      else
        tick gap ;;
        set_active networkId ;;
        if networkId =? targetChainId then
          cleanup ethereum timeout handleNetworkChange ;;
          ret tt
        else
          pump ethereum targetChainId timeout handleNetworkChange rest
               (elapsed + gap)
  end.

(** The notifications that reach a listener on [window.ethereum]: none
    without a wallet. *)
Definition notifications (ethereum : option Wallet) (targetChainId : string)
  : list (N * string) :=
  match ethereum with
  | Some wallet => emits wallet targetChainId
  | None => []
  end.

(** [waitForNetworkChange]: the executor arms the timer, makes the two
    closures and registers the listener; then the promise is pending. *)
Definition waitForNetworkChange (ethereum : option Wallet)
    (targetChainId : string) : M World unit :=
  timeout <- setTimeout ;;
  handleNetworkChange <- new_closure ;;
  ethereum_on ethereum handleNetworkChange ;;
  pump ethereum targetChainId timeout handleNetworkChange
       (notifications ethereum targetChainId) 0.

(** The parameters [switchChain] builds for [wallet_addEthereumChain]. *)
Definition add_params (chain : Chain.t) : AddChainParams :=
  mkAddChainParams (Chain.chainId chain) (Chain.name chain)
                   [Chain.rpc chain] (Chain.nativeCurrency chain).

(** [switchChain] *)
Definition switchChain (ethereum : option Wallet) (chainId : string)
  : M World Web3Provider :=
  try_catch
    (ethereum_request ethereum (wallet_switchEthereumChain chainId)
                      (fun wallet => switch_reply wallet chainId) ;;
     waitForNetworkChange ethereum chainId ;;
     new_Web3Provider ethereum)
    (fun error =>
       if match err_code error with Some c => (c =? 4902)%Z | None => false end
       then
         match find (fun c => Chain.chainId c =? chainId)
                    (Object_values SUPPORTED_CHAINS) with
         | Some chain =>
             ethereum_request ethereum
               (wallet_addEthereumChain (add_params chain))
               (fun wallet => add_reply wallet (add_params chain)) ;;
             waitForNetworkChange ethereum chainId ;;
             new_Web3Provider ethereum
         | None => throw error
         end
       else throw error).

(* ------------------------------------------------------------------ *)
(** ** Balance reader *)

(** [getNativeTokenBalance] *)
Definition getNativeTokenBalance (provider : Web3Provider) (address : string)
    (chain : Chain.t) : M World (option TokenHolding.t) :=
  try_catch
    (balance <- send (eth_getBalance (network provider) address)
                     (native_raw (underlying provider) (network provider)
                                 address) ;;
     if negb (isZero balance) then
       ret (Some (TokenHolding.mk
                    (Currency.symbol (Chain.nativeCurrency chain))
                    (Chain.name chain)
                    (formatUnits balance
                       (Currency.decimals (Chain.nativeCurrency chain)))
                    (Some false)))
     else ret None)
    (fun error =>
       console_error
         ("Error fetching native balance for " ++ Chain.name chain ++ ":")%string
         error ;;
       ret None).

(** [Promise.all([contract.balanceOf(walletAddress), contract.symbol(),
    contract.decimals()])]: the three calls are sent one after the other
    before any reply is awaited; the first rejection, in this order, is the
    rejection of the whole. *)
Definition contract_reads (provider : Web3Provider)
    (tokenAddress walletAddress : string) : M World (Z * string * nat) :=
  fun w =>
    let wallet := underlying provider in
    let net := network provider in
    let (balance, w1) :=
      send (erc20_balanceOf net tokenAddress walletAddress)
           (token_raw wallet net tokenAddress walletAddress) w in
    let (symbol, w2) :=
      send (erc20_symbol net tokenAddress)
           (token_symbol wallet net tokenAddress) w1 in
    let (decimals, w3) :=
      send (erc20_decimals net tokenAddress)
           (token_decimals wallet net tokenAddress) w2 in
    (match balance, symbol, decimals with
     | Ok b, Ok s, Ok d => Ok (b, s, d)
     | Err e, _, _ => Err e
     | Ok _, Err e, _ => Err e
     | Ok _, Ok _, Err e => Err e
     end, w3).

(** [getTokenBalance].  The contract object is made from constants and
    making it sends nothing. *)
Definition getTokenBalance (provider : Web3Provider)
    (tokenAddress walletAddress chainName : string)
  : M World (option TokenHolding.t) :=
  try_catch
    (reads <- contract_reads provider tokenAddress walletAddress ;;
     let '(balance, symbol, decimals) := reads in
     if negb (isZero balance) then
       ret (Some (TokenHolding.mk symbol chainName
                    (formatUnits balance decimals) (Some false)))
     else ret None)
    (fun error =>
       console_error ("Error checking token " ++ tokenAddress ++ ":")%string
                     error ;;
       ret None).

(* ------------------------------------------------------------------ *)
(** ** Holdings aggregator *)

(** The frame of one [getAccountHoldings] call: its local array [holdings]
    next to the page state, so that what was pushed inside a [try] is still
    there in its [catch]. *)
Definition Frame : Type := list TokenHolding.t * World.

(** An operation on the page, run from within the frame. *)
Definition page {A} (m : M World A) : M Frame A :=
  fun f =>
    let (r, w) := m (snd f) in (r, (fst f, w)).

(** [holdings.push(...items)] *)
Definition push (items : list TokenHolding.t) : M Frame unit :=
  fun f => (Ok tt, (fst f ++ items, snd f)).

(** [tokenBalances.filter((b): b is TokenHolding => b !== null)] *)
Fixpoint non_null {A} (xs : list (option A)) : list A :=
  match xs with
  | [] => []
  | Some x :: rest => x :: non_null rest
  | None :: rest => non_null rest
  end.

(** The body of the loop of [getAccountHoldings] for one chain. *)
Definition visit (ethereum : option Wallet) (address : string)
    (chain : Chain.t) : M Frame unit :=
  try_catch
    (provider <- page (switchChain ethereum (Chain.chainId chain)) ;;
     nativeBalance <- page (getNativeTokenBalance provider address chain) ;;
     match nativeBalance with
     | Some holding => push [holding]
     | None => ret tt
     end ;;
     let commonTokens := getCommonTokensForChain (Chain.chainId chain) in
     tokenBalances <-
       page (Promise_all
               (map (fun token =>
                       getTokenBalance provider (Token.address token) address
                                       (Chain.name chain))
                    commonTokens)) ;;
     push (non_null tokenBalances) ;;
     page (delay 500))
    (fun error =>
       page (console_error
               ("Error fetching " ++ Chain.name chain ++ " holdings:")%string
               error)).

(** [getAccountHoldings] *)
Definition getAccountHoldings (ethereum : option Wallet) (address : string)
  : M World (list TokenHolding.t) :=
  match ethereum with
  | None => throw (MetaMaskError "MetaMask not installed")
  | Some _ =>
      fun w =>
        match for_of (Object_values SUPPORTED_CHAINS)
                     (visit ethereum address) ([], w) with
        | (Ok _, (holdings, w')) => (Ok holdings, w')
        | (Err e, (_, w')) => (Err e, w')
        end
  end.

(* ------------------------------------------------------------------ *)
(** ** Account connector *)

(** [error.message || 'Failed to connect to MetaMask'] *)
Definition message_or (message fallback : string) : string :=
  if message =? "" then fallback else message.

(** [connectMetaMask].  [Promise.all] over the accounts starts one
    aggregation per address, and they interleave at their awaits.  The
    replies of a simulated wallet are functions of the request alone, so the
    interleaving matters for the order of the logs and for the clock only:
    here the aggregations run one after the other, in the order of the
    addresses. *)
Definition connectMetaMask (global : Global) : M World (list Account.t) :=
  match global with
  | ServerSide => throw (MetaMaskError "MetaMask cannot be accessed server-side")
  | Browser None => throw (MetaMaskError "MetaMask is not installed")
  | Browser (Some wallet) =>
      try_catch
        (accounts <- send eth_requestAccounts (accounts_reply wallet) ;;
         match accounts with
         | [] => throw (MetaMaskError "No accounts found")
         | _ =>
             Promise_all
               (map (fun address =>
                       holdings <- getAccountHoldings (Some wallet) address ;;
                       ret (Account.mk address holdings))
                    accounts)
         end)
        (fun error =>
           if match err_code error with Some c => (c =? 4001)%Z | None => false end
           then throw (MetaMaskError "User rejected the connection request")
           else throw (MetaMaskError
                         (message_or (err_message error)
                                     "Failed to connect to MetaMask")))
  end.

(** [isMetaMaskInstalled] *)
Definition isMetaMaskInstalled (global : Global) : bool :=
  match global with
  | ServerSide => false
  | Browser None => false
  | Browser (Some _) => true
  end.

(* ------------------------------------------------------------------ *)
(** ** Specification vocabulary *)

(** The digit a character stands for. *)
Definition digit_value (c : ascii) : option N :=
  let n := nat_of_ascii c in
  if (48 <=? n)%nat && (n <=? 57)%nat then Some (N.of_nat (n - 48)) else None.

(** The number a string of digits stands for, continuing from [acc]. *)
Fixpoint digits_value (s : string) (acc : N) : option N :=
  match s with
  | "" => Some acc
  | String c rest =>
      match digit_value c with
      | Some d => digits_value rest (10 * acc + d)%N
      | None => None
      end
  end.

(** The text before the first point, and the text after it if there is
    one. *)
Fixpoint split_point (s : string) : string * option string :=
  match s with
  | "" => ("", None)
  | String c rest =>
      if Ascii.eqb c "." then ("", Some rest)
      else let (whole, fraction) := split_point rest in
           (String c whole, fraction)
  end.

(** The raw amount an unsigned quantity stands for at [decimals] decimals:
    the whole part times [10^decimals] plus the fraction read as [decimals]
    digits.  A fraction longer than [decimals] digits has no raw amount. *)
Definition parse_unsigned (s : string) (decimals : nat) : option N :=
  match split_point s with
  | (whole, None) =>
      match decimals with
      | O => digits_value whole 0
      | S _ => None
      end
  | (whole, Some fraction) =>
      if (String.length fraction <=? decimals)%nat then
        match digits_value whole 0,
              digits_value
                (fraction ++ zeros (decimals - String.length fraction))%string 0
        with
        | Some a, Some b => Some (a * 10 ^ N.of_nat decimals + b)%N
        | _, _ => None
        end
      else None
  end.

(** The raw amount a quantity stands for, the inverse of [formatUnits]. *)
Definition parseUnits (s : string) (decimals : nat) : option Z :=
  match s with
  | String c rest =>
      if Ascii.eqb c "-"
      then option_map (fun n => (- Z.of_N n)%Z) (parse_unsigned rest decimals)
      else option_map Z.of_N (parse_unsigned s decimals)
  | "" => None
  end.

(** The number a decimal numeral stands for, continuing from [acc]. *)
Fixpoint uint_value (u : Decimal.uint) (acc : N) : N :=
  match u with
  | Decimal.Nil => acc
  | Decimal.D0 u' => uint_value u' (10 * acc)
  | Decimal.D1 u' => uint_value u' (10 * acc + 1)
  | Decimal.D2 u' => uint_value u' (10 * acc + 2)
  | Decimal.D3 u' => uint_value u' (10 * acc + 3)
  | Decimal.D4 u' => uint_value u' (10 * acc + 4)
  | Decimal.D5 u' => uint_value u' (10 * acc + 5)
  | Decimal.D6 u' => uint_value u' (10 * acc + 6)
  | Decimal.D7 u' => uint_value u' (10 * acc + 7)
  | Decimal.D8 u' => uint_value u' (10 * acc + 8)
  | Decimal.D9 u' => uint_value u' (10 * acc + 9)
  end%N.

(** The time, counted from the start of the wait, at which the first
    notification that reports [target] arrives. *)
Fixpoint arrival (target : string) (pending : list (N * string)) (elapsed : N)
  : option N :=
  match pending with
  | [] => None
  | (gap, networkId) :: rest =>
      if networkId =? target then Some (elapsed + gap)%N
      else arrival target rest (elapsed + gap)%N
  end.

(** A notification that reports the target arrives before the timeout. *)
Definition confirmed (pending : list (N * string)) (target : string) (elapsed : N)
  : bool :=
  match arrival target pending elapsed with
  | Some t => (t <? NETWORK_CHANGE_TIMEOUT)%N
  | None => false
  end.

(** The error the spec calls [NetworkSwitchTimeout]. *)
Definition NetworkSwitchTimeout : JsError := Error "Network change timeout".

(** The listeners once one is removed, and once one is added: nothing
    changes without a wallet. *)
Definition unlisten (ethereum : option Wallet) (listener : nat) (l : list nat)
  : list nat :=
  match ethereum with
  | Some _ => remove Nat.eq_dec listener l
  | None => l
  end.

Definition listen (ethereum : option Wallet) (listener : nat) (l : list nat)
  : list nat :=
  match ethereum with
  | Some _ => l ++ [listener]
  | None => l
  end.

(** The listener and timer operations at the start of a wait, and those of
    its [cleanup]. *)
Definition opening (ethereum : option Wallet) (timer listener : nat)
  : list Hook :=
  TimerArmed timer ::
  match ethereum with Some _ => [Registered listener] | None => [] end.

Definition closing (ethereum : option Wallet) (timer listener : nat)
  : list Hook :=
  TimerCleared timer ::
  match ethereum with Some _ => [Deregistered listener] | None => [] end.

(** Closure and timer identities already handed out are below [fresh]. *)
Definition well_formed (w : World) : Prop :=
  Forall (fun i => i < fresh w) (listeners w) /\
  Forall (fun i => i < fresh w) (timers w).

(** [error.code === 4902] *)
Definition unrecognized (error : JsError) : bool :=
  match err_code error with Some c => (c =? 4902)%Z | None => false end.

(** The page once a request has been logged. *)
Definition logged (r : Request) (w : World) : World :=
  snd (send r (Ok tt) w).

(** What follows a wait in [switchChain]: a provider on the active network,
    or the rejection of the wait. *)
Definition after_wait (wallet : Wallet) (waited : Result unit * World)
  : Result Web3Provider * World :=
  match waited with
  | (Ok _, w') => (Ok (mkWeb3Provider wallet (active w')), w')
  | (Err e, w') => (Err e, w')
  end.

(** Whether [switchChain] reaches a wait: the wallet accepted the switch
    request, or reported the chain as unrecognized and accepted to add it. *)
Definition reaches_wait (ethereum : option Wallet) (chainId : string) : bool :=
  match ethereum with
  | None => true
  | Some wallet =>
      match switch_reply wallet chainId with
      | Ok _ => true
      | Err e =>
          unrecognized e &&
          match find (fun c => Chain.chainId c =? chainId)
                     (Object_values SUPPORTED_CHAINS) with
          | Some chain => is_ok (add_reply wallet (add_params chain))
          | None => false
          end
      end
  end.

(** The outcome of [switchChain]: it depends on the wallet alone. *)
Definition switch_outcome (ethereum : option Wallet) (chainId : string)
  : Result Web3Provider :=
  match ethereum with
  | None => Err NetworkSwitchTimeout
  | Some wallet =>
      let wait :=
        if confirmed (emits wallet chainId) chainId 0
        then Ok (mkWeb3Provider wallet chainId)
        else Err NetworkSwitchTimeout in
      match switch_reply wallet chainId with
      | Ok _ => wait
      | Err e =>
          if unrecognized e then
            match find (fun c => Chain.chainId c =? chainId)
                       (Object_values SUPPORTED_CHAINS) with
            | Some chain =>
                match add_reply wallet (add_params chain) with
                | Ok _ => wait
                | Err e' => Err e'
                end
            | None => Err e
            end
          else Err e
      end
  end.

(** The requests [switchChain] sends. *)
Definition switch_requests (ethereum : option Wallet) (chainId : string)
  : list Request :=
  match ethereum with
  | None => []
  | Some wallet =>
      wallet_switchEthereumChain chainId ::
      match switch_reply wallet chainId with
      | Ok _ => []
      | Err e =>
          if unrecognized e then
            match find (fun c => Chain.chainId c =? chainId)
                       (Object_values SUPPORTED_CHAINS) with
            | Some chain => [wallet_addEthereumChain (add_params chain)]
            | None => []
            end
          else []
      end
  end.

(** The listener and timer operations of one [switchChain] call that starts
    with [fresh] at [f]. *)
Definition switch_hooks (ethereum : option Wallet) (chainId : string) (f : nat)
  : list Hook :=
  if reaches_wait ethereum chainId
  then opening ethereum f (S f) ++ closing ethereum f (S f)
  else [].

(** The native holding a provider's ledger gives for an address. *)
Definition native_reading (provider : Web3Provider) (address : string)
    (chain : Chain.t) : option TokenHolding.t :=
  match native_raw (underlying provider) (network provider) address with
  | Ok balance =>
      if isZero balance then None
      else Some (TokenHolding.mk
                   (Currency.symbol (Chain.nativeCurrency chain))
                   (Chain.name chain)
                   (formatUnits balance
                      (Currency.decimals (Chain.nativeCurrency chain)))
                   (Some false))
  | Err _ => None
  end.

(** The token holding a provider's ledger gives for a token contract. *)
Definition token_reading (provider : Web3Provider)
    (tokenAddress walletAddress chainName : string) : option TokenHolding.t :=
  let wallet := underlying provider in
  let net := network provider in
  match token_raw wallet net tokenAddress walletAddress,
        token_symbol wallet net tokenAddress,
        token_decimals wallet net tokenAddress with
  | Ok balance, Ok symbol, Ok decimals =>
      if isZero balance then None
      else Some (TokenHolding.mk symbol chainName
                   (formatUnits balance decimals) (Some false))
  | _, _, _ => None
  end.

(** The list of what an optional value holds. *)
Definition option_list {A} (o : option A) : list A :=
  match o with Some a => [a] | None => [] end.

(** The holdings read on one network, the native one first, then the tokens
    in the order of the known-token list. *)
Definition readings (provider : Web3Provider) (address : string)
    (chain : Chain.t) : list TokenHolding.t :=
  option_list (native_reading provider address chain) ++
  non_null (map (fun token =>
                   token_reading provider (Token.address token) address
                                 (Chain.name chain))
                (getCommonTokensForChain (Chain.chainId chain))).

(** What one network adds to the holdings: its readings if the switch
    succeeds, nothing otherwise. *)
Definition contribution (ethereum : option Wallet) (address : string)
    (chain : Chain.t) : list TokenHolding.t :=
  match switch_outcome ethereum (Chain.chainId chain) with
  | Ok provider => readings provider address chain
  | Err _ => []
  end.

(** The three calls sent to read one token for an address. *)
Definition token_requests (provider : Web3Provider) (address : string)
    (token : Token.t) : list Request :=
  [erc20_balanceOf (network provider) (Token.address token) address;
   erc20_symbol (network provider) (Token.address token);
   erc20_decimals (network provider) (Token.address token)].

(** The calls sent to read one network: the native balance, then the three
    calls of each known token. *)
Definition read_requests (provider : Web3Provider) (address : string)
    (chain : Chain.t) : list Request :=
  eth_getBalance (network provider) address ::
  flat_map (token_requests provider address)
           (getCommonTokensForChain (Chain.chainId chain)).

(** A holding whose quantity is the scaling of a raw balance that is not
    zero. *)
Definition from_nonzero_balance (h : TokenHolding.t) : Prop :=
  exists raw decimals,
    raw <> 0%Z /\ TokenHolding.quantity h = formatUnits raw decimals.

(** A holding whose quantity is not zero. *)
Definition nonzero_holding (h : TokenHolding.t) : Prop :=
  zero_quantity (TokenHolding.quantity h) = false.

(** The error [connectMetaMask] throws from its [catch]. *)
Definition connect_error (error : JsError) : JsError :=
  if match err_code error with Some c => (c =? 4001)%Z | None => false end
  then MetaMaskError "User rejected the connection request"
  else MetaMaskError
         (message_or (err_message error) "Failed to connect to MetaMask").

(** The account [connectMetaMask] builds for an address. *)
Definition account_of (wallet : Wallet) (address : string) : Account.t :=
  Account.mk address
    (flat_map (contribution (Some wallet) address)
              (Object_values SUPPORTED_CHAINS)).

(* ------------------------------------------------------------------ *)
(** ** Simulated wallets *)

(** A page that has just loaded, with the wallet on some other network. *)
Definition world0 : World := mkWorld 0 "0x5" [] [] 0 [] [] [].

(** A wallet with two accounts.  It does not know Polygon until asked to add
    it, confirms the switch to BNB Chain too late, and confirms the others
    after a notification for another network.  The first account holds one
    ether on Ethereum and 2.5 MATIC on Polygon.  Of the known tokens, the
    first holds nothing for it, the second half a unit at six decimals, and
    the third fails; every contract reports the symbol ["TETHER"], whatever
    the registry calls it. *)
Definition sample_wallet : Wallet :=
  mkWallet
    (Ok ["0xX"; "0xY"])
    (fun chainId =>
       if chainId =? "0x89"
       then Err (mkJsError "Error" "Unrecognized chain ID" (Some 4902%Z))
       else Ok tt)
    (fun _ => Ok tt)
    (fun chainId =>
       if chainId =? "0x38" then [(100%N, "0x1"); (2900%N, "0x38")]
       else [(40%N, "0x5"); (120%N, chainId)])
    (fun net address =>
       if (net =? "0x1") && (address =? "0xX") then Ok 1000000000000000000%Z
       else if (net =? "0x89") && (address =? "0xX")
            then Ok 2500000000000000000%Z
            else Ok 0%Z)
    (fun net token owner =>
       if token =? "0xdAC17F958D2ee523a2206206994597C13D831ec7"
       then (if owner =? "0xX" then Ok 500000%Z else Ok 0%Z)
       else if token =? "0x2260FAC5E5542a773Aa44fBCfeDf7C193bc2C599"
            then Err (Error "call revert exception")
            else Ok 0%Z)
    (fun _ _ => Ok "TETHER")
    (fun _ _ => Ok 6).

(** A wallet that knows no network and whose user refuses to add any. *)
Definition refusing_wallet : Wallet :=
  mkWallet
    (Ok ["0xX"])
    (fun _ => Err (mkJsError "Error" "Unrecognized chain ID" (Some 4902%Z)))
    (fun _ => Err (mkJsError "Error" "User rejected the request."
                             (Some 4001%Z)))
    (fun _ => [])
    (fun _ _ => Ok 0%Z)
    (fun _ _ _ => Ok 0%Z)
    (fun _ _ => Ok "")
    (fun _ _ => Ok 0).

(** A wallet whose authorization request fails with an error that carries no
    message. *)
Definition mute_wallet : Wallet :=
  mkWallet
    (Err (mkJsError "Error" "" (Some (-32603)%Z)))
    (fun _ => Ok tt)
    (fun _ => Ok tt)
    (fun _ => [])
    (fun _ _ => Ok 0%Z)
    (fun _ _ _ => Ok 0%Z)
    (fun _ _ => Ok "")
    (fun _ _ => Ok 0).

(** A provider on Ethereum for the sample wallet. *)
Definition sample_provider : Web3Provider := mkWeb3Provider sample_wallet "0x1".

(** A provider on Arbitrum for the sample wallet. *)
Definition arbitrum_provider : Web3Provider :=
  mkWeb3Provider sample_wallet "0xa4b1".

(* ------------------------------------------------------------------ *)
(** ** Counting listener and timer operations *)

Definition is_registration (h : Hook) : bool :=
  match h with Registered _ => true | _ => false end.

Definition is_deregistration (h : Hook) : bool :=
  match h with Deregistered _ => true | _ => false end.

Definition is_arming (h : Hook) : bool :=
  match h with TimerArmed _ => true | _ => false end.

Definition is_clearing (h : Hook) : bool :=
  match h with TimerCleared _ => true | _ => false end.

Definition count (p : Hook -> bool) (hs : list Hook) : nat :=
  List.length (filter p hs).

(** The operations logged between two states of the page. *)
Definition hooks_since (w w' : World) : list Hook :=
  skipn (List.length (hooks w)) (hooks w').

(** A call of [switchChain] that registers the listener exactly once and
    deregisters it exactly once. *)
Definition registers_once (ethereum : option Wallet) (chainId : string)
    (w : World) : Prop :=
  let added := hooks_since w (snd (switchChain ethereum chainId w)) in
  count is_registration added = 1 /\ count is_deregistration added = 1.

(** A failure of the authorization request that [connectMetaMask] rethrows
    under the message of the original error. *)
Definition rethrows_message (wallet : Wallet) (w : World) : Prop :=
  forall e,
    accounts_reply wallet = Err e ->
    err_code e <> Some 4001%Z ->
    fst (connectMetaMask (Browser (Some wallet)) w) =
    Err (MetaMaskError (err_message e)).

(* ------------------------------------------------------------------ *)
(** ** Vocabulary for the page and the requests of an aggregation *)

(** Two states of the page that differ in their logs of requests and of
    console lines only. *)
Definition same_page (w w' : World) : Prop :=
  clock w' = clock w /\ active w' = active w /\
  listeners w' = listeners w /\ timers w' = timers w /\
  fresh w' = fresh w /\ hooks w' = hooks w.

(** The requests one network costs an aggregation: those of the switch,
    then the reads when the switch succeeded. *)
Definition network_requests (ethereum : option Wallet) (address : string)
    (chain : Chain.t) : list Request :=
  switch_requests ethereum (Chain.chainId chain) ++
  match switch_outcome ethereum (Chain.chainId chain) with
  | Ok provider => read_requests provider address chain
  | Err _ => []
  end.


(* ------------------------------------------------------------------ *)
(** ** Account-change subscription *)

(** [setupAccountChangeListener].  The state is the list of the
    [accountsChanged] listeners on [window.ethereum], callbacks by identity
    in the order they were registered; [on] adds a listener whether or not
    it is registered already. *)
Definition setupAccountChangeListener (global : Global) (callback : nat)
  : M (list nat) unit :=
  match global with
  | Browser (Some _) => fun registered => (Ok tt, registered ++ [callback])
  | _ => ret tt
  end.

(* ------------------------------------------------------------------ *)
(** ** The position panel (components/current-position/CurrentPosition.tsx) *)

(** The state of the component, one field per [useState]. *)
Module View.
Record t := mk {
  walletService : string;
  accounts : list Account.t;
  selectedAccount : string;
  holdings : list TokenHolding.t;
  page : nat;
  rowsPerPage : nat;
  error : option string
}.
End View.

(** The state at the first render. *)
Definition initial_view : View.t := View.mk "" [] "" [] 0 10 None.

(** [array.slice(start, end)] for indices that are not negative. *)
Definition slice {A} (start finish : nat) (l : list A) : list A :=
  firstn (finish - start) (skipn start l).

(** [array.map((x, i) => f(x, i))], counting from [i]. *)
Fixpoint mapi {A B} (f : A -> nat -> B) (i : nat) (l : list A) : list B :=
  match l with
  | [] => []
  | x :: rest => f x i :: mapi f (S i) rest
  end.

(** The truth value of an optional boolean: [undefined] is falsy. *)
Definition truthy (b : option bool) : bool :=
  match b with Some true => true | _ => false end.

(** [handleChangePage] *)
Definition handleChangePage (newPage : nat) (v : View.t) : View.t :=
  View.mk (View.walletService v) (View.accounts v) (View.selectedAccount v)
          (View.holdings v) newPage (View.rowsPerPage v) (View.error v).

(** [handleChangeRowsPerPage], given the number [parseInt] reads from the
    option chosen in the pagination control. *)
Definition handleChangeRowsPerPage (value : nat) (v : View.t) : View.t :=
  View.mk (View.walletService v) (View.accounts v) (View.selectedAccount v)
          (View.holdings v) 0 value (View.error v).

(** The rows of the table body:
    [holdings.slice(page * rowsPerPage, page * rowsPerPage + rowsPerPage)]. *)
Definition rows (v : View.t) : list TokenHolding.t :=
  slice (View.page v * View.rowsPerPage v)
        (View.page v * View.rowsPerPage v + View.rowsPerPage v)
        (View.holdings v).

(** [checked={holding.selected || false}] *)
Definition checked (holding : TokenHolding.t) : bool :=
  truthy (TokenHolding.selected holding).

(** The holding [handleHoldingSelection] puts in the place of [holding],
    which stands at position [i]. *)
Definition toggled_at (index : nat) (holding : TokenHolding.t) (i : nat)
  : TokenHolding.t :=
  TokenHolding.mk (TokenHolding.symbol holding) (TokenHolding.chain holding)
    (TokenHolding.quantity holding)
    (if (i =? index)%nat
     then Some (negb (truthy (TokenHolding.selected holding)))
     else TokenHolding.selected holding).

(** [handleHoldingSelection].  The checkbox of a row calls it with the
    position of the row within the rows shown. *)
Definition handleHoldingSelection (index : nat) (v : View.t) : View.t :=
  View.mk (View.walletService v) (View.accounts v) (View.selectedAccount v)
          (mapi (toggled_at index) 0 (View.holdings v))
          (View.page v) (View.rowsPerPage v) (View.error v).

(** [formatAddress]: [address.slice(0, 6)], three dots, [address.slice(-4)].
    An address is a string of ASCII characters. *)
Definition formatAddress (address : string) : string :=
  (substring 0 6 address ++ "..." ++
   substring (String.length address - 4) 4 address)%string.

(** [err instanceof Error]: the objects this code catches here are made by
    the constructors [Error] and [MetaMaskError], which set their name. *)
Definition instanceof_Error (e : JsError) : bool :=
  (err_name e =? "Error") || (err_name e =? "MetaMaskError").

(** [handleWalletServiceChange], in a browser whose wallet is [ethereum].
    The state updates of a handler are applied together when it is done. *)
Definition handleWalletServiceChange (ethereum : option Wallet) (value : string)
    (v : View.t) : M World View.t :=
  if value =? "metamask" then
    try_catch
      (if negb (isMetaMaskInstalled (Browser ethereum)) then
         ret (View.mk "" (View.accounts v) (View.selectedAccount v)
                (View.holdings v) (View.page v) (View.rowsPerPage v)
                (Some "MetaMask is not installed. Please install MetaMask to continue."))
       else
         newAccounts <- connectMetaMask (Browser ethereum) ;;
         ret (match newAccounts with
              | first :: _ =>
                  View.mk value newAccounts (Account.address first)
                          (Account.holdings first) (View.page v)
                          (View.rowsPerPage v) None
              | [] =>
                  View.mk value newAccounts (View.selectedAccount v)
                          (View.holdings v) (View.page v) (View.rowsPerPage v)
                          None
              end))
      (fun err =>
         ret (View.mk "" (View.accounts v) (View.selectedAccount v)
                (View.holdings v) (View.page v) (View.rowsPerPage v)
                (Some (if instanceof_Error err then err_message err
                       else "Failed to connect to MetaMask"))))
  else ret v.

(** The callback the component passes to [setupAccountChangeListener], run
    on the accounts the wallet reports. *)
Definition onAccountsChanged (ethereum : option Wallet)
    (newAccounts : list string) (v : View.t) : M World View.t :=
  try_catch
    (accountsWithHoldings <-
       Promise_all
         (map (fun address =>
                 holdings <- getAccountHoldings ethereum address ;;
                 ret (Account.mk address holdings))
              newAccounts) ;;
     ret (match accountsWithHoldings with
          | first :: _ =>
              View.mk (View.walletService v) accountsWithHoldings
                      (Account.address first) (Account.holdings first)
                      (View.page v) (View.rowsPerPage v) (View.error v)
          | [] =>
              View.mk (View.walletService v) accountsWithHoldings
                      (View.selectedAccount v) (View.holdings v)
                      (View.page v) (View.rowsPerPage v) (View.error v)
          end))
    (fun err =>
       console_error "Error updating accounts:" err ;;
       ret v).

(** [updateHoldings], the effect that follows a change of the selected
    account. *)
Definition updateHoldings (ethereum : option Wallet) (v : View.t)
  : M World View.t :=
  if View.selectedAccount v =? "" then ret v
  else
    newHoldings <- getAccountHoldings ethereum (View.selectedAccount v) ;;
    ret (View.mk (View.walletService v) (View.accounts v)
                 (View.selectedAccount v) newHoldings (View.page v)
                 (View.rowsPerPage v) (View.error v)).

(** A view with three holdings on its second page of two rows. *)
Definition sample_view : View.t :=
  View.mk "metamask" [] "0xX"
    [TokenHolding.mk "ETH" "ETHEREUM" "1.0" (Some false);
     TokenHolding.mk "TETHER" "ETHEREUM" "0.5" (Some false);
     TokenHolding.mk "MATIC" "POLYGON" "2.5" (Some false)]
    1 2 None.

(* ------------------------------------------------------------------ *)
(** ** The native-balance variant of the library

    The second part of the source file is a variant of the library that
    reads the native balance of eight networks straight from the wallet,
    without providers, token contracts or a wait for the network change. *)

Module NativeOnly.

(** JavaScript number arithmetic is floating point and stays outside this
    model; what the code computes with it is taken as given:
    [quantity_text balance] is [(parseInt(balance, 16) / 1e18).toFixed(4)],
    [positive quantity] is [parseFloat(quantity) > 0], and
    [number_text chainId] is the text of [parseInt(chainId, 16)] in a
    template string. *)
Record Numbers := mkNumbers {
  quantity_text : string -> string;
  positive : string -> bool;
  number_text : string -> string
}.

(** The requests of this variant, all through [window.ethereum.request]. *)
Inductive Request :=
| wallet_switchEthereumChain (chainId : string)
| eth_getBalance (address block : string)
| eth_chainId.

(** The simulated wallet: its replies to the switch request for a network,
    and to the balance query and the chain-id query that follow a switch to
    that network. *)
Record Wallet := mkWallet {
  switch_reply : string -> Result unit;
  balance_reply : string -> string -> Result string;
  chainId_reply : string -> Result string
}.

(** What this variant changes on the page: the log of the requests and the
    console. *)
Record Page := mkPage {
  requests : list Request;
  console : list (string * JsError)
}.

Definition send {A} (r : Request) (reply : Result A) : M Page A :=
  fun p => (reply, mkPage (requests p ++ [r]) (console p)).

(** [console.error(message, error)] *)
Definition console_error (message : string) (error : JsError) : M Page unit :=
  fun p => (Ok tt, mkPage (requests p) (console p ++ [(message, error)])).

(** [chainNames], the object literal of [getChainName]. *)
Definition chainNames : list (string * string) :=
  [ ("0x1", "ETHEREUM"); ("0x38", "BNB CHAIN"); ("0x89", "POLYGON");
    ("0xa", "OPTIMISM"); ("0xa4b1", "ARBITRUM ONE"); ("0x2105", "BASE");
    ("0xfa", "FANTOM"); ("0xa86a", "AVALANCHE") ].

(** [chainSymbols], the object literal of [getNativeTokenSymbol]. *)
Definition chainSymbols : list (string * string) :=
  [ ("0x1", "ETH"); ("0x38", "BNB"); ("0x89", "MATIC"); ("0xa", "ETH");
    ("0xa4b1", "ETH"); ("0x2105", "ETH"); ("0xfa", "FTM"); ("0xa86a", "AVAX") ].

(** [table[key]] on an object literal whose keys are chain identifiers. *)
Fixpoint lookup (key : string) (table : list (string * string))
  : option string :=
  match table with
  | [] => None
  | (k, value) :: rest => if k =? key then Some value else lookup key rest
  end.

(** [table[key] || fallback]: every value of the two tables is a non-empty
    string, so the fallback stands for a missing key. *)
Definition lookup_or (key : string) (table : list (string * string))
    (fallback : string) : string :=
  match lookup key table with
  | Some value => value
  | None => fallback
  end.

(** [getChainName]: the reply to [eth_chainId] is not used. *)
Definition getChainName (js : Numbers) (ethereum : option Wallet)
    (chainId : string) : M Page string :=
  match ethereum with
  | None => throw (MetaMaskError "MetaMask not installed")
  | Some wallet =>
      try_catch
        (send eth_chainId (chainId_reply wallet chainId) ;;
         ret (lookup_or chainId chainNames
                        ("CHAIN " ++ number_text js chainId)%string))
        (fun error =>
           console_error "Error getting chain name:" error ;;
           ret ("CHAIN " ++ number_text js chainId)%string)
  end.

(** [getNativeTokenSymbol] *)
Definition getNativeTokenSymbol (chainId : string) : M Page string :=
  ret (lookup_or chainId chainSymbols "ETH").

(** [getTokenBalance] of this variant: switch, then read the balance. *)
Definition getTokenBalance (js : Numbers) (ethereum : option Wallet)
    (address chainId : string) : M Page (option TokenHolding.t) :=
  match ethereum with
  | None => throw (MetaMaskError "MetaMask not installed")
  | Some wallet =>
      try_catch
        (send (wallet_switchEthereumChain chainId)
              (switch_reply wallet chainId) ;;
         balance <- send (eth_getBalance address "latest")
                         (balance_reply wallet chainId address) ;;
         let quantity := quantity_text js balance in
         if positive js quantity then
           symbol <- getNativeTokenSymbol chainId ;;
           chain <- getChainName js ethereum chainId ;;
           ret (Some (TokenHolding.mk symbol chain quantity (Some false)))
         else ret None)
        (fun error =>
           if match err_code error with
              | Some c => (c =? 4902)%Z
              | None => false
              end
           then ret None
           else
             console_error "Error fetching token balance:" error ;;
             ret None)
  end.

(** The [chainIds] of [getAccountHoldings]. *)
Definition chainIds : list string :=
  ["0x1"; "0x38"; "0x89"; "0xa"; "0xa4b1"; "0x2105"; "0xfa"; "0xa86a"].

(** An operation on the page, run next to the local array [holdings]. *)
Definition inner {A} (m : M Page A) : M (list TokenHolding.t * Page) A :=
  fun f =>
    let (r, p) := m (snd f) in (r, (fst f, p)).

(** [holdings.push(holding)] *)
Definition push (holding : TokenHolding.t)
  : M (list TokenHolding.t * Page) unit :=
  fun f => (Ok tt, (fst f ++ [holding], snd f)).

(** The body of the loop of [getAccountHoldings] for one identifier. *)
Definition visit (js : Numbers) (ethereum : option Wallet)
    (address chainId : string) : M (list TokenHolding.t * Page) unit :=
  try_catch
    (holding <- inner (getTokenBalance js ethereum address chainId) ;;
     match holding with
     | Some h => push h
     | None => ret tt
     end)
    (fun error =>
       inner (console_error
                ("Error fetching balance for chain " ++ chainId ++ ":")%string
                error)).

(** [getAccountHoldings] of this variant: it does not look for the wallet
    itself. *)
Definition getAccountHoldings (js : Numbers) (ethereum : option Wallet)
    (address : string) : M Page (list TokenHolding.t) :=
  fun p =>
    match for_of chainIds (visit js ethereum address) ([], p) with
    | (Ok _, (holdings, p')) => (Ok holdings, p')
    | (Err e, (_, p')) => (Err e, p')
    end.

(** What one network gives for an address: its holding if the switch and
    the balance query succeed and the quantity is positive. *)
Definition reading (js : Numbers) (wallet : Wallet) (address chainId : string)
  : option TokenHolding.t :=
  match switch_reply wallet chainId, balance_reply wallet chainId address with
  | Ok _, Ok balance =>
      if positive js (quantity_text js balance) then
        Some (TokenHolding.mk
                (lookup_or chainId chainSymbols "ETH")
                (match chainId_reply wallet chainId with
                 | Ok _ => lookup_or chainId chainNames
                             ("CHAIN " ++ number_text js chainId)%string
                 | Err _ => ("CHAIN " ++ number_text js chainId)%string
                 end)
                (quantity_text js balance) (Some false))
      else None
  | _, _ => None
  end.

(** Stand-ins for the number functions, exact on the sample below. *)
Definition sample_numbers : Numbers :=
  mkNumbers
    (fun balance => if balance =? "0xde0b6b3a7640000" then "1.0000" else "0.0000")
    (fun quantity => negb (quantity =? "0.0000"))
    (fun chainId => if chainId =? "0x38" then "56" else "1").

(** A wallet that holds one unit on Ethereum and on BNB Chain, cannot tell
    its chain identifier on BNB Chain, does not know Polygon and refuses the
    other networks. *)
Definition sample_wallet : Wallet :=
  mkWallet
    (fun chainId =>
       if (chainId =? "0x1") || (chainId =? "0x38") then Ok tt
       else if chainId =? "0x89"
            then Err (mkJsError "Error" "Unrecognized chain ID" (Some 4902%Z))
            else Err (mkJsError "Error" "User rejected the request."
                                (Some 4001%Z)))
    (fun _ _ => Ok "0xde0b6b3a7640000")
    (fun chainId =>
       if chainId =? "0x38" then Err (Error "disconnected") else Ok chainId).

Definition page0 : Page := mkPage [] [].

End NativeOnly.

(* ------------------------------------------------------------------ *)
(** * Proofs *)


Lemma has_nonzero_digit_app (s t : string) :
  has_nonzero_digit (s ++ t)%string = has_nonzero_digit s || has_nonzero_digit t.
Proof.
  induction s as [|c s IH]; simpl; [reflexivity|].
  rewrite IH. apply orb_assoc.
Qed.

Lemma uint_all_zero (u : Decimal.uint) :
  has_nonzero_digit (NilEmpty.string_of_uint u) = false -> N.of_uint u = 0%N.
Proof.
  unfold N.of_uint.
  induction u; simpl; intros H; try reflexivity; try discriminate H.
  apply IHu. exact H.
Qed.

Lemma decimal_nonzero (n : N) :
  n <> 0%N -> has_nonzero_digit (decimal n) = true.
Proof.
  intros Hn. unfold decimal.
  destruct (has_nonzero_digit (NilEmpty.string_of_uint (N.to_uint n))) eqn:E;
    [reflexivity|].
  apply uint_all_zero in E.
  rewrite DecimalN.Unsigned.of_to in E. contradiction.
Qed.

Lemma drop_trailing_zeros_nonzero (s : string) :
  has_nonzero_digit (drop_trailing_zeros s) = has_nonzero_digit s.
Proof.
  induction s as [|c s IH]; simpl; [reflexivity|].
  destruct (drop_trailing_zeros s) as [|c' s'] eqn:E.
  - rewrite <- IH. simpl.
    destruct (Ascii.eqb_spec c "0"%char) as [->|]; simpl; [reflexivity|].
    rewrite orb_false_r. reflexivity.
  - rewrite <- IH. reflexivity.
Qed.

Lemma strip_nonzero (s : string) :
  has_nonzero_digit s = true -> has_nonzero_digit (strip s) = true.
Proof.
  intros H. unfold strip.
  rewrite <- drop_trailing_zeros_nonzero in H.
  destruct (drop_trailing_zeros s); [discriminate H | exact H].
Qed.

Lemma formatUnits_nonzero (value : Z) (decimals : nat) :
  value <> 0%Z -> zero_quantity (formatUnits value decimals) = false.
Proof.
  intros Hv. unfold zero_quantity. apply negb_false_iff.
  unfold formatUnits.
  set (m := (10 ^ N.of_nat decimals)%N).
  set (a := Z.abs_N value).
  assert (Hm : m <> 0%N) by (unfold m; apply N.pow_nonzero; discriminate).
  assert (Ha : a <> 0%N) by (unfold a; lia).
  assert (Hparts : (a / m <> 0 \/ a mod m <> 0)%N).
  { destruct (N.eq_dec (a / m) 0) as [Hq|]; [right | left; assumption].
    intros Hr. apply Ha.
    rewrite (N.div_mod a m Hm), Hq, Hr. lia. }
  assert (Hbody : has_nonzero_digit
            match decimals with
            | O => decimal (a / m)
            | S _ => (decimal (a / m) ++ "." ++
                      strip (pad decimals (decimal (a mod m))))%string
            end = true).
  { destruct decimals as [|d].
    - apply decimal_nonzero. unfold m in *. simpl in *.
      rewrite N.div_1_r in *. destruct Hparts as [H|H]; [exact H|].
      rewrite N.mod_1_r in H. contradiction.
    - rewrite !has_nonzero_digit_app.
      destruct Hparts as [H|H].
      + rewrite (decimal_nonzero _ H). reflexivity.
      + apply orb_true_iff. right. apply orb_true_iff. right.
        apply strip_nonzero. unfold pad. rewrite has_nonzero_digit_app.
        rewrite (decimal_nonzero _ H). apply orb_true_r. }
  destruct (value <? 0)%Z; [|exact Hbody].
  rewrite has_nonzero_digit_app, Hbody. apply orb_true_r.
Qed.



(* ------------------------------------------------------------------ *)
(** ** Reading a quantity back *)

Lemma digits_value_uint (u : Decimal.uint) (acc : N) :
  digits_value (NilEmpty.string_of_uint u) acc = Some (uint_value u acc).
Proof.
  revert acc.
  induction u; intros acc; cbn [NilEmpty.string_of_uint digits_value uint_value];
    try reflexivity.
  all: match goal with
       | |- context [digit_value ?c] =>
           let v := eval vm_compute in (digit_value c) in
           change (digit_value c) with v
       end.
  all: cbv iota beta; rewrite IHu; try reflexivity.
  rewrite N.add_0_r. reflexivity.
Qed.

Lemma uint_value_acc (u : Decimal.uint) (p : positive) :
  uint_value u (N.pos p) = N.pos (Pos.of_uint_acc u p).
Proof.
  revert p. induction u; intros p; cbn [uint_value Pos.of_uint_acc];
    try reflexivity;
    match goal with
    | |- uint_value _ ?a = N.pos (Pos.of_uint_acc _ ?q) =>
        replace a with (N.pos q) by lia
    end; apply IHu.
Qed.

Lemma uint_value_of_uint (u : Decimal.uint) : uint_value u 0 = N.of_uint u.
Proof.
  unfold N.of_uint.
  induction u; cbn [uint_value Pos.of_uint]; try reflexivity;
    try (rewrite N.mul_0_r, N.add_0_l; apply uint_value_acc).
  rewrite N.mul_0_r. exact IHu.
Qed.

(** Reading the rendering of a number gives the number. *)
Lemma digits_value_decimal (n : N) : digits_value (decimal n) 0 = Some n.
Proof.
  unfold decimal.
  rewrite digits_value_uint, uint_value_of_uint, DecimalN.Unsigned.of_to.
  reflexivity.
Qed.

Lemma length_string_of_uint (u : Decimal.uint) :
  String.length (NilEmpty.string_of_uint u) = Decimal.nb_digits u.
Proof. induction u; simpl; congruence. Qed.

Lemma uint_value_lower (u : Decimal.uint) (acc : N) :
  (acc * 10 ^ N.of_nat (Decimal.nb_digits u) <= uint_value u acc)%N.
Proof.
  revert acc.
  induction u; intros acc; cbn [uint_value Decimal.nb_digits];
    [rewrite N.pow_0_r; lia | ..];
    rewrite Nat2N.inj_succ, N.pow_succ_r';
    (eapply N.le_trans; [|apply IHu]);
    set (k := (10 ^ N.of_nat (Decimal.nb_digits u))%N); nia.
Qed.

(** The rendering of a number below [10^width] has at most [width] digits,
    one digit at least being allowed. *)
Lemma length_decimal (n : N) (width : nat) :
  (n < 10 ^ N.of_nat (S width))%N -> String.length (decimal n) <= S width.
Proof.
  intros Hn. unfold decimal. rewrite length_string_of_uint.
  destruct n as [|p]; [simpl; lia|].
  assert (Hval : uint_value (N.to_uint (N.pos p)) 0 = N.pos p)
    by (rewrite uint_value_of_uint; apply DecimalN.Unsigned.of_to).
  assert (Hnorm : Decimal.unorm (N.to_uint (N.pos p)) = N.to_uint (N.pos p)).
  { rewrite <- DecimalN.Unsigned.to_of, DecimalN.Unsigned.of_to. reflexivity. }
  destruct (Nat.le_gt_cases (Decimal.nb_digits (N.to_uint (N.pos p))) (S width))
    as [Hle|Hgt]; [exact Hle | exfalso].
  assert (Hbig : (10 ^ N.of_nat (S width) <= uint_value (N.to_uint (N.pos p)) 0)%N).
  { destruct (N.to_uint (N.pos p)) as [|u|u|u|u|u|u|u|u|u|u] eqn:Eu;
      cbn [uint_value Decimal.nb_digits] in *; try lia.
    2-10: (eapply N.le_trans; [|apply uint_value_lower];
           rewrite N.mul_0_r, N.add_0_l;
           (eapply N.le_trans;
            [apply (N.pow_le_mono_r 10 (N.of_nat (S width))
                      (N.of_nat (Decimal.nb_digits u))); lia|]);
           set (k := (10 ^ N.of_nat (Decimal.nb_digits u))%N); nia).
    exfalso. unfold Decimal.unorm in Hnorm. cbn [Decimal.nzhead] in Hnorm.
    destruct (Decimal.nzhead u) eqn:Enz;
      try (apply (DecimalFacts.nzhead_nonzero u u); congruence).
    injection Hnorm as <-. cbn in Hgt. lia. }
  rewrite Hval in Hbig. lia.
Qed.

Lemma digits_value_zeros (k : nat) (s : string) :
  digits_value (zeros k ++ s)%string 0 = digits_value s 0.
Proof. induction k as [|k IH]; [reflexivity | exact IH]. Qed.

Lemma length_zeros (k : nat) : String.length (zeros k) = k.
Proof. induction k as [|k IH]; simpl; congruence. Qed.

Lemma length_app (s t : string) :
  String.length (s ++ t)%string = String.length s + String.length t.
Proof. induction s as [|c s IH]; simpl; congruence. Qed.

Lemma length_pad (width : nat) (s : string) :
  String.length s <= width -> String.length (pad width s) = width.
Proof. intros H. unfold pad. rewrite length_app, length_zeros. lia. Qed.

Lemma length_drop_trailing_zeros (s : string) :
  String.length (drop_trailing_zeros s) <= String.length s.
Proof.
  induction s as [|c s IH]; simpl; [lia|].
  destruct (drop_trailing_zeros s); [destruct (Ascii.eqb c "0")|];
    simpl in *; lia.
Qed.

(** The zeros that were dropped, put back. *)
Lemma drop_trailing_zeros_restore (s : string) :
  (drop_trailing_zeros s ++
   zeros (String.length s - String.length (drop_trailing_zeros s)))%string = s.
Proof.
  induction s as [|c s IH]; [reflexivity|]. cbn [drop_trailing_zeros].
  pose proof (length_drop_trailing_zeros s) as Hlen.
  destruct (drop_trailing_zeros s) as [|c' kept] eqn:Ekept.
  - simpl in IH. rewrite Nat.sub_0_r in IH.
    destruct (Ascii.eqb_spec c "0"%char) as [->|_]; simpl;
      rewrite ?Nat.sub_0_r, IH; reflexivity.
  - simpl in *. rewrite IH. reflexivity.
Qed.

Lemma strip_restore (s : string) :
  1 <= String.length s ->
  String.length (strip s) <= String.length s /\
  (strip s ++ zeros (String.length s - String.length (strip s)))%string = s.
Proof.
  intros Hs. unfold strip.
  pose proof (length_drop_trailing_zeros s) as Hlen.
  pose proof (drop_trailing_zeros_restore s) as Hback.
  destruct (drop_trailing_zeros s) as [|c kept].
  - cbn [String.length append] in *. rewrite Nat.sub_0_r in Hback.
    split; [exact Hs|].
    destruct (String.length s) as [|k]; [lia|].
    cbn [zeros] in Hback. rewrite Nat.sub_succ, Nat.sub_0_r. exact Hback.
  - split; [exact Hlen | exact Hback].
Qed.

Lemma split_point_whole (u : Decimal.uint) :
  split_point (NilEmpty.string_of_uint u) = (NilEmpty.string_of_uint u, None).
Proof.
  induction u; cbn [NilEmpty.string_of_uint split_point]; try reflexivity;
    match goal with
    | |- context [Ascii.eqb ?c "."%char] =>
        change (Ascii.eqb c "."%char) with false
    end; cbv iota; rewrite IHu; reflexivity.
Qed.

Lemma split_point_fraction (u : Decimal.uint) (fraction : string) :
  split_point (NilEmpty.string_of_uint u ++ "." ++ fraction)%string =
  (NilEmpty.string_of_uint u, Some fraction).
Proof.
  induction u; cbn [NilEmpty.string_of_uint split_point append];
    try reflexivity;
    match goal with
    | |- context [Ascii.eqb ?c "."%char] =>
        change (Ascii.eqb c "."%char) with false
    end; cbv iota; cbn [append] in IHu; rewrite IHu; reflexivity.
Qed.

(** What is rendered without a sign starts with a digit, not with a minus
    sign. *)
Lemma decimal_head (n : N) (rest : string) :
  exists c tail,
    (decimal n ++ rest)%string = String c tail /\ Ascii.eqb c "-" = false.
Proof.
  unfold decimal.
  assert (Hnil : N.to_uint n <> Decimal.Nil).
  { destruct n; [discriminate | apply DecimalPos.Unsigned.to_uint_nonnil]. }
  destruct (N.to_uint n); [contradiction | ..];
    cbn [NilEmpty.string_of_uint append]; eexists; eexists;
    (split; [reflexivity | reflexivity]).
Qed.

Lemma parse_unsigned_format (magnitude : N) (decimals : nat) :
  let multiplier := (10 ^ N.of_nat decimals)%N in
  parse_unsigned
    match decimals with
    | O => decimal (magnitude / multiplier)
    | S _ =>
        (decimal (magnitude / multiplier) ++ "." ++
         strip (pad decimals (decimal (magnitude mod multiplier))))%string
    end decimals = Some magnitude.
Proof.
  cbv zeta. unfold parse_unsigned.
  destruct decimals as [|d].
  - unfold decimal at 1. rewrite split_point_whole.
    fold (decimal (magnitude / 10 ^ N.of_nat 0)).
    rewrite digits_value_decimal. simpl. rewrite N.div_1_r. reflexivity.
  - set (m := (10 ^ N.of_nat (S d))%N).
    assert (Hm : m <> 0%N) by (apply N.pow_nonzero; discriminate).
    unfold decimal at 1. rewrite split_point_fraction.
    fold (decimal (magnitude / m)).
    assert (Hlen : String.length (decimal (magnitude mod m)) <= S d)
      by (apply length_decimal, N.mod_lt, Hm).
    pose proof (length_pad (S d) _ Hlen) as Hpad.
    destruct (strip_restore (pad (S d) (decimal (magnitude mod m))))
      as [Hshort Hback]; [lia|].
    rewrite Hpad in Hshort, Hback.
    apply Nat.leb_le in Hshort. rewrite Hshort, Hback.
    unfold pad. rewrite digits_value_zeros, !digits_value_decimal.
    f_equal. rewrite N.mul_comm. symmetry. apply N.div_mod. exact Hm.
Qed.

(** Scaling loses nothing: reading a formatted quantity back at the same
    number of decimals gives the raw amount. *)
Lemma parseUnits_formatUnits (value : Z) (decimals : nat) :
  parseUnits (formatUnits value decimals) decimals = Some value.
Proof.
  unfold formatUnits. cbv zeta.
  pose proof (parse_unsigned_format (Z.abs_N value) decimals) as Hparse.
  cbv zeta in Hparse.
  assert (Hhead : exists c tail,
            match decimals with
            | O => decimal (Z.abs_N value / 10 ^ N.of_nat decimals)
            | S _ =>
                (decimal (Z.abs_N value / 10 ^ N.of_nat decimals) ++ "." ++
                 strip (pad decimals
                          (decimal (Z.abs_N value mod 10 ^ N.of_nat decimals))))%string
            end = String c tail /\ Ascii.eqb c "-" = false).
  { destruct decimals as [|d]; [|apply decimal_head].
    destruct (decimal_head (Z.abs_N value / 10 ^ N.of_nat 0) "")
      as (c & tail & Heq & Hc).
    exists c, tail. split; [|exact Hc].
    rewrite <- Heq. clear.
    generalize (decimal (Z.abs_N value / 10 ^ N.of_nat 0)).
    intros s. induction s as [|c s IH]; simpl; congruence. }
  match goal with
  | |- context [if _ then (_ ++ ?b)%string else _] => set (body := b) in *
  end.
  destruct (Z.ltb_spec value 0) as [Hneg|Hpos].
  - cbn [append parseUnits]. change (Ascii.eqb "-" "-") with true. cbv iota.
    rewrite Hparse. cbn [option_map]. f_equal. lia.
  - destruct Hhead as (c & tail & Heq & Hc).
    rewrite Heq in *. cbn [parseUnits]. rewrite Hc, Hparse.
    cbn [option_map]. f_equal. lia.
Qed.



(* ------------------------------------------------------------------ *)
(** ** The wait for the network change *)

#[local] Arguments N.sub : simpl never.
#[local] Arguments N.add : simpl never.
#[local] Arguments N.leb : simpl never.
#[local] Arguments N.ltb : simpl never.

Ltac run :=
  unfold cleanup, bind, ret, throw, try_catch, tick, set_active, new_closure,
    setTimeout, clearTimeout, ethereum_on, ethereum_removeListener, send,
    console_error, delay, new_Web3Provider, ethereum_request; simpl.

Lemma arrival_ge target pending elapsed t :
  arrival target pending elapsed = Some t -> (elapsed <= t)%N.
Proof.
  revert elapsed. induction pending as [|[gap networkId] rest IH];
    intros elapsed H; simpl in H; [discriminate|].
  destruct (networkId =? target).
  - injection H as <-. lia.
  - apply IH in H. lia.
Qed.

Lemma pump_result ethereum target timer listener pending elapsed w :
  fst (pump ethereum target timer listener pending elapsed w) =
  if confirmed pending target elapsed then Ok tt else Err NetworkSwitchTimeout.
Proof.
  revert elapsed w. unfold confirmed.
  induction pending as [|[gap networkId] rest IH]; intros elapsed w; simpl.
  - destruct ethereum; reflexivity.
  - destruct (NETWORK_CHANGE_TIMEOUT <=? elapsed + gap)%N eqn:Elate.
    + apply N.leb_le in Elate.
      assert (Hlate : forall t, (elapsed + gap <= t)%N ->
                (t <? NETWORK_CHANGE_TIMEOUT)%N = false)
        by (intros t Ht; apply N.ltb_ge; lia).
      destruct (networkId =? target).
      * rewrite Hlate by lia. destruct ethereum; reflexivity.
      * destruct (arrival target rest (elapsed + gap)) eqn:Earr.
        -- rewrite Hlate by (eapply arrival_ge; eassumption).
           destruct ethereum; reflexivity.
        -- destruct ethereum; reflexivity.
    + apply N.leb_gt in Elate.
      destruct (networkId =? target) eqn:Eid.
      * assert ((elapsed + gap <? NETWORK_CHANGE_TIMEOUT)%N = true) as ->
          by (apply N.ltb_lt; exact Elate).
        run. destruct ethereum; reflexivity.
      * run. apply IH.
Qed.

Lemma pump_effects ethereum target timer listener pending elapsed w :
  let w' := snd (pump ethereum target timer listener pending elapsed w) in
  listeners w' = unlisten ethereum listener (listeners w) /\
  timers w' = remove Nat.eq_dec timer (timers w) /\
  fresh w' = fresh w /\
  requests w' = requests w /\
  console w' = console w /\
  hooks w' = hooks w ++ closing ethereum timer listener.
Proof.
  revert elapsed w.
  induction pending as [|[gap networkId] rest IH]; intros elapsed w; simpl.
  - destruct ethereum; run; rewrite <- ?app_assoc; repeat split; reflexivity.
  - destruct (NETWORK_CHANGE_TIMEOUT <=? elapsed + gap)%N.
    + destruct ethereum; run; rewrite <- ?app_assoc; repeat split; reflexivity.
    + run. destruct (networkId =? target).
      * destruct ethereum; run; rewrite <- ?app_assoc; repeat split;
          reflexivity.
      * match goal with
        | |- context [pump _ _ _ _ _ ?e ?w1] => exact (IH e w1)
        end.
Qed.

Lemma pump_timeout_clock ethereum target timer listener pending elapsed w :
  (elapsed <= NETWORK_CHANGE_TIMEOUT)%N ->
  confirmed pending target elapsed = false ->
  clock (snd (pump ethereum target timer listener pending elapsed w)) =
  (clock w + (NETWORK_CHANGE_TIMEOUT - elapsed))%N.
Proof.
  revert elapsed w. unfold confirmed.
  induction pending as [|[gap networkId] rest IH]; intros elapsed w Hle Hno;
    simpl in *.
  - destruct ethereum; reflexivity.
  - destruct (NETWORK_CHANGE_TIMEOUT <=? elapsed + gap)%N eqn:Elate.
    + destruct ethereum; reflexivity.
    + apply N.leb_gt in Elate. run.
      destruct (networkId =? target) eqn:Eid; rewrite ?Eid in Hno.
      * apply N.ltb_ge in Hno. unfold NETWORK_CHANGE_TIMEOUT in *. lia.
      * match goal with
        | |- context [pump _ _ _ _ _ ?e ?w1] =>
            rewrite (IH e w1) by (try assumption; lia)
        end.
        simpl. unfold NETWORK_CHANGE_TIMEOUT in *. lia.
Qed.

Lemma pump_confirmed ethereum target timer listener pending elapsed w t :
  arrival target pending elapsed = Some t ->
  (t < NETWORK_CHANGE_TIMEOUT)%N ->
  let w' := snd (pump ethereum target timer listener pending elapsed w) in
  active w' = target /\ clock w' = (clock w + (t - elapsed))%N.
Proof.
  revert elapsed w.
  induction pending as [|[gap networkId] rest IH]; intros elapsed w Harr Ht;
    simpl in *; [discriminate|].
  destruct (networkId =? target) eqn:Eid.
  - injection Harr as <-.
    assert ((NETWORK_CHANGE_TIMEOUT <=? elapsed + gap)%N = false) as ->
      by (apply N.leb_gt; exact Ht).
    apply String.eqb_eq in Eid. subst networkId.
    destruct ethereum; run; split; try reflexivity; f_equal; lia.
  - pose proof (arrival_ge _ _ _ _ Harr) as Hge.
    assert ((NETWORK_CHANGE_TIMEOUT <=? elapsed + gap)%N = false) as ->
      by (apply N.leb_gt; lia).
    run.
    match goal with
    | |- context [pump _ _ _ _ _ ?e ?w1] =>
        destruct (IH e w1 Harr Ht) as [Ha Hc]
    end.
    split; [exact Ha|]. rewrite Hc. simpl. lia.
Qed.

(** What a wait leaves behind, whatever its outcome. *)
Lemma waitForNetworkChange_effects ethereum target w :
  let w' := snd (waitForNetworkChange ethereum target w) in
  listeners w' =
    unlisten ethereum (S (fresh w)) (listen ethereum (S (fresh w)) (listeners w)) /\
  timers w' = remove Nat.eq_dec (fresh w) (timers w ++ [fresh w]) /\
  fresh w' = S (S (fresh w)) /\
  requests w' = requests w /\
  console w' = console w /\
  hooks w' = hooks w ++ opening ethereum (fresh w) (S (fresh w)) ++
                        closing ethereum (fresh w) (S (fresh w)).
Proof.
  unfold waitForNetworkChange.
  destruct ethereum as [wallet|]; run.
  - match goal with
    | |- context [pump ?e ?t ?ti ?li ?p ?el ?w1] =>
        pose proof (pump_effects e t ti li p el w1) as H
    end.
    simpl in *. destruct H as (Hl & Ht & Hf & Hr & Hc & Hh).
    rewrite Hl, Ht, Hf, Hr, Hc, Hh. rewrite <- !app_assoc.
    repeat split; reflexivity.
  - rewrite <- !app_assoc. repeat split; reflexivity.
Qed.

Lemma waitForNetworkChange_result ethereum target w :
  fst (waitForNetworkChange ethereum target w) =
  if confirmed (notifications ethereum target) target 0
  then Ok tt else Err NetworkSwitchTimeout.
Proof.
  unfold waitForNetworkChange.
  destruct ethereum as [wallet|]; run; [apply pump_result | reflexivity].
Qed.

Lemma remove_fresh (x : nat) (l : list nat) :
  Forall (fun i => i < x) l -> remove Nat.eq_dec x (l ++ [x]) = l.
Proof.
  induction l as [|y l IH]; intros H; simpl.
  - destruct (Nat.eq_dec x x); [reflexivity | contradiction].
  - inversion H as [|? ? Hy Hl]; subst.
    destruct (Nat.eq_dec x y); [lia|]. f_equal. apply IH. exact Hl.
Qed.

Lemma Forall_lt_weaken (x y : nat) (l : list nat) :
  x <= y -> Forall (fun i => i < x) l -> Forall (fun i => i < y) l.
Proof.
  intros Hxy H. eapply Forall_impl; [|exact H]. simpl. intros. lia.
Qed.

(** A wait returns the listeners and the timers as it found them. *)
Lemma waitForNetworkChange_restores ethereum target w :
  well_formed w ->
  let w' := snd (waitForNetworkChange ethereum target w) in
  listeners w' = listeners w /\ timers w' = timers w /\ well_formed w'.
Proof.
  intros [Hl Ht].
  destruct (waitForNetworkChange_effects ethereum target w)
    as (El & Et & Ef & _).
  cbv zeta.
  assert (Hl' : listeners (snd (waitForNetworkChange ethereum target w)) =
                listeners w).
  { rewrite El. destruct ethereum; simpl; [|reflexivity].
    apply remove_fresh. eapply Forall_lt_weaken; [|exact Hl]. lia. }
  assert (Ht' : timers (snd (waitForNetworkChange ethereum target w)) =
                timers w).
  { rewrite Et. apply remove_fresh. exact Ht. }
  split; [exact Hl'|]. split; [exact Ht'|].
  unfold well_formed. rewrite Hl', Ht', Ef.
  split; eapply Forall_lt_weaken; try eassumption; lia.
Qed.



Lemma waitForNetworkChange_timeout_clock ethereum target w :
  confirmed (notifications ethereum target) target 0 = false ->
  clock (snd (waitForNetworkChange ethereum target w)) =
  (clock w + NETWORK_CHANGE_TIMEOUT)%N.
Proof.
  intros Hno. unfold waitForNetworkChange.
  destruct ethereum as [wallet|]; run.
  - match goal with
    | |- context [pump ?e ?t ?ti ?li ?p ?el ?w1] =>
        rewrite (pump_timeout_clock e t ti li p el w1)
    end; simpl; try assumption; unfold NETWORK_CHANGE_TIMEOUT; lia.
  - unfold NETWORK_CHANGE_TIMEOUT; lia.
Qed.

Lemma waitForNetworkChange_confirmed ethereum target w t :
  arrival target (notifications ethereum target) 0 = Some t ->
  (t < NETWORK_CHANGE_TIMEOUT)%N ->
  let w' := snd (waitForNetworkChange ethereum target w) in
  active w' = target /\ clock w' = (clock w + t)%N.
Proof.
  intros Harr Ht. unfold waitForNetworkChange.
  destruct ethereum as [wallet|]; [|discriminate Harr]. run.
  match goal with
  | |- context [pump ?e ?tg ?ti ?li ?p ?el ?w1] =>
      destruct (pump_confirmed e tg ti li p el w1 t Harr Ht) as [Ha Hc]
  end.
  split; [exact Ha|]. rewrite Hc. simpl. f_equal. lia.
Qed.

Lemma waitForNetworkChange_active ethereum target w :
  fst (waitForNetworkChange ethereum target w) = Ok tt ->
  active (snd (waitForNetworkChange ethereum target w)) = target.
Proof.
  rewrite waitForNetworkChange_result. unfold confirmed.
  destruct (arrival target (notifications ethereum target) 0) as [t|] eqn:Harr;
    [|discriminate].
  destruct (t <? NETWORK_CHANGE_TIMEOUT)%N eqn:Ht; [|discriminate].
  intros _. apply N.ltb_lt in Ht.
  apply (waitForNetworkChange_confirmed ethereum target w t Harr Ht).
Qed.

(* ------------------------------------------------------------------ *)
(** ** The switch *)

(** [switchChain] with a wallet, branch by branch. *)
Lemma switchChain_unfold wallet chainId w :
  switchChain (Some wallet) chainId w =
  let w1 := logged (wallet_switchEthereumChain chainId) w in
  match switch_reply wallet chainId with
  | Ok _ => after_wait wallet (waitForNetworkChange (Some wallet) chainId w1)
  | Err e =>
      if unrecognized e then
        match find (fun c => Chain.chainId c =? chainId)
                   (Object_values SUPPORTED_CHAINS) with
        | Some chain =>
            let w2 := logged (wallet_addEthereumChain (add_params chain)) w1 in
            match add_reply wallet (add_params chain) with
            | Ok _ =>
                after_wait wallet (waitForNetworkChange (Some wallet) chainId w2)
            | Err e' => (Err e', w2)
            end
        | None => (Err e, w1)
        end
      else (Err e, w1)
  end.
Proof.
  unfold logged, switchChain, try_catch, bind, ethereum_request, send,
    after_wait. cbn [fst snd].
  destruct (switch_reply wallet chainId) as [[]|e].
  - match goal with
    | |- context [waitForNetworkChange ?e ?t ?w1] =>
        pose proof (waitForNetworkChange_result e t w1) as Hr;
        destruct (waitForNetworkChange e t w1) as [[[]|err] w'] eqn:Ew
    end; cbn [fst] in Hr.
    + reflexivity.
    + destruct (confirmed _ _ _); [discriminate|].
      injection Hr as ->. reflexivity.
  - fold (unrecognized e). destruct (unrecognized e); [|reflexivity].
    destruct (find _ _) as [chain|]; [|reflexivity].
    cbv zeta.
    destruct (add_reply wallet (add_params chain)) as [[]|e']; [|reflexivity].
    destruct (waitForNetworkChange _ _ _) as [[[]|err] w']; reflexivity.
Qed.

(** Without a wallet the wait can only time out. *)
Lemma switchChain_no_wallet chainId w :
  switchChain None chainId w =
  (Err NetworkSwitchTimeout, snd (waitForNetworkChange None chainId w)).
Proof. reflexivity. Qed.

Lemma after_wait_result wallet chainId w :
  fst (after_wait wallet (waitForNetworkChange (Some wallet) chainId w)) =
  if confirmed (emits wallet chainId) chainId 0
  then Ok (mkWeb3Provider wallet chainId)
  else Err NetworkSwitchTimeout.
Proof.
  pose proof (waitForNetworkChange_result (Some wallet) chainId w) as Hr.
  pose proof (waitForNetworkChange_active (Some wallet) chainId w) as Ha.
  unfold after_wait.
  destruct (waitForNetworkChange (Some wallet) chainId w) as [[[]|e] w'];
    cbn [fst snd notifications] in *.
  - rewrite Ha by reflexivity.
    destruct (confirmed _ _ _); [reflexivity | discriminate].
  - destruct (confirmed _ _ _); [discriminate|].
    injection Hr as ->. reflexivity.
Qed.

Lemma after_wait_world wallet waited :
  snd (after_wait wallet waited) = snd waited.
Proof. destruct waited as [[[]|e] w']; reflexivity. Qed.

Lemma switchChain_result ethereum chainId w :
  fst (switchChain ethereum chainId w) = switch_outcome ethereum chainId.
Proof.
  destruct ethereum as [wallet|]; [|reflexivity].
  rewrite switchChain_unfold. unfold switch_outcome. cbv zeta.
  destruct (switch_reply wallet chainId) as [[]|e].
  - apply after_wait_result.
  - destruct (unrecognized e); [|reflexivity].
    destruct (find _ _) as [chain|]; [|reflexivity].
    destruct (add_reply wallet (add_params chain)) as [[]|e']; [|reflexivity].
    apply after_wait_result.
Qed.

Lemma switchChain_effects ethereum chainId w :
  let w' := snd (switchChain ethereum chainId w) in
  hooks w' = hooks w ++ switch_hooks ethereum chainId (fresh w) /\
  requests w' = requests w ++ switch_requests ethereum chainId /\
  console w' = console w /\
  (well_formed w ->
   listeners w' = listeners w /\ timers w' = timers w /\ well_formed w').
Proof.
  cbv zeta. unfold switch_hooks, switch_requests, reaches_wait.
  assert (Hwait : forall r wallet' w1,
            hooks w1 = hooks w -> fresh w1 = fresh w ->
            listeners w1 = listeners w -> timers w1 = timers w ->
            console w1 = console w -> requests w1 = requests w ++ r ->
            let w' := snd (waitForNetworkChange wallet' chainId w1) in
            hooks w' = hooks w ++ opening wallet' (fresh w) (S (fresh w)) ++
                                  closing wallet' (fresh w) (S (fresh w)) /\
            requests w' = requests w ++ r /\
            console w' = console w /\
            (well_formed w ->
             listeners w' = listeners w /\ timers w' = timers w /\
             well_formed w')).
  { intros r wallet' w1 Hh Hf Hl Ht Hc Hr.
    destruct (waitForNetworkChange_effects wallet' chainId w1)
      as (_ & _ & _ & Er & Ec & Eh).
    cbv zeta. rewrite Eh, Er, Ec, Hh, Hf, Hc, Hr.
    split; [reflexivity|]. split; [reflexivity|]. split; [reflexivity|].
    intros Hwf.
    assert (Hwf1 : well_formed w1)
      by (unfold well_formed; rewrite Hl, Ht, Hf; assumption).
    destruct (waitForNetworkChange_restores wallet' chainId w1 Hwf1)
      as (Rl & Rt & Rw).
    split; [congruence|]. split; [congruence | exact Rw]. }
  destruct ethereum as [wallet|].
  - rewrite switchChain_unfold. unfold logged, send. cbn [snd]. cbv zeta.
    destruct (switch_reply wallet chainId) as [[]|e].
    + rewrite after_wait_world. apply Hwait; reflexivity.
    + destruct (unrecognized e); cbn [andb];
        [|simpl; rewrite !app_nil_r; tauto].
      destruct (find _ _) as [chain|];
        [|simpl; rewrite !app_nil_r; tauto].
      destruct (add_reply wallet (add_params chain)) as [[]|e']; cbn [is_ok].
      * rewrite after_wait_world. apply Hwait; try reflexivity.
        simpl. rewrite <- app_assoc. reflexivity.
      * simpl. rewrite !app_nil_r, <- app_assoc. tauto.
  - rewrite switchChain_no_wallet. cbn [snd].
    replace (requests w ++ []) with (requests w ++ @nil Request) by reflexivity.
    apply Hwait; try reflexivity. rewrite app_nil_r. reflexivity.
Qed.



(* ------------------------------------------------------------------ *)
(** ** What the reader returns *)

Lemma getNativeTokenBalance_result provider address chain w :
  fst (getNativeTokenBalance provider address chain w) =
  Ok (native_reading provider address chain).
Proof.
  unfold getNativeTokenBalance, native_reading. run.
  destruct (native_raw _ _ _) as [balance|e]; simpl; [|reflexivity].
  destruct (isZero balance); reflexivity.
Qed.

Lemma getTokenBalance_result provider tokenAddress walletAddress chainName w :
  fst (getTokenBalance provider tokenAddress walletAddress chainName w) =
  Ok (token_reading provider tokenAddress walletAddress chainName).
Proof.
  unfold getTokenBalance, token_reading, contract_reads. run.
  destruct (token_raw (underlying provider) (network provider) tokenAddress
                      walletAddress) as [balance|e];
    destruct (token_symbol (underlying provider) (network provider)
                           tokenAddress) as [symbol|e'];
    destruct (token_decimals (underlying provider) (network provider)
                             tokenAddress) as [decimals|e''];
    simpl; try destruct (isZero balance); reflexivity.
Qed.

(** The three contract calls are sent whatever the replies are. *)
Lemma getTokenBalance_requests provider tokenAddress walletAddress chainName w :
  requests (snd (getTokenBalance provider tokenAddress walletAddress chainName w))
  = requests w ++
    [erc20_balanceOf (network provider) tokenAddress walletAddress;
     erc20_symbol (network provider) tokenAddress;
     erc20_decimals (network provider) tokenAddress].
Proof.
  unfold getTokenBalance, contract_reads. run.
  destruct (token_raw (underlying provider) (network provider) tokenAddress
                      walletAddress) as [balance|e];
    destruct (token_symbol (underlying provider) (network provider)
                           tokenAddress) as [symbol|e'];
    destruct (token_decimals (underlying provider) (network provider)
                             tokenAddress) as [decimals|e''];
    simpl; try destruct (isZero balance); simpl; rewrite <- !app_assoc;
    reflexivity.
Qed.

(** Tasks whose values do not depend on the state: [Promise.all] returns
    these values, in the order of the tasks. *)
Lemma Promise_all_values {S A} (tasks : list (M S A)) (values : list A) :
  Forall2 (fun task v => forall s, fst (task s) = Ok v) tasks values ->
  forall s, fst (Promise_all tasks s) = Ok values.
Proof.
  induction 1 as [|task v tasks values Hv _ IH]; intros s; simpl;
    [reflexivity|].
  specialize (Hv s). destruct (task s) as [r s1]. cbn [fst] in Hv. subst r.
  specialize (IH s1). destruct (Promise_all tasks s1) as [rs s2].
  cbn [fst] in IH. subst rs. reflexivity.
Qed.

Lemma token_reads_result provider address chainName tokens w :
  fst (Promise_all
         (map (fun token =>
                 getTokenBalance provider (Token.address token) address
                                 chainName) tokens) w) =
  Ok (map (fun token =>
             token_reading provider (Token.address token) address chainName)
          tokens).
Proof.
  apply Promise_all_values.
  induction tokens as [|token tokens IH]; simpl; constructor; [|exact IH].
  intros s. apply getTokenBalance_result.
Qed.

(* ------------------------------------------------------------------ *)
(** ** The aggregation loop *)

Lemma visit_result ethereum address chain holdings w :
  let out := visit ethereum address chain (holdings, w) in
  fst out = Ok tt /\
  fst (snd out) = holdings ++ contribution ethereum address chain.
Proof.
  cbv zeta. unfold visit, contribution, try_catch, bind, page, push.
  cbn [fst snd].
  pose proof (switchChain_result ethereum (Chain.chainId chain) w) as Hs.
  destruct (switchChain ethereum (Chain.chainId chain) w) as [r w1].
  cbn [fst] in Hs. rewrite <- Hs.
  destruct r as [provider|e]; cbn [fst snd].
  - pose proof (getNativeTokenBalance_result provider address chain w1) as Hn.
    destruct (getNativeTokenBalance provider address chain w1) as [rn w2].
    cbn [fst] in Hn. subst rn. cbn [fst snd].
    unfold readings.
    destruct (native_reading provider address chain) as [holding|];
      unfold ret; cbn [fst snd option_list];
      match goal with
      | |- context [Promise_all ?tasks ?s] =>
          pose proof (token_reads_result provider address (Chain.name chain)
                        (getCommonTokensForChain (Chain.chainId chain)) s)
            as Ht;
          destruct (Promise_all tasks s) as [rt w3]
      end;
      cbn [fst] in Ht; subst rt; cbn [fst snd];
      rewrite <- ?app_assoc; split; reflexivity.
  - rewrite app_nil_r. split; reflexivity.
Qed.

Lemma aggregate_result ethereum address chains holdings w :
  let out := for_of chains (visit ethereum address) (holdings, w) in
  fst out = Ok tt /\
  fst (snd out) = holdings ++ flat_map (contribution ethereum address) chains.
Proof.
  revert holdings w. induction chains as [|chain chains IH];
    intros holdings w; cbv zeta; simpl.
  - rewrite app_nil_r. split; reflexivity.
  - unfold bind.
    destruct (visit_result ethereum address chain holdings w) as [Hr Hh].
    destruct (visit ethereum address chain (holdings, w)) as [r [hs w1]].
    cbn [fst snd] in Hr, Hh. subst r hs.
    rewrite app_assoc. apply IH.
Qed.

(** With a wallet, the aggregation returns, and it returns the contributions
    of the networks in registry order. *)
Lemma getAccountHoldings_result wallet address w :
  fst (getAccountHoldings (Some wallet) address w) =
  Ok (flat_map (contribution (Some wallet) address)
               (Object_values SUPPORTED_CHAINS)).
Proof.
  unfold getAccountHoldings.
  destruct (aggregate_result (Some wallet) address
              (Object_values SUPPORTED_CHAINS) [] w) as [Hr Hh].
  destruct (for_of _ _ _) as [r [hs w1]]. cbn [fst snd] in Hr, Hh.
  subst r hs. reflexivity.
Qed.



(* ------------------------------------------------------------------ *)
(** ** Requests, logs and invariants of the loop *)

Lemma getNativeTokenBalance_requests provider address chain w :
  requests (snd (getNativeTokenBalance provider address chain w)) =
  requests w ++ [eth_getBalance (network provider) address].
Proof.
  unfold getNativeTokenBalance. run.
  destruct (native_raw _ _ _) as [balance|e]; simpl; [|reflexivity].
  destruct (isZero balance); reflexivity.
Qed.

Lemma token_reads_requests provider address chainName tokens w :
  requests
    (snd (Promise_all
            (map (fun token =>
                    getTokenBalance provider (Token.address token) address
                                    chainName) tokens) w)) =
  requests w ++ flat_map (token_requests provider address) tokens.
Proof.
  revert w. induction tokens as [|token tokens IH]; intros w; simpl.
  - rewrite app_nil_r. reflexivity.
  - pose proof (getTokenBalance_requests provider (Token.address token)
                  address chainName w) as Hq.
    destruct (getTokenBalance provider (Token.address token) address
                              chainName w) as [r w1].
    specialize (IH w1).
    destruct (Promise_all _ w1) as [rs w2]. cbn [snd] in *.
    rewrite IH, Hq. rewrite <- app_assoc. reflexivity.
Qed.

(** A network whose switch fails is skipped: the holdings stay as they are
    and the error is written to the console. *)
Lemma visit_skips ethereum address chain holdings w e :
  switch_outcome ethereum (Chain.chainId chain) = Err e ->
  visit ethereum address chain (holdings, w) =
  (Ok tt,
   (holdings,
    snd (console_error
           ("Error fetching " ++ Chain.name chain ++ " holdings:")%string e
           (snd (switchChain ethereum (Chain.chainId chain) w))))).
Proof.
  intros Hout. unfold visit, try_catch, bind, page. cbn [fst snd].
  pose proof (switchChain_result ethereum (Chain.chainId chain) w) as Hs.
  rewrite Hout in Hs.
  destruct (switchChain ethereum (Chain.chainId chain) w) as [r w1].
  cbn [fst snd] in *. subst r. reflexivity.
Qed.

(** The requests one network costs: those of the switch, then the reads if
    the switch succeeded. *)
Lemma visit_requests ethereum address chain holdings w :
  requests (snd (snd (visit ethereum address chain (holdings, w)))) =
  requests w ++ switch_requests ethereum (Chain.chainId chain) ++
  match switch_outcome ethereum (Chain.chainId chain) with
  | Ok provider => read_requests provider address chain
  | Err _ => []
  end.
Proof.
  destruct (switch_outcome ethereum (Chain.chainId chain)) as [provider|e]
    eqn:Hout.
  - unfold visit, try_catch, bind, page, push. cbn [fst snd].
    pose proof (switchChain_result ethereum (Chain.chainId chain) w) as Hs.
    destruct (switchChain_effects ethereum (Chain.chainId chain) w)
      as (_ & Hq & _).
    rewrite Hout in Hs.
    destruct (switchChain ethereum (Chain.chainId chain) w) as [r w1].
    cbn [fst snd] in *. subst r.
    pose proof (getNativeTokenBalance_requests provider address chain w1) as Hn.
    pose proof (getNativeTokenBalance_result provider address chain w1) as Hnr.
    destruct (getNativeTokenBalance provider address chain w1) as [rn w2].
    cbn [fst snd] in *. subst rn.
    destruct (native_reading provider address chain) as [holding|];
      unfold ret; cbn [fst snd];
      match goal with
      | |- context [Promise_all ?tasks ?s] =>
          pose proof (token_reads_requests provider address (Chain.name chain)
                        (getCommonTokensForChain (Chain.chainId chain)) s)
            as Ht;
          pose proof (token_reads_result provider address (Chain.name chain)
                        (getCommonTokensForChain (Chain.chainId chain)) s)
            as Hv;
          destruct (Promise_all tasks s) as [rt w3]
      end;
      cbn [fst snd] in *; subst rt; cbn [fst snd]; unfold delay;
      cbn [fst snd requests]; rewrite Ht, Hn, Hq; unfold read_requests;
      rewrite <- !app_assoc; reflexivity.
  - rewrite (visit_skips _ _ _ _ _ _ Hout). cbn [snd].
    destruct (switchChain_effects ethereum (Chain.chainId chain) w)
      as (_ & Hq & _).
    unfold console_error. cbn [snd requests]. rewrite Hq, app_nil_r.
    reflexivity.
Qed.

Lemma isZero_false (value : Z) : isZero value = false -> value <> 0%Z.
Proof. unfold isZero. intros H. apply Z.eqb_neq. exact H. Qed.

Lemma from_nonzero_balance_nonzero h :
  from_nonzero_balance h -> nonzero_holding h.
Proof.
  intros (raw & decimals & Hraw & Hq). unfold nonzero_holding.
  rewrite Hq. apply formatUnits_nonzero. exact Hraw.
Qed.

Lemma native_reading_balance provider address chain h :
  native_reading provider address chain = Some h -> from_nonzero_balance h.
Proof.
  unfold native_reading, from_nonzero_balance.
  destruct (native_raw _ _ _) as [balance|e]; [|discriminate].
  destruct (isZero balance) eqn:Ez; [discriminate|].
  intros H. injection H as <-.
  exists balance, (Currency.decimals (Chain.nativeCurrency chain)).
  split; [apply isZero_false, Ez | reflexivity].
Qed.

Lemma token_reading_balance provider tokenAddress walletAddress chainName h :
  token_reading provider tokenAddress walletAddress chainName = Some h ->
  from_nonzero_balance h.
Proof.
  unfold token_reading, from_nonzero_balance. cbv zeta.
  destruct (token_raw _ _ _ _) as [balance|e]; [|discriminate].
  destruct (token_symbol _ _ _) as [symbol|e]; [|discriminate].
  destruct (token_decimals _ _ _) as [decimals|e]; [|discriminate].
  destruct (isZero balance) eqn:Ez; [discriminate|].
  intros H. injection H as <-. exists balance, decimals.
  split; [apply isZero_false, Ez | reflexivity].
Qed.

Lemma In_non_null {A} (x : A) (xs : list (option A)) :
  In x (non_null xs) <-> In (Some x) xs.
Proof.
  induction xs as [|[y|] xs IH]; simpl.
  - tauto.
  - rewrite IH. split; intros [H|H]; auto; left; congruence.
  - rewrite IH. split; [auto | intros [H|H]; [discriminate | exact H]].
Qed.

(** Where a reading comes from: the native read, or the read of one of the
    known tokens. *)
Lemma In_readings provider address chain h :
  In h (readings provider address chain) ->
  native_reading provider address chain = Some h \/
  exists token,
    In token (getCommonTokensForChain (Chain.chainId chain)) /\
    token_reading provider (Token.address token) address (Chain.name chain)
    = Some h.
Proof.
  unfold readings. rewrite in_app_iff, In_non_null, in_map_iff.
  intros [H|(token & Ht & Hin)].
  - left. destruct (native_reading provider address chain) as [h'|];
      simpl in H; [|contradiction].
    destruct H as [->|[]]. reflexivity.
  - right. exists token. split; assumption.
Qed.

Lemma contribution_balances ethereum address chain :
  Forall from_nonzero_balance (contribution ethereum address chain).
Proof.
  unfold contribution.
  destruct (switch_outcome ethereum (Chain.chainId chain)) as [provider|e];
    [|constructor].
  apply Forall_forall. intros h Hin.
  destruct (In_readings _ _ _ _ Hin) as [Hn|(token & _ & Ht)].
  - eapply native_reading_balance; eassumption.
  - eapply token_reading_balance; eassumption.
Qed.

(** Every holding of an aggregation comes from a balance that is not zero,
    and its quantity is not zero. *)
Lemma aggregate_nonzero ethereum address chains :
  Forall (fun h => from_nonzero_balance h /\ nonzero_holding h)
         (flat_map (contribution ethereum address) chains).
Proof.
  induction chains as [|chain chains IH]; simpl; [constructor|].
  apply Forall_app. split; [|exact IH].
  eapply Forall_impl; [|apply contribution_balances].
  intros h Hh. split; [exact Hh | apply from_nonzero_balance_nonzero, Hh].
Qed.

(** Every reading carries the display name of its network. *)
Lemma readings_chain provider address chain h :
  In h (readings provider address chain) ->
  TokenHolding.chain h = Chain.name chain.
Proof.
  intros Hin. destruct (In_readings _ _ _ _ Hin) as [Hn|(token & _ & Ht)].
  - unfold native_reading in Hn.
    destruct (native_raw _ _ _) as [balance|e]; [|discriminate].
    destruct (isZero balance); [discriminate|].
    injection Hn as <-. reflexivity.
  - unfold token_reading in Ht. cbv zeta in Ht.
    destruct (token_raw _ _ _ _) as [balance|e]; [|discriminate].
    destruct (token_symbol _ _ _) as [symbol|e]; [|discriminate].
    destruct (token_decimals _ _ _) as [decimals|e]; [|discriminate].
    destruct (isZero balance); [discriminate|].
    injection Ht as <-. reflexivity.
Qed.

(** The registry's identifiers are distinct: looking one up finds its
    network. *)
Lemma find_registry chain :
  In chain (Object_values SUPPORTED_CHAINS) ->
  find (fun c => Chain.chainId c =? Chain.chainId chain)
       (Object_values SUPPORTED_CHAINS) = Some chain.
Proof.
  simpl. intros [<-|[<-|[<-|[<-|[]]]]]; reflexivity.
Qed.



(* ------------------------------------------------------------------ *)
(** ** The connector *)

Lemma connect_rejected wallet w e :
  accounts_reply wallet = Err e ->
  fst (connectMetaMask (Browser (Some wallet)) w) = Err (connect_error e).
Proof.
  intros H. unfold connectMetaMask, connect_error, try_catch, bind, send, throw.
  rewrite H. cbn [fst snd].
  destruct (err_code e) as [c|]; [destruct (c =? 4001)%Z|]; reflexivity.
Qed.

Lemma connect_empty wallet w :
  accounts_reply wallet = Ok [] ->
  fst (connectMetaMask (Browser (Some wallet)) w) =
  Err (MetaMaskError "No accounts found").
Proof.
  intros H. unfold connectMetaMask, try_catch, bind, send, throw.
  rewrite H. reflexivity.
Qed.

Lemma connect_accounts wallet w a rest :
  accounts_reply wallet = Ok (a :: rest) ->
  fst (connectMetaMask (Browser (Some wallet)) w) =
  Ok (map (account_of wallet) (a :: rest)).
Proof.
  intros H. unfold connectMetaMask, try_catch, bind at 1, send.
  rewrite H. cbn iota beta.
  match goal with
  | |- context [Promise_all ?tasks ?s] =>
      assert (Hp : fst (Promise_all tasks s) =
                   Ok (map (account_of wallet) (a :: rest)))
  end.
  { apply Promise_all_values.
    generalize (a :: rest). intros accounts.
    induction accounts as [|address accounts IH]; cbn [map]; constructor;
      [|exact IH].
    intros s. unfold bind, ret.
    pose proof (getAccountHoldings_result wallet address s) as Hg.
    destruct (getAccountHoldings (Some wallet) address s) as [r s1].
    cbn [fst] in Hg. subst r. reflexivity. }
  destruct (Promise_all _ _) as [r s1]. cbn [fst] in Hp. subst r.
  reflexivity.
Qed.

Lemma addresses_of wallet addresses :
  map Account.address (map (account_of wallet) addresses) = addresses.
Proof.
  induction addresses as [|a rest IH]; cbn [map]; [reflexivity|].
  rewrite IH. reflexivity.
Qed.



(* ------------------------------------------------------------------ *)
(** ** Properties of the aggregator *)

(** C1. For every address and every registry network whose switch fails, for
    whatever reason, [getAccountHoldings] logs the error and skips that
    network entirely, and it still returns: its result is the holdings of
    the networks before it followed by those of the networks after it, with
    the readings of every other network whose switch succeeds. *)
Theorem aggregation_skips_failed_network
    (wallet : Wallet) (address : string) (chain : Chain.t) (e : JsError)
    (w0 w : World) :
  In chain (Object_values SUPPORTED_CHAINS) ->
  fst (switchChain (Some wallet) (Chain.chainId chain) w0) = Err e ->
  (forall holdings w1,
     let out := visit (Some wallet) address chain (holdings, w1) in
     fst out = Ok tt /\
     fst (snd out) = holdings /\
     console (snd (snd out)) =
       console w1 ++
       [(("Error fetching " ++ Chain.name chain ++ " holdings:")%string, e)]) /\
  exists before after result,
    Object_values SUPPORTED_CHAINS = before ++ chain :: after /\
    fst (getAccountHoldings (Some wallet) address w) = Ok result /\
    result = flat_map (contribution (Some wallet) address) before ++
             flat_map (contribution (Some wallet) address) after /\
    forall other provider w2,
      In other (before ++ after) ->
      fst (switchChain (Some wallet) (Chain.chainId other) w2) = Ok provider ->
      incl (readings provider address other) result.
Proof.
  intros Hin Hfail. rewrite switchChain_result in Hfail.
  split.
  - intros holdings w1. cbv zeta.
    rewrite (visit_skips _ _ _ _ _ _ Hfail). cbn [fst snd].
    destruct (switchChain_effects (Some wallet) (Chain.chainId chain) w1)
      as (_ & _ & Hc & _).
    unfold console_error. cbn [snd console]. rewrite Hc.
    repeat split; reflexivity.
  - destruct (in_split _ _ Hin) as (before & after & Hsplit).
    exists before, after.
    exists (flat_map (contribution (Some wallet) address) before ++
            flat_map (contribution (Some wallet) address) after).
    split; [exact Hsplit|]. split.
    + rewrite getAccountHoldings_result, Hsplit, flat_map_app. simpl.
      unfold contribution at 2. rewrite Hfail. reflexivity.
    + split; [reflexivity|].
      intros other provider w2 Hother Hok h Hh.
      rewrite switchChain_result in Hok.
      rewrite <- flat_map_app. apply in_flat_map.
      exists other. split; [exact Hother|].
      unfold contribution. rewrite Hok. exact Hh.
Qed.

Lemma aggregation_skips_failed_network_witness :
  exists before after result,
    Object_values SUPPORTED_CHAINS = before ++ BSC :: after /\
    fst (getAccountHoldings (Some sample_wallet) "0xX" world0) = Ok result /\
    result = flat_map (contribution (Some sample_wallet) "0xX") before ++
             flat_map (contribution (Some sample_wallet) "0xX") after /\
    forall other provider w2,
      In other (before ++ after) ->
      fst (switchChain (Some sample_wallet) (Chain.chainId other) w2)
        = Ok provider ->
      incl (readings provider "0xX" other) result.
Proof.
  apply (aggregation_skips_failed_network sample_wallet "0xX" BSC
           NetworkSwitchTimeout world0 world0).
  - simpl. tauto.
  - vm_compute. reflexivity.
Defined.

(** C2. No holdings list the aggregator produces, and so no account that
    [connectMetaMask] returns, contains a holding whose quantity is zero: the
    native read and each token read return none when the raw balance is
    zero, so that every holding is the scaling of a raw balance that is not
    zero, and its quantity has a digit other than zero. *)
Theorem holdings_never_zero
    (provider : Web3Provider) (wallet : Wallet) (address : string)
    (chain : Chain.t) (tokenAddress : string) (w : World) :
  (native_raw (underlying provider) (network provider) address = Ok 0%Z ->
   fst (getNativeTokenBalance provider address chain w) = Ok None) /\
  (token_raw (underlying provider) (network provider) tokenAddress address
     = Ok 0%Z ->
   fst (getTokenBalance provider tokenAddress address (Chain.name chain) w)
     = Ok None) /\
  (forall holdings,
     fst (getAccountHoldings (Some wallet) address w) = Ok holdings ->
     Forall (fun h =>
               (exists raw decimals,
                  raw <> 0%Z /\
                  TokenHolding.quantity h = formatUnits raw decimals) /\
               zero_quantity (TokenHolding.quantity h) = false)
            holdings) /\
  (forall global accounts,
     fst (connectMetaMask global w) = Ok accounts ->
     Forall (fun account =>
               Forall (fun h =>
                         (exists raw decimals,
                            raw <> 0%Z /\
                            TokenHolding.quantity h = formatUnits raw decimals) /\
                         zero_quantity (TokenHolding.quantity h) = false)
                      (Account.holdings account))
            accounts).
Proof.
  split; [|split; [|split]].
  - intros Hzero. rewrite getNativeTokenBalance_result.
    unfold native_reading. rewrite Hzero. reflexivity.
  - intros Hzero. rewrite getTokenBalance_result.
    unfold token_reading. cbv zeta. rewrite Hzero.
    destruct (token_symbol _ _ _); [|reflexivity].
    destruct (token_decimals _ _ _); reflexivity.
  - intros holdings. rewrite getAccountHoldings_result.
    intros H. injection H as <-.
    exact (aggregate_nonzero (Some wallet) address
             (Object_values SUPPORTED_CHAINS)).
  - intros global accounts Hok.
    destruct global as [|[wallet'|]]; try discriminate Hok.
    destruct (accounts_reply wallet') as [[|a rest]|e0] eqn:Hreply.
    + rewrite (connect_empty _ _ Hreply) in Hok. discriminate Hok.
    + rewrite (connect_accounts _ _ _ _ Hreply) in Hok.
      injection Hok as <-. apply Forall_forall.
      intros account Hin. change (In account (map (account_of wallet') (a :: rest))) in Hin.
      apply in_map_iff in Hin.
      destruct Hin as (addr & <- & _).
      exact (aggregate_nonzero (Some wallet') addr
               (Object_values SUPPORTED_CHAINS)).
    + rewrite (connect_rejected _ _ _ Hreply) in Hok. discriminate Hok.
Qed.

Lemma holdings_never_zero_witness :
  fst (getNativeTokenBalance arbitrum_provider "0xX" ARBITRUM world0) = Ok None /\
  fst (getTokenBalance arbitrum_provider
         "0xA0b86991c6218b36c1d19D4a2e9Eb0cE3606eB48" "0xX" "ARBITRUM" world0)
    = Ok None /\
  (exists holdings,
     fst (getAccountHoldings (Some sample_wallet) "0xX" world0) = Ok holdings /\
     List.length holdings = 3 /\
     Forall (fun h => zero_quantity (TokenHolding.quantity h) = false)
            holdings) /\
  (exists accounts,
     fst (connectMetaMask (Browser (Some sample_wallet)) world0) = Ok accounts /\
     Forall (fun account =>
               Forall (fun h => zero_quantity (TokenHolding.quantity h) = false)
                      (Account.holdings account))
            accounts).
Proof.
  destruct (holdings_never_zero arbitrum_provider sample_wallet "0xX" ARBITRUM
              "0xA0b86991c6218b36c1d19D4a2e9Eb0cE3606eB48" world0)
    as (Hn & Ht & Ha & Hc).
  split; [apply Hn; reflexivity|].
  split; [apply Ht; reflexivity|].
  split.
  - eexists. split; [vm_compute; reflexivity|].
    split; [reflexivity|].
    eapply Forall_impl; [|apply Ha; vm_compute; reflexivity].
    intros h [_ Hh]. exact Hh.
  - eexists. split; [vm_compute; reflexivity|].
    eapply Forall_impl;
      [|apply (Hc (Browser (Some sample_wallet))); vm_compute; reflexivity].
    intros account Hall. eapply Forall_impl; [|exact Hall].
    intros h [_ Hh]. exact Hh.
Defined.

(* ------------------------------------------------------------------ *)
(** ** Properties of the switch coordinator *)

Lemma hooks_since_app w w' added :
  hooks w' = hooks w ++ added -> hooks_since w w' = added.
Proof.
  intros H. unfold hooks_since. rewrite H, skipn_app, skipn_all, Nat.sub_diag.
  reflexivity.
Qed.

(** C3, as the code has it.  A call of [switchChain] registers the
    [chainChanged] listener at most once: once when the wallet accepts the
    switch request, or reports the chain as unrecognized and accepts to add
    it, and not at all when the request is refused.  What it registers it
    deregisters, and the timer it arms it clears, before it returns, whether
    the wait succeeds or times out: the listeners and the armed timers are
    the same after the call as before. *)
Theorem switchChain_releases_listener
    (ethereum : option Wallet) (chainId : string) (w : World) :
  well_formed w ->
  let w' := snd (switchChain ethereum chainId w) in
  let added := hooks_since w w' in
  hooks w' = hooks w ++ added /\
  count is_registration added <= 1 /\
  count is_deregistration added = count is_registration added /\
  count is_arming added <= 1 /\
  count is_clearing added = count is_arming added /\
  listeners w' = listeners w /\
  timers w' = timers w /\
  (forall wallet,
     ethereum = Some wallet ->
     count is_registration added =
     if reaches_wait ethereum chainId then 1 else 0).
Proof.
  intros Hwf. cbv zeta.
  destruct (switchChain_effects ethereum chainId w) as (Hh & _ & _ & Hrest).
  destruct (Hrest Hwf) as (Hl & Ht & _).
  rewrite (hooks_since_app _ _ _ Hh).
  split; [exact Hh|].
  unfold switch_hooks.
  destruct (reaches_wait ethereum chainId); destruct ethereum as [wallet|];
    cbn; repeat split; try lia; try assumption;
    intros wallet' Heq; try discriminate Heq; reflexivity.
Qed.

Lemma switchChain_releases_listener_witness :
  let w' := snd (switchChain (Some sample_wallet) "0x38" world0) in
  hooks w' = [TimerArmed 0; Registered 1; TimerCleared 0; Deregistered 1] /\
  listeners w' = [] /\ timers w' = [].
Proof.
  assert (Hwf : well_formed world0) by (split; constructor).
  destruct (switchChain_releases_listener (Some sample_wallet) "0x38" world0
              Hwf) as (Hh & _ & _ & _ & _ & Hl & Ht & _).
  cbv zeta. rewrite Hl, Ht.
  split; [vm_compute; reflexivity|]. split; reflexivity.
Defined.

(** C3, as stated, fails: when the wallet does not know the network and the
    user refuses to add it, the call registers no listener at all. *)
Lemma switchChain_add_refused_registers_nothing :
  ~ registers_once (Some refusing_wallet) "0x89" world0.
Proof.
  unfold registers_once. vm_compute. intros [H _]. discriminate H.
Qed.





(** C5. If the wallet answers the switch request for a registry network with
    the unrecognized-network code 4902, [switchChain] sends an add-network
    request with the network's identifier, display name, RPC endpoint and
    native currency (symbol and decimals), and then waits.  If the wallet
    accepts and confirms the network in time, [switchChain] returns a
    provider on that network, after one wait, and the readings of that
    network are part of what [getAccountHoldings] returns. *)
Theorem switchChain_adds_unrecognized_network
    (wallet : Wallet) (chain : Chain.t) (e : JsError) (address : string)
    (w : World) :
  In chain (Object_values SUPPORTED_CHAINS) ->
  switch_reply wallet (Chain.chainId chain) = Err e ->
  err_code e = Some 4902%Z ->
  let out := switchChain (Some wallet) (Chain.chainId chain) w in
  requests (snd out) =
    requests w ++
    [wallet_switchEthereumChain (Chain.chainId chain);
     wallet_addEthereumChain
       (mkAddChainParams (Chain.chainId chain) (Chain.name chain)
          [Chain.rpc chain]
          (Currency.mk (Currency.symbol (Chain.nativeCurrency chain))
                       (Currency.decimals (Chain.nativeCurrency chain))))] /\
  (add_reply wallet (add_params chain) = Ok tt ->
   confirmed (emits wallet (Chain.chainId chain)) (Chain.chainId chain) 0
     = true ->
   let provider := mkWeb3Provider wallet (Chain.chainId chain) in
   fst out = Ok provider /\
   count is_registration (hooks_since w (snd out)) = 1 /\
   exists holdings,
     fst (getAccountHoldings (Some wallet) address w) = Ok holdings /\
     incl (readings provider address chain) holdings).
Proof.
  intros Hin Hreply Hcode. cbv zeta.
  assert (Hun : unrecognized e = true)
    by (unfold unrecognized; rewrite Hcode; reflexivity).
  pose proof (find_registry chain Hin) as Hfind.
  destruct (switchChain_effects (Some wallet) (Chain.chainId chain) w)
    as (Hh & Hq & _).
  split.
  - rewrite Hq. unfold switch_requests. rewrite Hreply, Hun, Hfind.
    unfold add_params. destruct (Chain.nativeCurrency chain). reflexivity.
  - intros Hadd Hconf.
    assert (Hout : switch_outcome (Some wallet) (Chain.chainId chain) =
                   Ok (mkWeb3Provider wallet (Chain.chainId chain))).
    { unfold switch_outcome. rewrite Hreply, Hun, Hfind, Hadd, Hconf.
      reflexivity. }
    split; [rewrite switchChain_result; exact Hout|]. split.
    + rewrite (hooks_since_app _ _ _ Hh). unfold switch_hooks, reaches_wait.
      rewrite Hreply, Hun, Hfind, Hadd. reflexivity.
    + eexists. split; [apply getAccountHoldings_result|].
      intros h Hh'. apply in_flat_map. exists chain. split; [exact Hin|].
      unfold contribution. rewrite Hout. exact Hh'.
Qed.

Lemma switchChain_adds_unrecognized_network_witness :
  fst (switchChain (Some sample_wallet) "0x89" world0)
    = Ok (mkWeb3Provider sample_wallet "0x89") /\
  requests (snd (switchChain (Some sample_wallet) "0x89" world0)) =
    [wallet_switchEthereumChain "0x89";
     wallet_addEthereumChain
       (mkAddChainParams "0x89" "POLYGON" ["https://polygon-rpc.com"]
                         (Currency.mk "MATIC" 18))] /\
  exists holdings,
    fst (getAccountHoldings (Some sample_wallet) "0xX" world0) = Ok holdings /\
    In (TokenHolding.mk "MATIC" "POLYGON" "2.5" (Some false)) holdings.
Proof.
  assert (Hin : In POLYGON (Object_values SUPPORTED_CHAINS))
    by (simpl; tauto).
  destruct (switchChain_adds_unrecognized_network sample_wallet POLYGON
              (mkJsError "Error" "Unrecognized chain ID" (Some 4902%Z))
              "0xX" world0 Hin eq_refl eq_refl) as (Hq & Hrest).
  destruct (Hrest eq_refl eq_refl) as (Hok & _ & holdings & Hagg & Hincl).
  split; [exact Hok|]. split; [exact Hq|].
  exists holdings. split; [exact Hagg|].
  apply Hincl. vm_compute. left. reflexivity.
Defined.

(** The parts of an aggregation, network by network. *)
Lemma contributions_shape wallet address chains :
  Forall2
    (fun chain part =>
       (exists e,
          (forall w', fst (switchChain (Some wallet) (Chain.chainId chain) w')
                      = Err e) /\
          part = []) \/
       (exists provider,
          (forall w', fst (switchChain (Some wallet) (Chain.chainId chain) w')
                      = Ok provider) /\
          part =
            option_list (native_reading provider address chain) ++
            non_null
              (map (fun token =>
                      token_reading provider (Token.address token) address
                                    (Chain.name chain))
                   (getCommonTokensForChain (Chain.chainId chain)))))
    chains (map (contribution (Some wallet) address) chains).
Proof.
  induction chains as [|chain chains IH]; cbn [map]; constructor; [|exact IH].
  unfold contribution.
  destruct (switch_outcome (Some wallet) (Chain.chainId chain))
    as [provider|e] eqn:Hout.
  - right. exists provider. split; [|reflexivity].
    intros w'. rewrite switchChain_result. exact Hout.
  - left. exists e. split; [|reflexivity].
    intros w'. rewrite switchChain_result. exact Hout.
Qed.

(** C6. The list [getAccountHoldings] returns is the concatenation, in
    registry order (Ethereum, BNB Chain, Polygon, Arbitrum), of one part per
    network; the part of a network whose switch succeeds is its native
    holding, when there is one, followed by the holdings of its known tokens
    in the order of the known-token list, and every holding of a part carries
    the display name of its network. *)
Theorem holdings_follow_registry_order
    (wallet : Wallet) (address : string) (w : World) :
  map Chain.name (Object_values SUPPORTED_CHAINS) =
    ["ETHEREUM"; "BNB CHAIN"; "POLYGON"; "ARBITRUM"] /\
  exists parts,
    fst (getAccountHoldings (Some wallet) address w) = Ok (concat parts) /\
    Forall2
      (fun chain part =>
         Forall (fun h => TokenHolding.chain h = Chain.name chain) part /\
         ((exists e,
             (forall w', fst (switchChain (Some wallet) (Chain.chainId chain) w')
                         = Err e) /\
             part = []) \/
          (exists provider,
             (forall w', fst (switchChain (Some wallet) (Chain.chainId chain) w')
                         = Ok provider) /\
             part =
               option_list (native_reading provider address chain) ++
               non_null
                 (map (fun token =>
                         token_reading provider (Token.address token) address
                                       (Chain.name chain))
                      (getCommonTokensForChain (Chain.chainId chain))))))
      (Object_values SUPPORTED_CHAINS) parts.
Proof.
  split; [reflexivity|].
  exists (map (contribution (Some wallet) address)
              (Object_values SUPPORTED_CHAINS)).
  split.
  - rewrite getAccountHoldings_result, flat_map_concat_map. reflexivity.
  - pose proof (contributions_shape wallet address
                  (Object_values SUPPORTED_CHAINS)) as Hshape.
    induction Hshape as [|chain part chains parts Hpart _ IH];
      constructor; [|exact IH].
    split; [|exact Hpart].
    destruct Hpart as [(e & _ & ->)|(provider & _ & ->)]; [constructor|].
    apply Forall_forall. intros h Hh.
    apply (readings_chain provider address chain). exact Hh.
Qed.

(** C7. [getTokenBalance] sends the three contract calls, balance, symbol
    and decimals, whatever their replies.  If any of them fails the token
    yields none and nothing is thrown, so that [Promise.all] over the known
    tokens returns one entry per token, each what the token's own read
    gives, with all their calls sent.  When the three succeed and the
    balance is not zero, the holding carries the symbol the contract
    reported and the balance scaled by the decimals it reported. *)
Theorem token_reads_are_isolated
    (provider : Web3Provider) (tokenAddress walletAddress chainName : string)
    (tokens : list Token.t) (w : World) :
  let out := getTokenBalance provider tokenAddress walletAddress chainName w in
  let wallet := underlying provider in
  let net := network provider in
  requests (snd out) =
    requests w ++
    [erc20_balanceOf net tokenAddress walletAddress;
     erc20_symbol net tokenAddress; erc20_decimals net tokenAddress] /\
  ((exists e, token_raw wallet net tokenAddress walletAddress = Err e) \/
   (exists e, token_symbol wallet net tokenAddress = Err e) \/
   (exists e, token_decimals wallet net tokenAddress = Err e) ->
   fst out = Ok None) /\
  (forall balance symbol decimals,
     token_raw wallet net tokenAddress walletAddress = Ok balance ->
     token_symbol wallet net tokenAddress = Ok symbol ->
     token_decimals wallet net tokenAddress = Ok decimals ->
     balance <> 0%Z ->
     fst out =
     Ok (Some (TokenHolding.mk symbol chainName
                 (formatUnits balance decimals) (Some false)))) /\
  (let all :=
     Promise_all
       (map (fun token =>
               getTokenBalance provider (Token.address token) walletAddress
                               chainName) tokens) w in
   exists results,
     fst all = Ok results /\
     Forall2
       (fun token result =>
          forall w',
            fst (getTokenBalance provider (Token.address token) walletAddress
                                 chainName w') = Ok result)
       tokens results /\
     requests (snd all) =
       requests w ++ flat_map (token_requests provider walletAddress) tokens).
Proof.
  cbv zeta. split; [apply getTokenBalance_requests|].
  split; [|split].
  - rewrite getTokenBalance_result. unfold token_reading. cbv zeta.
    intros [[e He]|[[e He]|[e He]]]; rewrite He.
    + reflexivity.
    + destruct (token_raw _ _ _ _); reflexivity.
    + destruct (token_raw _ _ _ _); [|reflexivity].
      destruct (token_symbol _ _ _); reflexivity.
  - intros balance symbol decimals Hb Hs Hd Hnz.
    rewrite getTokenBalance_result. unfold token_reading. cbv zeta.
    rewrite Hb, Hs, Hd.
    assert (isZero balance = false) as ->
      by (unfold isZero; apply Z.eqb_neq; exact Hnz).
    reflexivity.
  - eexists. split; [apply token_reads_result|].
    split; [|apply token_reads_requests].
    clear. induction tokens as [|token tokens IH]; cbn [map]; constructor;
      [|exact IH].
    intros w'. apply getTokenBalance_result.
Qed.

Lemma token_reads_are_isolated_witness :
  fst (getTokenBalance sample_provider
         "0x2260FAC5E5542a773Aa44fBCfeDf7C193bc2C599" "0xX" "ETHEREUM" world0)
    = Ok None /\
  fst (getTokenBalance sample_provider
         "0xdAC17F958D2ee523a2206206994597C13D831ec7" "0xX" "ETHEREUM" world0)
    = Ok (Some (TokenHolding.mk "TETHER" "ETHEREUM" "0.5" (Some false))).
Proof.
  destruct (token_reads_are_isolated sample_provider
              "0x2260FAC5E5542a773Aa44fBCfeDf7C193bc2C599" "0xX" "ETHEREUM"
              [] world0) as (_ & Hfail & _).
  destruct (token_reads_are_isolated sample_provider
              "0xdAC17F958D2ee523a2206206994597C13D831ec7" "0xX" "ETHEREUM"
              [] world0) as (_ & _ & Hheld & _).
  split.
  - apply Hfail. left. eexists. reflexivity.
  - apply (Hheld 500000%Z "TETHER" 6); try reflexivity. discriminate.
Defined.



(** C8. Scaling by the decimals is exact: a quantity read back at the same
    number of decimals gives the raw balance, whatever the balance and the
    decimals.  One whole unit, a raw balance of 1000000000000000000 at 18
    decimals, is rendered ["1.0"], and half a unit, a raw balance of 500000
    at 6 decimals, ["0.5"]; these are the quantities of the holdings the
    native read and the token read return for such balances. *)
Theorem decimal_scaling_examples
    (provider : Web3Provider) (address tokenAddress chainName symbol : string)
    (chain : Chain.t) (w : World) :
  (forall value decimals,
     parseUnits (formatUnits value decimals) decimals = Some value) /\
  formatUnits 1000000000000000000 18 = "1.0" /\
  formatUnits 500000 6 = "0.5" /\
  (native_raw (underlying provider) (network provider) address
     = Ok 1000000000000000000%Z ->
   Currency.decimals (Chain.nativeCurrency chain) = 18 ->
   fst (getNativeTokenBalance provider address chain w) =
   Ok (Some (TokenHolding.mk (Currency.symbol (Chain.nativeCurrency chain))
               (Chain.name chain) "1.0" (Some false)))) /\
  (token_raw (underlying provider) (network provider) tokenAddress address
     = Ok 500000%Z ->
   token_symbol (underlying provider) (network provider) tokenAddress
     = Ok symbol ->
   token_decimals (underlying provider) (network provider) tokenAddress
     = Ok 6 ->
   fst (getTokenBalance provider tokenAddress address chainName w) =
   Ok (Some (TokenHolding.mk symbol chainName "0.5" (Some false)))).
Proof.
  split; [exact parseUnits_formatUnits|].
  split; [vm_compute; reflexivity|]. split; [vm_compute; reflexivity|].
  split.
  - intros Hraw Hdec. rewrite getNativeTokenBalance_result.
    unfold native_reading. rewrite Hraw, Hdec. vm_compute. reflexivity.
  - intros Hraw Hsym Hdec. rewrite getTokenBalance_result.
    unfold token_reading. cbv zeta. rewrite Hraw, Hsym, Hdec.
    vm_compute. reflexivity.
Qed.

Lemma decimal_scaling_examples_witness :
  fst (getNativeTokenBalance sample_provider "0xX" ETH_MAINNET world0) =
    Ok (Some (TokenHolding.mk "ETH" "ETHEREUM" "1.0" (Some false))) /\
  fst (getTokenBalance sample_provider
         "0xdAC17F958D2ee523a2206206994597C13D831ec7" "0xX" "ETHEREUM" world0) =
    Ok (Some (TokenHolding.mk "TETHER" "ETHEREUM" "0.5" (Some false))).
Proof.
  destruct (decimal_scaling_examples sample_provider "0xX"
              "0xdAC17F958D2ee523a2206206994597C13D831ec7" "ETHEREUM" "TETHER"
              ETH_MAINNET world0) as (_ & _ & _ & Hnative & Htoken).
  split; [apply Hnative; reflexivity | apply Htoken; reflexivity].
Defined.

(* ------------------------------------------------------------------ *)
(** ** Properties of the connector *)

(** C9, as the code has it.  Every failure of [connectMetaMask] is a
    [MetaMaskError].  A failure of the authorization request is rethrown as
    a new [MetaMaskError]: with the user-rejection message when the error
    carries code 4001, otherwise with the message of the original error when
    it has one and with ['Failed to connect to MetaMask'] when it has none;
    an empty account list is rethrown as ['No accounts found'].  When
    [connectMetaMask] returns, it returns one account for each authorized
    address, in the wallet's order. *)
Theorem connect_fails_with_MetaMaskError (global : Global) (w : World) :
  (forall e,
     fst (connectMetaMask global w) = Err e -> err_name e = "MetaMaskError") /\
  (forall wallet e0,
     global = Browser (Some wallet) ->
     accounts_reply wallet = Err e0 ->
     fst (connectMetaMask global w) =
     Err (MetaMaskError
            (if match err_code e0 with
                | Some c => (c =? 4001)%Z
                | None => false
                end
             then "User rejected the connection request"
             else if err_message e0 =? ""
                  then "Failed to connect to MetaMask"
                  else err_message e0))) /\
  (forall wallet,
     global = Browser (Some wallet) ->
     accounts_reply wallet = Ok [] ->
     fst (connectMetaMask global w) = Err (MetaMaskError "No accounts found")) /\
  (forall accounts,
     fst (connectMetaMask global w) = Ok accounts ->
     exists wallet,
       global = Browser (Some wallet) /\
       accounts_reply wallet = Ok (map Account.address accounts)).
Proof.
  split; [|split; [|split]].
  - intros e He.
    destruct global as [|[wallet|]]; try (injection He as <-; reflexivity).
    destruct (accounts_reply wallet) as [[|a rest]|e0] eqn:Hreply.
    + rewrite (connect_empty _ _ Hreply) in He. injection He as <-.
      reflexivity.
    + rewrite (connect_accounts _ _ _ _ Hreply) in He. discriminate He.
    + rewrite (connect_rejected _ _ _ Hreply) in He. injection He as <-.
      unfold connect_error.
      destruct (err_code e0) as [c|]; [destruct (c =? 4001)%Z|]; reflexivity.
  - intros wallet e0 -> Hreply. rewrite (connect_rejected _ _ _ Hreply).
    unfold connect_error, message_or.
    destruct (err_code e0) as [c|]; [destruct (c =? 4001)%Z|]; reflexivity.
  - intros wallet -> Hreply. apply connect_empty. exact Hreply.
  - intros accounts Hok.
    destruct global as [|[wallet|]]; try discriminate Hok.
    exists wallet. split; [reflexivity|].
    destruct (accounts_reply wallet) as [[|a rest]|e0] eqn:Hreply.
    + rewrite (connect_empty _ _ Hreply) in Hok. discriminate Hok.
    + rewrite (connect_accounts _ _ _ _ Hreply) in Hok. injection Hok as <-.
      f_equal. symmetry. exact (addresses_of wallet (a :: rest)).
    + rewrite (connect_rejected _ _ _ Hreply) in Hok. discriminate Hok.
Qed.

Lemma connect_fails_with_MetaMaskError_witness :
  fst (connectMetaMask (Browser (Some mute_wallet)) world0) =
    Err (MetaMaskError "Failed to connect to MetaMask") /\
  err_name (MetaMaskError "Failed to connect to MetaMask") = "MetaMaskError" /\
  exists accounts,
    fst (connectMetaMask (Browser (Some sample_wallet)) world0) = Ok accounts /\
    map Account.address accounts = ["0xX"; "0xY"].
Proof.
  destruct (connect_fails_with_MetaMaskError (Browser (Some mute_wallet))
              world0) as (Hname & Hrej & _ & _).
  destruct (connect_fails_with_MetaMaskError (Browser (Some sample_wallet))
              world0) as (_ & _ & _ & Hall).
  pose proof (Hrej mute_wallet _ eq_refl eq_refl) as Hfail.
  split; [exact Hfail|]. split; [exact (Hname _ Hfail)|].
  eexists. split; [vm_compute; reflexivity|].
  destruct (Hall _ ltac:(vm_compute; reflexivity)) as (wallet & Heq & Hreply).
  injection Heq as <-.
  assert (Hinj : forall l1 l2 : list string, Ok l1 = Ok l2 -> l2 = l1)
    by (intros l1 l2 E; injection E as ->; reflexivity).
  apply Hinj. exact Hreply.
Defined.

(** C9, as stated, fails: an authorization error that carries no message is
    rethrown under the fallback message, not under its own. *)
Lemma connect_empty_message_replaced : ~ rethrows_message mute_wallet world0.
Proof.
  unfold rethrows_message. intros H.
  specialize (H _ eq_refl ltac:(discriminate)).
  vm_compute in H. discriminate H.
Qed.

(* ------------------------------------------------------------------ *)
(** ** The known-token lists *)

(** C10. [getCommonTokensForChain] lists USDC, USDT and WBTC for Ethereum
    (['0x1']), USDC and USDT for BNB Chain (['0x38']) and nothing for any
    other identifier, Polygon and Arbitrum included.  On a registry network
    other than those two the aggregation sends no token call, only the
    native balance query after the switch, and adds at most the native
    holding: every holding it returns for Polygon is in MATIC and every one
    for Arbitrum in ETH. *)
Theorem tokens_known_on_two_networks_only
    (wallet : Wallet) (address : string) (w : World) :
  map Token.symbol (getCommonTokensForChain "0x1") = ["USDC"; "USDT"; "WBTC"] /\
  map Token.symbol (getCommonTokensForChain "0x38") = ["USDC"; "USDT"] /\
  (forall chainId,
     chainId <> "0x1" -> chainId <> "0x38" ->
     getCommonTokensForChain chainId = []) /\
  (forall chain holdings,
     In chain (Object_values SUPPORTED_CHAINS) ->
     Chain.chainId chain <> "0x1" -> Chain.chainId chain <> "0x38" ->
     let out := visit (Some wallet) address chain (holdings, w) in
     (exists native,
        fst (snd out) = holdings ++ option_list native /\
        forall h, native = Some h ->
          TokenHolding.symbol h = Currency.symbol (Chain.nativeCurrency chain)) /\
     (exists reads,
        requests (snd (snd out)) =
          requests w ++ switch_requests (Some wallet) (Chain.chainId chain) ++
          reads /\
        (reads = [] \/
         reads = [eth_getBalance (Chain.chainId chain) address]))) /\
  (forall holdings h,
     fst (getAccountHoldings (Some wallet) address w) = Ok holdings ->
     In h holdings ->
     (TokenHolding.chain h = "POLYGON" -> TokenHolding.symbol h = "MATIC") /\
     (TokenHolding.chain h = "ARBITRUM" -> TokenHolding.symbol h = "ETH")).
Proof.
  assert (Hnone : forall chainId,
            chainId <> "0x1" -> chainId <> "0x38" ->
            getCommonTokensForChain chainId = []).
  { intros chainId H1 H38. unfold getCommonTokensForChain.
    destruct (String.eqb_spec chainId "0x1"); [contradiction|].
    destruct (String.eqb_spec chainId "0x38"); [contradiction|].
    reflexivity. }
  assert (Hnative : forall provider chain h,
            native_reading provider address chain = Some h ->
            TokenHolding.symbol h =
            Currency.symbol (Chain.nativeCurrency chain)).
  { intros provider chain h. unfold native_reading.
    destruct (native_raw _ _ _) as [balance|e]; [|discriminate].
    destruct (isZero balance); [discriminate|].
    intros H. injection H as <-. reflexivity. }
  split; [reflexivity|]. split; [reflexivity|]. split; [exact Hnone|].
  split.
  - intros chain holdings Hin H1 H38. cbv zeta.
    destruct (visit_result (Some wallet) address chain holdings w) as [_ Hh].
    pose proof (visit_requests (Some wallet) address chain holdings w) as Hq.
    unfold contribution in Hh. unfold read_requests in Hq.
    destruct (switch_outcome (Some wallet) (Chain.chainId chain))
      as [provider|e] eqn:Hout.
    + assert (Hnet : network provider = Chain.chainId chain).
      { unfold switch_outcome in Hout.
        destruct (confirmed _ _ _);
          destruct (switch_reply wallet (Chain.chainId chain)) as [[]|e'];
          try destruct (unrecognized e'); try destruct (find _ _) as [c|];
          try destruct (add_reply wallet (add_params c)) as [[]|e''];
          try discriminate Hout; injection Hout as <-; reflexivity. }
      unfold readings in Hh. rewrite (Hnone _ H1 H38) in Hh, Hq.
      cbn [map non_null flat_map] in Hh, Hq. rewrite app_nil_r in Hh.
      split.
      * exists (native_reading provider address chain).
        split; [exact Hh | apply Hnative].
      * eexists. split; [exact Hq|]. right. rewrite Hnet. reflexivity.
    + split.
      * exists None. split; [exact Hh | discriminate].
      * eexists. split; [exact Hq|]. left. reflexivity.
  - intros holdings h Hok Hin.
    rewrite getAccountHoldings_result in Hok. injection Hok as <-.
    change (In h (flat_map (contribution (Some wallet) address)
                           (Object_values SUPPORTED_CHAINS))) in Hin.
    apply in_flat_map in Hin. destruct Hin as (chain & Hchain & Hh).
    unfold contribution in Hh.
    destruct (switch_outcome (Some wallet) (Chain.chainId chain))
      as [provider|e]; [|contradiction].
    pose proof (readings_chain _ _ _ _ Hh) as Hname.
    simpl in Hchain.
    destruct Hchain as [<-|[<-|[<-|[<-|[]]]]]; rewrite Hname;
      (split; intros Hc; try discriminate Hc);
      unfold readings in Hh; cbn [map non_null getCommonTokensForChain] in Hh;
      simpl in Hh; rewrite app_nil_r in Hh;
      destruct (native_reading provider address _) as [h'|] eqn:Hn;
      simpl in Hh; try contradiction;
      destruct Hh as [<-|[]]; apply (Hnative _ _ _ Hn).
Qed.

Lemma tokens_known_on_two_networks_only_witness :
  getCommonTokensForChain "0x89" = [] /\
  getCommonTokensForChain "0xa4b1" = [] /\
  List.length
    (fst (snd (visit (Some sample_wallet) "0xX" POLYGON ([], world0)))) <= 1 /\
  exists holdings,
    fst (getAccountHoldings (Some sample_wallet) "0xX" world0) = Ok holdings /\
    forall h, In h holdings -> TokenHolding.chain h = "POLYGON" ->
              TokenHolding.symbol h = "MATIC".
Proof.
  destruct (tokens_known_on_two_networks_only sample_wallet "0xX" world0)
    as (_ & _ & Hnone & Hvisit & Hagg).
  split; [apply Hnone; discriminate|].
  split; [apply Hnone; discriminate|].
  split.
  - destruct (Hvisit POLYGON [] ltac:(simpl; tauto) ltac:(discriminate)
                ltac:(discriminate)) as ((native & Hh & _) & _).
    rewrite Hh. destruct native; simpl; lia.
  - eexists. split; [vm_compute; reflexivity|].
    intros h Hin. apply (Hagg _ h ltac:(vm_compute; reflexivity) Hin).
Defined.


(* ------------------------------------------------------------------ *)
(** ** More on the switch coordinator *)

Lemma after_wait_ok wallet chainId w provider :
  fst (after_wait wallet (waitForNetworkChange (Some wallet) chainId w))
    = Ok provider ->
  provider = mkWeb3Provider wallet chainId /\
  active (snd (waitForNetworkChange (Some wallet) chainId w)) = chainId.
Proof.
  intros Hok.
  pose proof (after_wait_result wallet chainId w) as Hr.
  rewrite Hok in Hr.
  destruct (confirmed (emits wallet chainId) chainId 0); [|discriminate Hr].
  injection Hr as ->. split; [reflexivity|].
  apply waitForNetworkChange_active.
  unfold after_wait in Hok.
  destruct (waitForNetworkChange (Some wallet) chainId w) as [[[]|e] w'];
    [reflexivity | discriminate Hok].
Qed.

(** X1. When [switchChain] returns a provider there was a wallet, the
    provider wraps it and is bound to the requested network, the wallet is on
    that network when the call returns, and the call has registered its
    listener exactly once. *)
Theorem switchChain_binds_provider
    (ethereum : option Wallet) (chainId : string) (w : World)
    (provider : Web3Provider) :
  fst (switchChain ethereum chainId w) = Ok provider ->
  ethereum = Some (underlying provider) /\
  network provider = chainId /\
  active (snd (switchChain ethereum chainId w)) = chainId /\
  count is_registration (hooks_since w (snd (switchChain ethereum chainId w)))
    = 1.
Proof.
  intros Hok.
  destruct ethereum as [wallet|];
    [|rewrite switchChain_no_wallet in Hok; discriminate Hok].
  assert (Hreach : reaches_wait (Some wallet) chainId = true).
  { rewrite switchChain_result in Hok. unfold switch_outcome, reaches_wait in *.
    destruct (switch_reply wallet chainId) as [[]|e]; [reflexivity|].
    destruct (unrecognized e); [|discriminate Hok].
    destruct (find _ _) as [chain|]; [|discriminate Hok].
    destruct (add_reply wallet (add_params chain)); [reflexivity|].
    discriminate Hok. }
  assert (Hcount : count is_registration
                     (hooks_since w (snd (switchChain (Some wallet) chainId w)))
                   = 1).
  { destruct (switchChain_effects (Some wallet) chainId w) as (Hh & _).
    rewrite (hooks_since_app _ _ _ Hh). unfold switch_hooks.
    rewrite Hreach. reflexivity. }
  revert Hok Hcount. rewrite switchChain_unfold. cbv zeta.
  destruct (switch_reply wallet chainId) as [[]|e].
  - intros Hok Hcount. rewrite after_wait_world in *.
    destruct (after_wait_ok _ _ _ _ Hok) as [-> Hactive].
    repeat split; try reflexivity; assumption.
  - destruct (unrecognized e); [|discriminate].
    destruct (find _ _) as [chain|]; [|discriminate].
    destruct (add_reply wallet (add_params chain)) as [[]|e']; [|discriminate].
    intros Hok Hcount. rewrite after_wait_world in *.
    destruct (after_wait_ok _ _ _ _ Hok) as [-> Hactive].
    repeat split; try reflexivity; assumption.
Qed.

Lemma switchChain_binds_provider_witness :
  active (snd (switchChain (Some sample_wallet) "0x1" world0)) = "0x1" /\
  active world0 = "0x5".
Proof.
  split; [|reflexivity].
  apply (switchChain_binds_provider (Some sample_wallet) "0x1" world0
           (mkWeb3Provider sample_wallet "0x1")).
  vm_compute. reflexivity.
Defined.

(** X2. Without a wallet [switchChain] sends nothing and registers no
    listener: it arms its timer, waits the full 3000 milliseconds and fails
    with the timeout error. *)
Theorem switchChain_without_wallet (chainId : string) (w : World) :
  let out := switchChain None chainId w in
  fst out = Err (Error "Network change timeout") /\
  requests (snd out) = requests w /\
  listeners (snd out) = listeners w /\
  hooks (snd out) =
    hooks w ++ [TimerArmed (fresh w); TimerCleared (fresh w)] /\
  clock (snd out) = (clock w + 3000)%N /\
  console (snd out) = console w.
Proof.
  cbv zeta. rewrite switchChain_no_wallet. cbn [fst snd].
  destruct (waitForNetworkChange_effects None chainId w)
    as (Hl & _ & _ & Hq & Hc & Hh).
  rewrite Hl, Hq, Hc, Hh.
  rewrite (waitForNetworkChange_timeout_clock None chainId w eq_refl).
  repeat split; reflexivity.
Qed.

Lemma find_unknown (chainId : string) :
  (forall chain, In chain (Object_values SUPPORTED_CHAINS) ->
                 Chain.chainId chain <> chainId) ->
  find (fun c => Chain.chainId c =? chainId) (Object_values SUPPORTED_CHAINS)
  = None.
Proof.
  intros Hnot.
  destruct (find _ _) as [chain|] eqn:Hfind; [|reflexivity].
  apply find_some in Hfind. destruct Hfind as [Hin Heq].
  apply String.eqb_eq in Heq. exfalso. exact (Hnot chain Hin Heq).
Qed.

(** X3. A refusal of the switch request that does not carry code 4902, or
    that concerns a network the registry does not list, is rethrown as it
    is: nothing but the switch request is sent, no listener is registered, no
    timer armed and no time spent. *)
Theorem switchChain_rethrows_refusal
    (wallet : Wallet) (chainId : string) (e : JsError) (w : World) :
  switch_reply wallet chainId = Err e ->
  err_code e <> Some 4902%Z \/
  (forall chain, In chain (Object_values SUPPORTED_CHAINS) ->
                 Chain.chainId chain <> chainId) ->
  switchChain (Some wallet) chainId w =
  (Err e,
   mkWorld (clock w) (active w) (listeners w) (timers w) (fresh w)
           (requests w ++ [wallet_switchEthereumChain chainId]) (hooks w)
           (console w)).
Proof.
  intros Hreply Hwhy. rewrite switchChain_unfold, Hreply. cbv zeta.
  destruct Hwhy as [Hcode|Hunknown].
  - assert (unrecognized e = false) as ->; [|reflexivity].
    unfold unrecognized. destruct (err_code e) as [c|]; [|reflexivity].
    apply Z.eqb_neq. intros ->. apply Hcode. reflexivity.
  - rewrite (find_unknown _ Hunknown).
    destruct (unrecognized e); reflexivity.
Qed.

Lemma switchChain_rethrows_refusal_witness :
  fst (switchChain (Some refusing_wallet) "0xa" world0) =
    Err (mkJsError "Error" "Unrecognized chain ID" (Some 4902%Z)) /\
  requests (snd (switchChain (Some refusing_wallet) "0xa" world0)) =
    [wallet_switchEthereumChain "0xa"].
Proof.
  rewrite (switchChain_rethrows_refusal refusing_wallet "0xa"
             (mkJsError "Error" "Unrecognized chain ID" (Some 4902%Z)) world0
             eq_refl).
  - split; reflexivity.
  - right. simpl. intros chain [<-|[<-|[<-|[<-|[]]]]]; discriminate.
Defined.

Lemma waitForNetworkChange_clock ethereum target w :
  (clock w <= clock (snd (waitForNetworkChange ethereum target w))
           <= clock w + 3000)%N.
Proof.
  destruct (confirmed (notifications ethereum target) target 0) eqn:Hconf.
  - unfold confirmed in Hconf.
    destruct (arrival target (notifications ethereum target) 0) as [t|]
      eqn:Harr; [|discriminate Hconf].
    apply N.ltb_lt in Hconf.
    destruct (waitForNetworkChange_confirmed ethereum target w t Harr Hconf)
      as [_ Hc].
    rewrite Hc. unfold NETWORK_CHANGE_TIMEOUT in Hconf. lia.
  - rewrite (waitForNetworkChange_timeout_clock _ _ _ Hconf).
    unfold NETWORK_CHANGE_TIMEOUT. lia.
Qed.

Lemma switchChain_clock ethereum chainId w :
  (clock w <= clock (snd (switchChain ethereum chainId w)) <= clock w + 3000)%N.
Proof.
  destruct ethereum as [wallet|].
  - rewrite switchChain_unfold. cbv zeta. unfold logged, send. cbn [snd].
    destruct (switch_reply wallet chainId) as [[]|e].
    + rewrite after_wait_world.
      match goal with
      | |- context [waitForNetworkChange ?e ?t ?w1] =>
          exact (waitForNetworkChange_clock e t w1)
      end.
    + destruct (unrecognized e); [|simpl; lia].
      destruct (find _ _) as [chain|]; [|simpl; lia].
      destruct (add_reply wallet (add_params chain)) as [[]|e'];
        [|simpl; lia].
      rewrite after_wait_world.
      match goal with
      | |- context [waitForNetworkChange ?e ?t ?w1] =>
          exact (waitForNetworkChange_clock e t w1)
      end.
  - rewrite switchChain_no_wallet. cbn [snd].
    apply waitForNetworkChange_clock.
Qed.

(** X4. A call of [switchChain] waits at most once: it returns no later than
    3000 milliseconds of its own timer after it started and arms at most one
    timer, so a timeout is not retried.  It sends at most two requests, and
    an add-network request only in answer to code 4902 for a network of the
    registry, with that network's parameters. *)
Theorem switchChain_waits_at_most_once
    (ethereum : option Wallet) (chainId : string) (w : World) :
  let w' := snd (switchChain ethereum chainId w) in
  (clock w <= clock w' <= clock w + 3000)%N /\
  count is_arming (hooks_since w w') <= 1 /\
  requests w' = requests w ++ switch_requests ethereum chainId /\
  List.length (switch_requests ethereum chainId) <= 2 /\
  (forall params,
     In (wallet_addEthereumChain params) (switch_requests ethereum chainId) ->
     exists wallet e chain,
       ethereum = Some wallet /\
       switch_reply wallet chainId = Err e /\
       err_code e = Some 4902%Z /\
       In chain (Object_values SUPPORTED_CHAINS) /\
       Chain.chainId chain = chainId /\
       params = add_params chain).
Proof.
  cbv zeta.
  destruct (switchChain_effects ethereum chainId w) as (Hh & Hq & _).
  split; [apply switchChain_clock|].
  split.
  { rewrite (hooks_since_app _ _ _ Hh). unfold switch_hooks.
    destruct (reaches_wait ethereum chainId); destruct ethereum; cbn; lia. }
  split; [exact Hq|].
  unfold switch_requests.
  destruct ethereum as [wallet|]; [|split; [simpl; lia | intros p []]].
  destruct (switch_reply wallet chainId) as [[]|e] eqn:Hreply.
  - split; [simpl; lia|]. intros p [H|[]]. discriminate H.
  - destruct (unrecognized e) eqn:Hun.
    + destruct (find _ _) as [chain|] eqn:Hfind.
      * split; [simpl; lia|]. intros p [H|[H|[]]]; [discriminate H|].
        injection H as <-. apply find_some in Hfind.
        destruct Hfind as [Hin Heq]. apply String.eqb_eq in Heq.
        exists wallet, e, chain. repeat split; try assumption.
        unfold unrecognized in Hun.
        destruct (err_code e) as [c|]; [|discriminate Hun].
        apply Z.eqb_eq in Hun. subst c. reflexivity.
      * split; [simpl; lia|]. intros p [H|[]]. discriminate H.
    + split; [simpl; lia|]. intros p [H|[]]. discriminate H.
Qed.

Lemma switchChain_waits_at_most_once_witness :
  exists wallet e chain,
    Some sample_wallet = Some wallet /\
    switch_reply wallet "0x89" = Err e /\
    err_code e = Some 4902%Z /\
    In chain (Object_values SUPPORTED_CHAINS) /\
    Chain.chainId chain = "0x89" /\
    add_params POLYGON = add_params chain.
Proof.
  apply (switchChain_waits_at_most_once (Some sample_wallet) "0x89" world0).
  vm_compute. right. left. reflexivity.
Defined.

(* ------------------------------------------------------------------ *)
(** ** More on the reads and the aggregation loop *)

Lemma same_page_refl w : same_page w w.
Proof. repeat split. Qed.

Lemma same_page_trans a b c : same_page a b -> same_page b c -> same_page a c.
Proof.
  unfold same_page. intros (H1 & H2 & H3 & H4 & H5 & H6)
                           (K1 & K2 & K3 & K4 & K5 & K6).
  repeat split; congruence.
Qed.

Lemma getNativeTokenBalance_same_page provider address chain w :
  same_page w (snd (getNativeTokenBalance provider address chain w)).
Proof.
  unfold getNativeTokenBalance. run.
  destruct (native_raw _ _ _) as [balance|e]; simpl;
    [destruct (isZero balance)|]; repeat split.
Qed.

Lemma getTokenBalance_same_page provider tokenAddress walletAddress chainName w :
  same_page w
    (snd (getTokenBalance provider tokenAddress walletAddress chainName w)).
Proof.
  unfold getTokenBalance, contract_reads. run.
  destruct (token_raw (underlying provider) (network provider) tokenAddress
                      walletAddress) as [balance|e];
    destruct (token_symbol (underlying provider) (network provider)
                           tokenAddress) as [symbol|e'];
    destruct (token_decimals (underlying provider) (network provider)
                             tokenAddress) as [decimals|e''];
    simpl; try destruct (isZero balance); repeat split.
Qed.

Lemma token_reads_same_page provider address chainName tokens w :
  same_page w
    (snd (Promise_all
            (map (fun token =>
                    getTokenBalance provider (Token.address token) address
                                    chainName) tokens) w)).
Proof.
  revert w. induction tokens as [|token tokens IH]; intros w; simpl.
  - apply same_page_refl.
  - pose proof (getTokenBalance_same_page provider (Token.address token)
                  address chainName w) as H1.
    destruct (getTokenBalance provider (Token.address token) address
                              chainName w) as [r w1].
    specialize (IH w1).
    destruct (Promise_all _ w1) as [rs w2]. cbn [snd] in *.
    eapply same_page_trans; eassumption.
Qed.

(** The page after the visit of one network, against the page the switch
    left: the visit of a network whose switch succeeded ends with the delay
    of 500 milliseconds, the visit of one whose switch failed does not. *)
Lemma visit_page ethereum address chain holdings w :
  let w1 := snd (switchChain ethereum (Chain.chainId chain) w) in
  let w' := snd (snd (visit ethereum address chain (holdings, w))) in
  active w' = active w1 /\ listeners w' = listeners w1 /\
  timers w' = timers w1 /\ hooks w' = hooks w1 /\
  match switch_outcome ethereum (Chain.chainId chain) with
  | Ok _ => clock w' = (clock w1 + 500)%N /\ fresh w' = S (fresh w1)
  | Err _ => clock w' = clock w1 /\ fresh w' = fresh w1
  end.
Proof.
  cbv zeta.
  destruct (switch_outcome ethereum (Chain.chainId chain)) as [provider|e]
    eqn:Hout.
  - unfold visit, try_catch, bind, page, push. cbn [fst snd].
    pose proof (switchChain_result ethereum (Chain.chainId chain) w) as Hs.
    rewrite Hout in Hs.
    destruct (switchChain ethereum (Chain.chainId chain) w) as [r w1].
    cbn [fst snd] in *. subst r.
    pose proof (getNativeTokenBalance_same_page provider address chain w1)
      as Hn.
    pose proof (getNativeTokenBalance_result provider address chain w1) as Hnr.
    destruct (getNativeTokenBalance provider address chain w1) as [rn w2].
    cbn [fst snd] in *. subst rn.
    destruct (native_reading provider address chain) as [holding|];
      unfold ret; cbn [fst snd];
      match goal with
      | |- context [Promise_all ?tasks ?s] =>
          pose proof (token_reads_same_page provider address (Chain.name chain)
                        (getCommonTokensForChain (Chain.chainId chain)) s)
            as Ht;
          pose proof (token_reads_result provider address (Chain.name chain)
                        (getCommonTokensForChain (Chain.chainId chain)) s)
            as Hv;
          destruct (Promise_all tasks s) as [rt w3]
      end;
      cbn [fst snd] in *; subst rt; cbn [fst snd]; unfold delay;
      cbn [fst snd clock active listeners timers fresh hooks];
      destruct (same_page_trans _ _ _ Hn Ht) as (K1 & K2 & K3 & K4 & K5 & K6);
      rewrite K1, K2, K3, K4, K5, K6; repeat split; reflexivity.
  - rewrite (visit_skips _ _ _ _ _ _ Hout). cbn [snd].
    unfold console_error. cbn [snd clock active listeners timers fresh hooks].
    repeat split; reflexivity.
Qed.

Lemma visit_ok ethereum address chain holdings w :
  exists holdings' w',
    visit ethereum address chain (holdings, w) = (Ok tt, (holdings', w')).
Proof.
  destruct (visit_result ethereum address chain holdings w) as [Hr _].
  destruct (visit ethereum address chain (holdings, w)) as [r [hs w1]].
  cbn [fst] in Hr. subst r. eauto.
Qed.

Lemma aggregate_requests ethereum address chains holdings w :
  requests (snd (snd (for_of chains (visit ethereum address) (holdings, w)))) =
  requests w ++ flat_map (network_requests ethereum address) chains.
Proof.
  revert holdings w. induction chains as [|chain chains IH];
    intros holdings w; simpl.
  - rewrite app_nil_r. reflexivity.
  - unfold bind.
    pose proof (visit_requests ethereum address chain holdings w) as Hq.
    destruct (visit_ok ethereum address chain holdings w)
      as (hs & w1 & Hv).
    rewrite Hv in *. cbn [snd] in Hq.
    rewrite IH, Hq. unfold network_requests. rewrite <- !app_assoc.
    reflexivity.
Qed.

Lemma visit_restores ethereum address chain holdings w :
  well_formed w ->
  let w' := snd (snd (visit ethereum address chain (holdings, w))) in
  listeners w' = listeners w /\ timers w' = timers w /\ well_formed w'.
Proof.
  intros Hwf. cbv zeta.
  destruct (visit_page ethereum address chain holdings w)
    as (_ & Hl & Ht & _ & Hrest).
  destruct (switchChain_effects ethereum (Chain.chainId chain) w)
    as (_ & _ & _ & Hsw).
  destruct (Hsw Hwf) as (Sl & St & [Wl Wt]).
  rewrite Hl, Ht, Sl, St. split; [reflexivity|]. split; [reflexivity|].
  unfold well_formed. rewrite Hl, Ht.
  destruct (switch_outcome ethereum (Chain.chainId chain));
    destruct Hrest as [_ ->]; split;
    try assumption; eapply Forall_lt_weaken; try eassumption; lia.
Qed.

Lemma aggregate_restores ethereum address chains holdings w :
  well_formed w ->
  let w' := snd (snd (for_of chains (visit ethereum address) (holdings, w))) in
  listeners w' = listeners w /\ timers w' = timers w /\ well_formed w'.
Proof.
  revert holdings w. induction chains as [|chain chains IH];
    intros holdings w Hwf; cbv zeta; simpl.
  - repeat split; try reflexivity; apply Hwf.
  - unfold bind.
    destruct (visit_restores ethereum address chain holdings w Hwf)
      as (Hl & Ht & Hwf1).
    destruct (visit_ok ethereum address chain holdings w)
      as (hs & w1 & Hv).
    rewrite Hv in *. cbn [snd] in *.
    destruct (IH hs w1 Hwf1) as (Il & It & Iw).
    split; [congruence|]. split; [congruence | exact Iw].
Qed.

Lemma visit_clock ethereum address chain holdings w :
  let w' := snd (snd (visit ethereum address chain (holdings, w))) in
  (clock w <= clock w' <= clock w + 3500)%N.
Proof.
  cbv zeta.
  destruct (visit_page ethereum address chain holdings w)
    as (_ & _ & _ & _ & Hrest).
  pose proof (switchChain_clock ethereum (Chain.chainId chain) w) as Hc.
  destruct (switch_outcome ethereum (Chain.chainId chain));
    destruct Hrest as [-> _]; lia.
Qed.

Lemma aggregate_clock ethereum address chains holdings w :
  let w' := snd (snd (for_of chains (visit ethereum address) (holdings, w))) in
  (clock w <= clock w' <= clock w + 3500 * N.of_nat (List.length chains))%N.
Proof.
  revert holdings w. induction chains as [|chain chains IH];
    intros holdings w; cbv zeta.
  - simpl. lia.
  - cbn [for_of List.length]. unfold bind.
    pose proof (visit_clock ethereum address chain holdings w) as Hc.
    destruct (visit_ok ethereum address chain holdings w)
      as (hs & w1 & Hv).
    rewrite Hv in *. cbn [snd] in *.
    specialize (IH hs w1). cbv zeta in IH. lia.
Qed.

Lemma getAccountHoldings_world wallet address w :
  snd (getAccountHoldings (Some wallet) address w) =
  snd (snd (for_of (Object_values SUPPORTED_CHAINS)
                   (visit (Some wallet) address) ([], w))).
Proof.
  unfold getAccountHoldings.
  destruct (for_of _ _ _) as [[[]|e] [hs w1]]; reflexivity.
Qed.





(** X6. An aggregation leaves no listener and no timer behind: the
    [chainChanged] listeners and the armed timers of the page are the same
    after [getAccountHoldings] as before, whatever the wallet did.  Its
    [holdings] array starts empty at every call, so a second aggregation on
    the page the first one left returns the same list, not a longer one. *)
Theorem getAccountHoldings_leaves_page
    (wallet : Wallet) (address : string) (w : World) :
  well_formed w ->
  let out := getAccountHoldings (Some wallet) address w in
  listeners (snd out) = listeners w /\
  timers (snd out) = timers w /\
  well_formed (snd out) /\
  fst (getAccountHoldings (Some wallet) address (snd out)) = fst out.
Proof.
  intros Hwf. cbv zeta. rewrite getAccountHoldings_world.
  destruct (aggregate_restores (Some wallet) address
              (Object_values SUPPORTED_CHAINS) [] w Hwf) as (Hl & Ht & Hw).
  repeat split; try assumption; try apply Hw.
  rewrite !getAccountHoldings_result. reflexivity.
Qed.

Lemma getAccountHoldings_leaves_page_witness :
  listeners (snd (getAccountHoldings (Some sample_wallet) "0xX" world0)) = [] /\
  timers (snd (getAccountHoldings (Some sample_wallet) "0xX" world0)) = [].
Proof.
  assert (Hwf : well_formed world0) by (split; constructor).
  destruct (getAccountHoldings_leaves_page sample_wallet "0xX" world0 Hwf)
    as (Hl & Ht & _).
  split; assumption.
Defined.

(** X7. The timers of an aggregation: each network costs at most the 3000
    milliseconds of the switch timeout plus the 500 milliseconds of the
    delay, so at most 14000 milliseconds for the four networks.  The delay
    follows the reads inside the [try]: after a failed switch it is
    skipped. *)
Theorem getAccountHoldings_timer_budget
    (wallet : Wallet) (address : string) (w : World) :
  let w' := snd (getAccountHoldings (Some wallet) address w) in
  (clock w <= clock w' <= clock w + 14000)%N /\
  (forall chain holdings w0,
     let switched := snd (switchChain (Some wallet) (Chain.chainId chain) w0) in
     let visited :=
       snd (snd (visit (Some wallet) address chain (holdings, w0))) in
     (is_ok (fst (switchChain (Some wallet) (Chain.chainId chain) w0)) = true ->
      clock visited = (clock switched + 500)%N) /\
     (is_ok (fst (switchChain (Some wallet) (Chain.chainId chain) w0)) = false ->
      clock visited = clock switched)).
Proof.
  cbv zeta. split.
  - rewrite getAccountHoldings_world.
    exact (aggregate_clock (Some wallet) address
             (Object_values SUPPORTED_CHAINS) [] w).
  - intros chain holdings w0.
    destruct (visit_page (Some wallet) address chain holdings w0)
      as (_ & _ & _ & _ & Hrest).
    rewrite switchChain_result.
    destruct (switch_outcome (Some wallet) (Chain.chainId chain));
      destruct Hrest as [Hc _]; split; intros H;
      try discriminate H; exact Hc.
Qed.

Lemma getAccountHoldings_timer_budget_witness :
  clock (snd (snd (visit (Some sample_wallet) "0xX" BSC ([], world0)))) =
    3000%N /\
  clock (snd (snd (visit (Some sample_wallet) "0xX" ETH_MAINNET ([], world0)))) =
    660%N.
Proof.
  destruct (getAccountHoldings_timer_budget sample_wallet "0xX" world0)
    as (_ & Hvisit).
  destruct (Hvisit BSC [] world0) as (_ & Hfail).
  destruct (Hvisit ETH_MAINNET [] world0) as (Hok & _).
  split.
  - rewrite Hfail; vm_compute; reflexivity.
  - rewrite Hok; vm_compute; reflexivity.
Defined.

Lemma length_non_null {A} (xs : list (option A)) :
  List.length (non_null xs) <= List.length xs.
Proof. induction xs as [|[x|] xs IH]; simpl; lia. Qed.

Lemma contribution_length ethereum address chain :
  List.length (contribution ethereum address chain) <=
  1 + List.length (getCommonTokensForChain (Chain.chainId chain)).
Proof.
  unfold contribution.
  destruct (switch_outcome ethereum (Chain.chainId chain)) as [provider|e];
    [|simpl; lia].
  unfold readings. rewrite List.length_app.
  pose proof (length_non_null
                (map (fun token =>
                        token_reading provider (Token.address token) address
                                      (Chain.name chain))
                     (getCommonTokensForChain (Chain.chainId chain)))) as Hn.
  rewrite List.length_map in Hn.
  destruct (native_reading provider address chain); simpl; lia.
Qed.

Lemma readings_unselected provider address chain h :
  In h (readings provider address chain) ->
  TokenHolding.selected h = Some false.
Proof.
  intros Hin. destruct (In_readings _ _ _ _ Hin) as [Hn|(token & _ & Ht)].
  - unfold native_reading in Hn.
    destruct (native_raw _ _ _) as [balance|e]; [|discriminate].
    destruct (isZero balance); [discriminate|].
    injection Hn as <-. reflexivity.
  - unfold token_reading in Ht. cbv zeta in Ht.
    destruct (token_raw _ _ _ _) as [balance|e]; [|discriminate].
    destruct (token_symbol _ _ _) as [symbol|e]; [|discriminate].
    destruct (token_decimals _ _ _) as [decimals|e]; [|discriminate].
    destruct (isZero balance); [discriminate|].
    injection Ht as <-. reflexivity.
Qed.

(** X8. An aggregation returns at most nine holdings: one native holding
    per network and one per known token, three on Ethereum and two on BNB
    Chain.  Every holding is unselected and carries the display name of one
    of the four networks. *)
Theorem getAccountHoldings_bounded
    (wallet : Wallet) (address : string) (w : World)
    (holdings : list TokenHolding.t) :
  fst (getAccountHoldings (Some wallet) address w) = Ok holdings ->
  List.length holdings <= 9 /\
  Forall (fun h =>
            TokenHolding.selected h = Some false /\
            In (TokenHolding.chain h)
               ["ETHEREUM"; "BNB CHAIN"; "POLYGON"; "ARBITRUM"])
         holdings.
Proof.
  rewrite getAccountHoldings_result. intros H. injection H as <-.
  split.
  - pose proof (contribution_length (Some wallet) address ETH_MAINNET) as H1.
    pose proof (contribution_length (Some wallet) address BSC) as H2.
    pose proof (contribution_length (Some wallet) address POLYGON) as H3.
    pose proof (contribution_length (Some wallet) address ARBITRUM) as H4.
    rewrite !List.length_app. simpl in *. lia.
  - change (Forall
              (fun h =>
                 TokenHolding.selected h = Some false /\
                 In (TokenHolding.chain h)
                    ["ETHEREUM"; "BNB CHAIN"; "POLYGON"; "ARBITRUM"])
              (flat_map (contribution (Some wallet) address)
                        (Object_values SUPPORTED_CHAINS))).
    apply Forall_forall. intros h Hin.
    apply in_flat_map in Hin. destruct Hin as (chain & Hchain & Hh).
    unfold contribution in Hh.
    destruct (switch_outcome (Some wallet) (Chain.chainId chain))
      as [provider|e]; [|contradiction].
    split; [eapply readings_unselected; eassumption|].
    rewrite (readings_chain _ _ _ _ Hh).
    simpl in Hchain. destruct Hchain as [<-|[<-|[<-|[<-|[]]]]]; simpl; tauto.
Qed.

Lemma getAccountHoldings_bounded_witness :
  exists holdings,
    fst (getAccountHoldings (Some sample_wallet) "0xX" world0) = Ok holdings /\
    List.length holdings <= 9.
Proof.
  eexists. split; [vm_compute; reflexivity|].
  apply (getAccountHoldings_bounded sample_wallet "0xX" world0).
  vm_compute. reflexivity.
Defined.

(* ------------------------------------------------------------------ *)
(** ** More on the reads and the connector *)



(** X10. The token read never throws.  When the three calls succeed it
    writes nothing to the console; when one of them fails it writes exactly
    one line, which names the token's address and carries the error of a
    call that failed. *)
Theorem token_read_failure_is_logged
    (provider : Web3Provider) (tokenAddress walletAddress chainName : string)
    (w : World) :
  let out := getTokenBalance provider tokenAddress walletAddress chainName w in
  let wallet := underlying provider in
  let net := network provider in
  (exists result, fst out = Ok result) /\
  (is_ok (token_raw wallet net tokenAddress walletAddress) = true ->
   is_ok (token_symbol wallet net tokenAddress) = true ->
   is_ok (token_decimals wallet net tokenAddress) = true ->
   console (snd out) = console w) /\
  (is_ok (token_raw wallet net tokenAddress walletAddress) &&
   is_ok (token_symbol wallet net tokenAddress) &&
   is_ok (token_decimals wallet net tokenAddress) = false ->
   exists e,
     console (snd out) =
       console w ++ [(("Error checking token " ++ tokenAddress ++ ":")%string, e)] /\
     (token_raw wallet net tokenAddress walletAddress = Err e \/
      token_symbol wallet net tokenAddress = Err e \/
      token_decimals wallet net tokenAddress = Err e)).
Proof.
  cbv zeta.
  split; [eexists; apply getTokenBalance_result|].
  unfold getTokenBalance, contract_reads. run.
  destruct (token_raw (underlying provider) (network provider) tokenAddress
                      walletAddress) as [balance|e];
    destruct (token_symbol (underlying provider) (network provider)
                           tokenAddress) as [symbol|e'];
    destruct (token_decimals (underlying provider) (network provider)
                             tokenAddress) as [decimals|e''];
    simpl; (split; [intros H1 H2 H3; try discriminate;
                    destruct (isZero balance); reflexivity
                   |intros H; try discriminate H]);
    eexists; (split; [reflexivity|]); auto.
Qed.

Lemma token_read_failure_is_logged_witness :
  exists e,
    console (snd (getTokenBalance sample_provider
                    "0x2260FAC5E5542a773Aa44fBCfeDf7C193bc2C599" "0xX"
                    "ETHEREUM" world0)) =
    [("Error checking token 0x2260FAC5E5542a773Aa44fBCfeDf7C193bc2C599:", e)].
Proof.
  destruct (token_read_failure_is_logged sample_provider
              "0x2260FAC5E5542a773Aa44fBCfeDf7C193bc2C599" "0xX" "ETHEREUM"
              world0) as (_ & _ & Hfail).
  destruct (Hfail eq_refl) as (e & Hc & _).
  exists e. exact Hc.
Defined.

Lemma aggregations_requests wallet accounts w :
  exists rest,
    requests
      (snd (Promise_all
              (map (fun address =>
                      holdings <- getAccountHoldings (Some wallet) address ;;
                      ret (Account.mk address holdings))
                   accounts) w)) = requests w ++ rest.
Proof.
  revert w. induction accounts as [|address accounts IH]; intros w;
    cbn [map Promise_all].
  - exists []. rewrite app_nil_r. reflexivity.
  - unfold bind at 1, ret.
    pose proof (getAccountHoldings_world wallet address w) as Hw.
    pose proof (aggregate_requests (Some wallet) address
                  (Object_values SUPPORTED_CHAINS) [] w) as Hq.
    rewrite <- Hw in Hq.
    destruct (getAccountHoldings (Some wallet) address w) as [[hs|e] w1];
      cbn [snd] in *;
      destruct (IH w1) as (rest & Hrest);
      destruct (Promise_all _ w1) as [rs w2]; cbn [snd] in *;
      eexists; rewrite Hrest, Hq, <- app_assoc; reflexivity.
Qed.

(** X11. [connectMetaMask] goes on exactly when [isMetaMaskInstalled] says
    the wallet is there.  Where it is not, the call fails with a
    [MetaMaskError] before anything is sent or changed.  Where it is, the
    first request is the authorization of the accounts; and when that is
    refused, or grants no account, it is the only request: no network is
    switched. *)
Theorem connect_guard_matches_isMetaMaskInstalled (global : Global) (w : World) :
  (isMetaMaskInstalled global = false ->
   exists message, connectMetaMask global w = (Err (MetaMaskError message), w)) /\
  (isMetaMaskInstalled global = true ->
   exists rest,
     requests (snd (connectMetaMask global w)) =
     requests w ++ eth_requestAccounts :: rest) /\
  (forall wallet,
     global = Browser (Some wallet) ->
     accounts_reply wallet = Ok [] \/ is_ok (accounts_reply wallet) = false ->
     snd (connectMetaMask global w) =
     mkWorld (clock w) (active w) (listeners w) (timers w) (fresh w)
             (requests w ++ [eth_requestAccounts]) (hooks w) (console w)).
Proof.
  split; [|split].
  - destruct global as [|[wallet|]]; intros H; try discriminate H;
      eexists; reflexivity.
  - destruct global as [|[wallet|]]; intros H; try discriminate H.
    unfold connectMetaMask, try_catch, bind at 1, send.
    destruct (accounts_reply wallet) as [[|a rest]|e]; cbn iota beta.
    + exists []. reflexivity.
    + match goal with
      | |- context [Promise_all ?tasks ?s] =>
          destruct (aggregations_requests wallet (a :: rest) s) as (more & Hq);
          destruct (Promise_all tasks s) as [[accounts|e] s1]
      end; cbn [snd requests] in *.
      * exists more. rewrite Hq, <- app_assoc. reflexivity.
      * exists more.
        destruct (err_code e) as [c|]; [destruct (c =? 4001)%Z|];
          cbn [snd throw]; rewrite Hq, <- app_assoc; reflexivity.
    + exists [].
      destruct (err_code e) as [c|]; [destruct (c =? 4001)%Z|]; reflexivity.
  - intros wallet -> Hreply.
    unfold connectMetaMask, try_catch, bind at 1, send.
    destruct (accounts_reply wallet) as [[|a rest]|e]; cbn iota beta.
    + reflexivity.
    + destruct Hreply as [H|H]; discriminate H.
    + destruct (err_code e) as [c|]; [destruct (c =? 4001)%Z|]; reflexivity.
Qed.

Lemma connect_guard_matches_isMetaMaskInstalled_witness :
  (exists message,
     connectMetaMask (Browser None) world0 = (Err (MetaMaskError message), world0)) /\
  requests (snd (connectMetaMask (Browser (Some mute_wallet)) world0)) =
    [eth_requestAccounts].
Proof.
  split.
  - apply (connect_guard_matches_isMetaMaskInstalled (Browser None) world0).
    reflexivity.
  - destruct (connect_guard_matches_isMetaMaskInstalled
                (Browser (Some mute_wallet)) world0) as (_ & _ & Hone).
    rewrite (Hone mute_wallet eq_refl); [reflexivity|].
    right. reflexivity.
Defined.

(** X12. The accounts [connectMetaMask] returns are one per authorized
    address, in the wallet's order, and the holdings of each are what
    [getAccountHoldings] returns for its address. *)
Theorem connect_delivers_aggregations
    (wallet : Wallet) (w : World) (accounts : list Account.t) :
  fst (connectMetaMask (Browser (Some wallet)) w) = Ok accounts ->
  accounts_reply wallet = Ok (map Account.address accounts) /\
  accounts <> [] /\
  Forall (fun account =>
            forall w',
              fst (getAccountHoldings (Some wallet) (Account.address account) w')
              = Ok (Account.holdings account))
         accounts.
Proof.
  intros Hok.
  destruct (accounts_reply wallet) as [[|a rest]|e0] eqn:Hreply.
  - rewrite (connect_empty _ _ Hreply) in Hok. discriminate Hok.
  - rewrite (connect_accounts _ _ _ _ Hreply) in Hok. injection Hok as <-.
    split; [f_equal; symmetry; exact (addresses_of wallet (a :: rest))|].
    split; [discriminate|].
    change (Forall
              (fun account =>
                 forall w',
                   fst (getAccountHoldings (Some wallet)
                          (Account.address account) w')
                   = Ok (Account.holdings account))
              (map (account_of wallet) (a :: rest))).
    apply Forall_forall. intros account Hin. apply in_map_iff in Hin.
    destruct Hin as (address & <- & _). intros w'.
    apply getAccountHoldings_result.
  - rewrite (connect_rejected _ _ _ Hreply) in Hok. discriminate Hok.
Qed.

Lemma connect_delivers_aggregations_witness :
  exists accounts,
    fst (connectMetaMask (Browser (Some sample_wallet)) world0) = Ok accounts /\
    accounts <> [].
Proof.
  eexists. split; [vm_compute; reflexivity|].
  apply (connect_delivers_aggregations sample_wallet world0).
  vm_compute. reflexivity.
Defined.

(* ------------------------------------------------------------------ *)
(** ** The position panel: rows, pages and selection *)

Lemma length_mapi {A B} (f : A -> nat -> B) (i : nat) (l : list A) :
  List.length (mapi f i l) = List.length l.
Proof. revert i. induction l as [|x l IH]; intros i; simpl; congruence. Qed.

Lemma nth_error_mapi {A B} (f : A -> nat -> B) (i k : nat) (l : list A) :
  nth_error (mapi f i l) k = option_map (fun x => f x (i + k)) (nth_error l k).
Proof.
  revert i k. induction l as [|x l IH]; intros i k.
  - destruct k; reflexivity.
  - destruct k as [|k]; simpl.
    + rewrite Nat.add_0_r. reflexivity.
    + rewrite IH. rewrite Nat.add_succ_r. reflexivity.
Qed.

Lemma skipn_mapi {A B} (f : A -> nat -> B) (i n : nat) (l : list A) :
  skipn n (mapi f i l) = mapi f (i + n) (skipn n l).
Proof.
  revert i l. induction n as [|n IH]; intros i l.
  - rewrite Nat.add_0_r. reflexivity.
  - destruct l as [|x l]; [reflexivity|]. simpl.
    rewrite IH, Nat.add_succ_r. reflexivity.
Qed.

Lemma mapi_unchanged {A} (f : A -> nat -> A) (i : nat) (l : list A) :
  (forall x k, i <= k -> f x k = x) -> mapi f i l = l.
Proof.
  revert i. induction l as [|x l IH]; intros i Hf; [reflexivity|].
  simpl. rewrite (Hf x i) by lia. f_equal.
  apply IH. intros y k Hk. apply Hf. lia.
Qed.

Lemma toggled_at_other (index i : nat) (h : TokenHolding.t) :
  i <> index -> toggled_at index h i = h.
Proof.
  intros Hne. unfold toggled_at.
  destruct (Nat.eqb_spec i index); [contradiction|].
  destruct h. reflexivity.
Qed.

Lemma toggled_at_twice (index i : nat) (h : TokenHolding.t) :
  TokenHolding.selected h <> None ->
  toggled_at index (toggled_at index h i) i = h.
Proof.
  intros Hsel. unfold toggled_at. destruct h as [s c q [b|]];
    [|contradiction]. cbn [TokenHolding.selected TokenHolding.symbol
                             TokenHolding.chain TokenHolding.quantity].
  destruct (i =? index)%nat; [|reflexivity].
  destruct b; reflexivity.
Qed.

Lemma toggle_twice (index i : nat) (l : list TokenHolding.t) :
  Forall (fun h => TokenHolding.selected h <> None) l ->
  mapi (toggled_at index) i (mapi (toggled_at index) i l) = l.
Proof.
  revert i. induction l as [|h l IH]; intros i Hall; [reflexivity|].
  inversion Hall as [|? ? Hh Hl]; subst. simpl.
  rewrite toggled_at_twice by exact Hh. f_equal. apply IH. exact Hl.
Qed.

(** X13. [handleHoldingSelection] changes one checkbox and nothing else: the
    list keeps its length and every holding its symbol, network and
    quantity; the holding at the given position has its checkbox inverted
    and the others are as they were, so a position past the end changes
    nothing.  On holdings whose [selected] field is set, as those of the
    aggregator are, doing it twice gives the view back. *)
Theorem selection_toggles_one_holding (index : nat) (v : View.t) :
  let v' := handleHoldingSelection index v in
  List.length (View.holdings v') = List.length (View.holdings v) /\
  (forall i h,
     nth_error (View.holdings v) i = Some h ->
     exists h',
       nth_error (View.holdings v') i = Some h' /\
       TokenHolding.symbol h' = TokenHolding.symbol h /\
       TokenHolding.chain h' = TokenHolding.chain h /\
       TokenHolding.quantity h' = TokenHolding.quantity h /\
       checked h' = (if (i =? index)%nat then negb (checked h) else checked h) /\
       (i <> index -> h' = h)) /\
  (List.length (View.holdings v) <= index -> v' = v) /\
  (Forall (fun h => TokenHolding.selected h <> None) (View.holdings v) ->
   handleHoldingSelection index v' = v).
Proof.
  cbv zeta. unfold handleHoldingSelection. cbn [View.holdings].
  split; [apply length_mapi|]. split; [|split].
  - intros i h Hi. exists (toggled_at index h i).
    rewrite nth_error_mapi, Hi. cbn [option_map Nat.add].
    split; [reflexivity|]. split; [reflexivity|]. split; [reflexivity|].
    split; [reflexivity|]. split; [|apply toggled_at_other].
    unfold checked, toggled_at. cbn [TokenHolding.selected].
    destruct (i =? index)%nat; [|reflexivity].
    destruct (TokenHolding.selected h) as [[|]|]; reflexivity.
  - intros Hlen. destruct v as [ws acc sel hs p r e].
    cbn [View.holdings View.walletService View.accounts View.selectedAccount
         View.page View.rowsPerPage View.error] in *.
    f_equal.
    assert (Hall : forall i, nth_error (mapi (toggled_at index) 0 hs) i =
                             nth_error hs i).
    { intros i. rewrite nth_error_mapi. cbn [Nat.add].
      destruct (nth_error hs i) as [h|] eqn:Hi; [|reflexivity].
      cbn [option_map]. f_equal. apply toggled_at_other.
      assert (i < List.length hs) by (apply nth_error_Some; congruence).
      lia. }
    apply nth_error_ext. exact Hall.
  - intros Hall. destruct v as [ws acc sel hs p r e].
    cbn [View.holdings View.walletService View.accounts View.selectedAccount
         View.page View.rowsPerPage View.error] in *.
    f_equal. apply toggle_twice. exact Hall.
Qed.

Lemma selection_toggles_one_holding_witness :
  handleHoldingSelection 1 (handleHoldingSelection 1 sample_view) = sample_view /\
  handleHoldingSelection 3 sample_view = sample_view.
Proof.
  destruct (selection_toggles_one_holding 1 sample_view) as (_ & _ & _ & Htwice).
  destruct (selection_toggles_one_holding 3 sample_view) as (_ & _ & Hpast & _).
  split.
  - apply Htwice. repeat constructor; discriminate.
  - apply Hpast. simpl. lia.
Defined.

Lemma length_rows (v : View.t) :
  List.length (rows v) =
  Nat.min (View.rowsPerPage v)
          (List.length (View.holdings v) - View.page v * View.rowsPerPage v).
Proof.
  unfold rows, slice. rewrite length_firstn, length_skipn. f_equal. lia.
Qed.

Lemma nth_error_rows (v : View.t) (i : nat) :
  i < View.rowsPerPage v ->
  nth_error (rows v) i =
  nth_error (View.holdings v) (View.page v * View.rowsPerPage v + i).
Proof.
  intros Hi. unfold rows, slice. rewrite nth_error_firstn, nth_error_skipn.
  assert ((i <? View.page v * View.rowsPerPage v + View.rowsPerPage v
                - View.page v * View.rowsPerPage v)%nat = true) as ->
    by (apply Nat.ltb_lt; lia).
  reflexivity.
Qed.

Lemma firstn_plus {A} (a b : nat) (l : list A) :
  firstn (a + b) l = firstn a l ++ firstn b (skipn a l).
Proof.
  revert l. induction a as [|a IH]; intros l; [reflexivity|].
  destruct l as [|x l]; simpl.
  - destruct b; reflexivity.
  - rewrite IH. reflexivity.
Qed.

(** X14. The rows of the table: row [i] of the page shown is the holding at
    position [page * rowsPerPage + i], a page shows at most [rowsPerPage]
    rows, and the pages from the first up to any page, one after the other,
    are the holdings up to the end of that page.  After
    [handleChangeRowsPerPage] the first page is shown. *)
Theorem pages_partition_holdings (v : View.t) (pages value : nat) :
  List.length (rows v) =
    Nat.min (View.rowsPerPage v)
            (List.length (View.holdings v) - View.page v * View.rowsPerPage v) /\
  (forall i, i < View.rowsPerPage v ->
     nth_error (rows v) i =
     nth_error (View.holdings v) (View.page v * View.rowsPerPage v + i)) /\
  concat (map (fun p => rows (handleChangePage p v)) (seq 0 pages)) =
    firstn (pages * View.rowsPerPage v) (View.holdings v) /\
  rows (handleChangeRowsPerPage value v) = firstn value (View.holdings v).
Proof.
  split; [apply length_rows|]. split; [apply nth_error_rows|]. split.
  - induction pages as [|n IH]; [reflexivity|].
    rewrite seq_S, map_app, concat_app, IH. cbn [map concat Nat.add].
    rewrite app_nil_r. unfold rows, slice, handleChangePage.
    cbn [View.page View.rowsPerPage View.holdings].
    replace (n * View.rowsPerPage v + View.rowsPerPage v
             - n * View.rowsPerPage v) with (View.rowsPerPage v) by lia.
    replace (S n * View.rowsPerPage v)
      with (n * View.rowsPerPage v + View.rowsPerPage v) by lia.
    rewrite firstn_plus. reflexivity.
  - unfold rows, slice, handleChangeRowsPerPage.
    cbn [View.page View.rowsPerPage View.holdings Nat.mul Nat.add skipn].
    rewrite Nat.sub_0_r. reflexivity.
Qed.

Lemma pages_partition_holdings_witness :
  rows sample_view = [TokenHolding.mk "MATIC" "POLYGON" "2.5" (Some false)] /\
  nth_error (rows sample_view) 0 = nth_error (View.holdings sample_view) 2.
Proof.
  destruct (pages_partition_holdings sample_view 0 0) as (_ & Hrow & _).
  split; [reflexivity|]. apply (Hrow 0). simpl. lia.
Defined.

(** X15. The checkbox of a row passes its position within the page shown,
    and [handleHoldingSelection] takes it as a position in the whole list.
    On the first page the row that was clicked is the one inverted.  On any
    later page the rows shown stay as they were, and the holding inverted is
    the one at that position on the first page. *)
Theorem selection_ignores_page (row : nat) (v : View.t) :
  row < List.length (rows v) ->
  let v' := handleHoldingSelection row v in
  exists clicked,
    nth_error (rows v) row = Some clicked /\
    (View.page v * View.rowsPerPage v = 0 ->
     exists after,
       nth_error (rows v') row = Some after /\
       checked after = negb (checked clicked)) /\
    (0 < View.page v ->
     rows v' = rows v /\
     exists other after,
       nth_error (View.holdings v) row = Some other /\
       nth_error (View.holdings v') row = Some after /\
       checked after = negb (checked other) /\
       nth_error (rows (handleChangePage 0 v)) row = Some other).
Proof.
  intros Hrow. cbv zeta.
  pose proof (length_rows v) as Hlen.
  assert (Hr : row < View.rowsPerPage v) by lia.
  assert (Hin : View.page v * View.rowsPerPage v + row
                < List.length (View.holdings v)) by lia.
  destruct (nth_error (rows v) row) as [clicked|] eqn:Hclicked;
    [|apply nth_error_None in Hclicked; lia].
  exists clicked. split; [reflexivity|].
  assert (Htoggle : forall h,
            checked (toggled_at row h row) = negb (checked h)).
  { intros h. unfold checked, toggled_at. cbn [TokenHolding.selected].
    rewrite Nat.eqb_refl.
    destruct (TokenHolding.selected h) as [[|]|]; reflexivity. }
  split.
  - intros Hfirst. exists (toggled_at row clicked row).
    split; [|apply Htoggle].
    rewrite nth_error_rows in * by exact Hr.
    unfold handleHoldingSelection.
    cbn [View.page View.rowsPerPage View.holdings].
    rewrite Hfirst in *. cbn [Nat.add] in *.
    rewrite nth_error_mapi, Hclicked. reflexivity.
  - intros Hpage.
    assert (Hbefore : row < View.page v * View.rowsPerPage v) by nia.
    split.
    + unfold rows, slice, handleHoldingSelection.
      cbn [View.page View.rowsPerPage View.holdings].
      rewrite skipn_mapi. cbn [Nat.add]. f_equal.
      apply mapi_unchanged. intros h k Hk. apply toggled_at_other. lia.
    + destruct (nth_error (View.holdings v) row) as [other|] eqn:Hother;
        [|apply nth_error_None in Hother; lia].
      exists other, (toggled_at row other row).
      split; [reflexivity|]. split.
      * unfold handleHoldingSelection. cbn [View.holdings].
        rewrite nth_error_mapi, Hother. reflexivity.
      * split; [apply Htoggle|].
        rewrite nth_error_rows by exact Hr. exact Hother.
Qed.

Lemma selection_ignores_page_witness :
  rows (handleHoldingSelection 0 sample_view) = rows sample_view /\
  option_map checked
    (nth_error (View.holdings (handleHoldingSelection 0 sample_view)) 0)
  = Some true.
Proof.
  assert (Hrow : 0 < List.length (rows sample_view)) by (simpl; lia).
  destruct (selection_ignores_page 0 sample_view Hrow)
    as (clicked & _ & _ & Hlater).
  destruct (Hlater ltac:(simpl; lia)) as (Hsame & _).
  split; [exact Hsame | reflexivity].
Defined.

(* ------------------------------------------------------------------ *)
(** ** The position panel: addresses, connection and refresh *)

Lemma length_substring (a k : nat) (s : string) :
  String.length (substring a k s) = Nat.min k (String.length s - a).
Proof.
  revert a k. induction s as [|c s IH]; intros a k.
  - destruct a, k; reflexivity.
  - destruct a as [|a].
    + destruct k as [|k]; [reflexivity|]. simpl. rewrite IH.
      rewrite Nat.sub_0_r. reflexivity.
    + simpl. apply IH.
Qed.

Lemma substring_all (k : nat) (s : string) :
  String.length s <= k -> substring 0 k s = s.
Proof.
  revert k. induction s as [|c s IH]; intros k Hk.
  - destruct k; reflexivity.
  - destruct k as [|k]; simpl in *; [lia|]. rewrite IH by lia. reflexivity.
Qed.

Lemma substring_prefix_app (s t : string) :
  substring 0 (String.length s) (s ++ t)%string = s.
Proof.
  induction s as [|c s IH]; simpl.
  - destruct t; reflexivity.
  - rewrite IH. reflexivity.
Qed.

Lemma substring_skip_app (k : nat) (s t : string) :
  substring (String.length s) k (s ++ t)%string = substring 0 k t.
Proof. induction s as [|c s IH]; simpl; [reflexivity | exact IH]. Qed.

Lemma string_app_assoc (s t u : string) :
  ((s ++ t) ++ u)%string = (s ++ t ++ u)%string.
Proof. induction s as [|c s IH]; simpl; congruence. Qed.

(** X16. [formatAddress] keeps the first six and the last four characters
    of an address around three dots: thirteen characters for any address of
    six characters or more.  An address of four characters or fewer is not
    shortened, it is shown twice, before and after the dots. *)
Theorem formatAddress_shape (address : string) :
  let n := String.length address in
  let shown := formatAddress address in
  String.length shown = Nat.min 6 n + 3 + Nat.min 4 n /\
  (6 <= n ->
   String.length shown = 13 /\
   substring 0 6 shown = substring 0 6 address /\
   substring 6 3 shown = "..." /\
   substring 9 4 shown = substring (n - 4) 4 address) /\
  (n <= 4 -> shown = (address ++ "..." ++ address)%string).
Proof.
  cbv zeta. unfold formatAddress.
  pose proof (length_substring 0 6 address) as Hp.
  pose proof (length_substring (String.length address - 4) 4 address) as Hs.
  rewrite Nat.sub_0_r in Hp.
  split; [|split].
  - rewrite !length_app, Hp, Hs.
    change (String.length "...") with 3. lia.
  - intros Hn.
    assert (Hp6 : String.length (substring 0 6 address) = 6) by lia.
    assert (Hs4 : String.length
                    (substring (String.length address - 4) 4 address) = 4)
      by lia.
    split; [rewrite !length_app, Hp6, Hs4; reflexivity|].
    split; [rewrite <- Hp6 at 1; apply substring_prefix_app|].
    split.
    + rewrite <- Hp6 at 1. rewrite substring_skip_app.
      exact (substring_prefix_app "..." _).
    + rewrite <- string_app_assoc.
      assert (H9 : 9 = String.length (substring 0 6 address ++ "...")%string)
        by (rewrite length_app, Hp6; reflexivity).
      rewrite H9 at 1. rewrite substring_skip_app.
      apply substring_all. lia.
  - intros Hn.
    replace (String.length address - 4) with 0 by lia.
    rewrite !substring_all by lia. reflexivity.
Qed.

Lemma formatAddress_shape_witness :
  formatAddress "0xA0b86991c6218b36c1d19D4a2e9Eb0cE3606eB48" = "0xA0b8...eB48" /\
  formatAddress "0xX" = "0xX...0xX".
Proof.
  destruct (formatAddress_shape "0xX") as (_ & _ & Hshort).
  split; [reflexivity | apply Hshort; simpl; lia].
Defined.

Lemma aggregations_result wallet accounts s :
  fst (Promise_all
         (map (fun address =>
                 holdings <- getAccountHoldings (Some wallet) address ;;
                 ret (Account.mk address holdings))
              accounts) s) = Ok (map (account_of wallet) accounts).
Proof.
  apply Promise_all_values.
  induction accounts as [|address accounts IH]; cbn [map]; constructor;
    [|exact IH].
  intros s'. unfold bind, ret.
  pose proof (getAccountHoldings_result wallet address s') as Hg.
  destruct (getAccountHoldings (Some wallet) address s') as [r s1].
  cbn [fst] in Hg. subst r. reflexivity.
Qed.

Lemma aggregations_without_wallet first rest s :
  Promise_all
    (map (fun address =>
            holdings <- getAccountHoldings None address ;;
            ret (Account.mk address holdings))
         (first :: rest)) s =
  (Err (MetaMaskError "MetaMask not installed"), s).
Proof.
  cbn [map Promise_all]. unfold bind at 1. cbn [getAccountHoldings throw].
  assert (Hrest : forall l,
            snd (Promise_all
                   (map (fun address =>
                           holdings <- getAccountHoldings None address ;;
                           ret (Account.mk address holdings)) l) s) = s).
  { induction l as [|a l IH]; [reflexivity|].
    cbn [map Promise_all]. unfold bind at 1. cbn [getAccountHoldings throw].
    destruct (Promise_all _ s) as [rs s2]. exact IH. }
  specialize (Hrest rest).
  destruct (Promise_all _ s) as [rs s2]. cbn [snd] in Hrest. subst s2.
  reflexivity.
Qed.

(** X17. Choosing the wallet service never throws and leaves the page and
    the rows per page as they are.  Any value but ['metamask'] changes
    nothing.  With ['metamask'], the service is recorded only when
    [connectMetaMask] returned accounts: the error is cleared, the first
    account selected and its holdings shown.  Otherwise the service is
    reset to empty, the accounts, the selection and the holdings stay, and
    the error is the install notice when there is no wallet and the message
    of the [MetaMaskError] when the connection failed. *)
Theorem wallet_choice_outcome
    (ethereum : option Wallet) (value : string) (v : View.t) (w : World) :
  let out := handleWalletServiceChange ethereum value v w in
  exists v',
    fst out = Ok v' /\
    View.page v' = View.page v /\
    View.rowsPerPage v' = View.rowsPerPage v /\
    (value <> "metamask" -> out = (Ok v, w)) /\
    (value = "metamask" -> ethereum = None ->
     out =
     (Ok (View.mk "" (View.accounts v) (View.selectedAccount v)
            (View.holdings v) (View.page v) (View.rowsPerPage v)
            (Some "MetaMask is not installed. Please install MetaMask to continue.")),
      w)) /\
    (forall wallet accounts,
       value = "metamask" -> ethereum = Some wallet ->
       fst (connectMetaMask (Browser ethereum) w) = Ok accounts ->
       exists first rest,
         accounts = first :: rest /\
         v' = View.mk "metamask" accounts (Account.address first)
                (Account.holdings first) (View.page v) (View.rowsPerPage v)
                None) /\
    (forall wallet e,
       value = "metamask" -> ethereum = Some wallet ->
       fst (connectMetaMask (Browser ethereum) w) = Err e ->
       v' = View.mk "" (View.accounts v) (View.selectedAccount v)
              (View.holdings v) (View.page v) (View.rowsPerPage v)
              (Some (err_message e))).
Proof.
  cbv zeta. unfold handleWalletServiceChange.
  destruct (String.eqb_spec value "metamask") as [->|Hother].
  - destruct ethereum as [wallet|].
    + unfold try_catch, bind, ret. cbn [isMetaMaskInstalled negb].
      destruct (accounts_reply wallet) as [[|a rest]|e0] eqn:Hreply.
      * pose proof (connect_empty wallet w Hreply) as Hc.
        destruct (connectMetaMask (Browser (Some wallet)) w) as [r w1].
        cbn [fst] in Hc. subst r. eexists. split; [reflexivity|].
        repeat split; try congruence.
        -- intros wallet' accounts _ _ H. discriminate H.
        -- intros wallet' e _ _ H. injection H as <-. reflexivity.
      * pose proof (connect_accounts wallet w a rest Hreply) as Hc.
        destruct (connectMetaMask (Browser (Some wallet)) w) as [r w1].
        cbn [fst] in Hc. subst r. cbn [map].
        eexists. split; [reflexivity|].
        repeat split; try congruence.
        -- intros wallet' accounts _ _ H. injection H as <-.
           exists (account_of wallet a), (map (account_of wallet) rest).
           split; reflexivity.
        -- intros wallet' e _ _ H. discriminate H.
      * pose proof (connect_rejected wallet w e0 Hreply) as Hc.
        destruct (connectMetaMask (Browser (Some wallet)) w) as [r w1].
        cbn [fst] in Hc. subst r.
        assert (Hinst : instanceof_Error (connect_error e0) = true).
        { unfold connect_error.
          destruct (err_code e0) as [c|]; [destruct (c =? 4001)%Z|];
            reflexivity. }
        rewrite Hinst.
        eexists. split; [reflexivity|].
        repeat split; try congruence.
        -- intros wallet' accounts _ _ H. discriminate H.
        -- intros wallet' e _ _ H. injection H as <-. reflexivity.
    + eexists. split; [reflexivity|].
      repeat split; try congruence; intros wallet; discriminate.
  - exists v. split; [reflexivity|].
    repeat split; try contradiction.
Qed.

Lemma wallet_choice_outcome_witness :
  View.error
    (match fst (handleWalletServiceChange (Some mute_wallet) "metamask"
                  initial_view world0) with
     | Ok v' => v'
     | Err _ => initial_view
     end) = Some "Failed to connect to MetaMask" /\
  handleWalletServiceChange (Some sample_wallet) "walletconnect" initial_view
    world0 = (Ok initial_view, world0).
Proof.
  destruct (wallet_choice_outcome (Some mute_wallet) "metamask" initial_view
              world0) as (v' & Hv & _ & _ & _ & _ & _ & Hfail).
  destruct (wallet_choice_outcome (Some sample_wallet) "walletconnect"
              initial_view world0) as (v2 & _ & _ & _ & Hother & _).
  split.
  - rewrite Hv.
    rewrite (Hfail mute_wallet (MetaMaskError "Failed to connect to MetaMask")
               eq_refl eq_refl eq_refl).
    reflexivity.
  - apply Hother. discriminate.
Defined.

(** X18. The account-change callback never throws and touches neither the
    service, the page, the rows per page nor the error.  When the wallet
    reports accounts, they replace the accounts, the first is selected and
    its aggregation shown.  When it reports none, the accounts are emptied
    but the selected account and its holdings stay on display.  Without a
    wallet the aggregation fails, the view stays as it is and one line goes
    to the console. *)
Theorem accounts_change_outcome
    (ethereum : option Wallet) (newAccounts : list string) (v : View.t)
    (w : World) :
  let out := onAccountsChanged ethereum newAccounts v w in
  exists v',
    fst out = Ok v' /\
    View.walletService v' = View.walletService v /\
    View.page v' = View.page v /\
    View.rowsPerPage v' = View.rowsPerPage v /\
    View.error v' = View.error v /\
    (newAccounts = [] ->
     out =
     (Ok (View.mk (View.walletService v) [] (View.selectedAccount v)
            (View.holdings v) (View.page v) (View.rowsPerPage v)
            (View.error v)), w)) /\
    (forall wallet first rest,
       ethereum = Some wallet -> newAccounts = first :: rest ->
       map Account.address (View.accounts v') = newAccounts /\
       View.selectedAccount v' = first /\
       fst (getAccountHoldings (Some wallet) first w) =
         Ok (View.holdings v')) /\
    (ethereum = None -> newAccounts <> [] ->
     v' = v /\
     snd out =
     mkWorld (clock w) (active w) (listeners w) (timers w) (fresh w)
             (requests w) (hooks w)
             (console w ++
              [("Error updating accounts:",
                MetaMaskError "MetaMask not installed")])).
Proof.
  cbv zeta.
  destruct newAccounts as [|first rest].
  - unfold onAccountsChanged, try_catch, bind at 1, ret.
    eexists. split; [reflexivity|].
    repeat split; try reflexivity; try discriminate; try contradiction.
  - destruct ethereum as [wallet|].
    + unfold onAccountsChanged, try_catch, bind at 1, ret.
      pose proof (aggregations_result wallet (first :: rest) w) as Hr.
      destruct (Promise_all _ w) as [r w1]. cbn [fst] in Hr. subst r.
      cbn [map]. eexists. split; [reflexivity|].
      split; [reflexivity|]. split; [reflexivity|]. split; [reflexivity|].
      split; [reflexivity|]. split; [discriminate|]. split; [|discriminate].
      intros wallet' first' rest' Hw Heq.
      injection Hw as <-. injection Heq as <- <-.
      cbn [View.accounts View.selectedAccount View.holdings].
      split; [exact (addresses_of wallet (first :: rest))|].
      split; [reflexivity | apply getAccountHoldings_result].
    + assert (Hout : onAccountsChanged None (first :: rest) v w =
                (Ok v,
                 mkWorld (clock w) (active w) (listeners w) (timers w)
                   (fresh w) (requests w) (hooks w)
                   (console w ++
                    [("Error updating accounts:",
                      MetaMaskError "MetaMask not installed")]))).
      { unfold onAccountsChanged, try_catch, bind at 1.
        rewrite aggregations_without_wallet. reflexivity. }
      rewrite Hout. exists v. split; [reflexivity|].
      split; [reflexivity|]. split; [reflexivity|]. split; [reflexivity|].
      split; [reflexivity|]. split; [discriminate|].
      split; [intros wallet first' rest' H; discriminate H|].
      intros _ _. split; reflexivity.
Qed.

Lemma accounts_change_outcome_witness :
  fst (onAccountsChanged (Some sample_wallet) [] sample_view world0) =
    Ok (View.mk "metamask" [] "0xX" (View.holdings sample_view) 1 2 None) /\
  fst (onAccountsChanged None ["0xY"] sample_view world0) = Ok sample_view.
Proof.
  destruct (accounts_change_outcome (Some sample_wallet) [] sample_view world0)
    as (v1 & _ & _ & _ & _ & _ & Hnone & _).
  destruct (accounts_change_outcome None ["0xY"] sample_view world0)
    as (v2 & Hv2 & _ & _ & _ & _ & _ & _ & Hlost).
  split.
  - rewrite (Hnone eq_refl). reflexivity.
  - destruct (Hlost eq_refl ltac:(discriminate)) as [-> _]. exact Hv2.
Defined.

Lemma wallet_choice_facts wallet v0 w0 v :
  fst (handleWalletServiceChange (Some wallet) "metamask" v0 w0) = Ok v ->
  View.walletService v = "metamask" ->
  exists first rest,
    View.selectedAccount v = first /\
    View.holdings v =
      flat_map (contribution (Some wallet) first)
               (Object_values SUPPORTED_CHAINS) /\
    accounts_reply wallet = Ok (first :: rest).
Proof.
  unfold handleWalletServiceChange. cbn [String.eqb Ascii.eqb Bool.eqb].
  unfold try_catch, bind, ret. cbn [isMetaMaskInstalled negb].
  destruct (accounts_reply wallet) as [[|a rest]|e0] eqn:Hreply.
  - pose proof (connect_empty wallet w0 Hreply) as Hc.
    destruct (connectMetaMask (Browser (Some wallet)) w0) as [r w1].
    cbn [fst] in Hc. subst r. cbn [fst].
    intros H. injection H as <-. discriminate.
  - pose proof (connect_accounts wallet w0 a rest Hreply) as Hc.
    destruct (connectMetaMask (Browser (Some wallet)) w0) as [r w1].
    cbn [fst] in Hc. subst r. cbn [fst map].
    intros H. injection H as <-. intros _.
    exists a, rest. repeat split.
  - pose proof (connect_rejected wallet w0 e0 Hreply) as Hc.
    destruct (connectMetaMask (Browser (Some wallet)) w0) as [r w1].
    cbn [fst] in Hc. subst r. cbn [fst].
    intros H. injection H as <-. discriminate.
Qed.

(** X19. The refresh of the holdings does nothing while no account is
    selected.  Otherwise it replaces the holdings by a new aggregation for
    the selected account, in which no holding is selected, so the
    checkboxes are cleared; the page stays where it was.  On the view a
    successful connection leaves, the refresh changes nothing. *)
Theorem refresh_replaces_holdings (wallet : Wallet) (v : View.t) (w : World) :
  let out := updateHoldings (Some wallet) v w in
  (View.selectedAccount v = "" -> out = (Ok v, w)) /\
  (View.selectedAccount v <> "" ->
   exists holdings,
     fst (getAccountHoldings (Some wallet) (View.selectedAccount v) w)
       = Ok holdings /\
     fst out =
       Ok (View.mk (View.walletService v) (View.accounts v)
             (View.selectedAccount v) holdings (View.page v)
             (View.rowsPerPage v) (View.error v)) /\
     Forall (fun h => checked h = false) holdings) /\
  (forall v0 w0,
     fst (handleWalletServiceChange (Some wallet) "metamask" v0 w0) = Ok v ->
     View.walletService v = "metamask" ->
     fst out = Ok v).
Proof.
  cbv zeta.
  assert (Hrun : View.selectedAccount v <> "" ->
            fst (updateHoldings (Some wallet) v w) =
            Ok (View.mk (View.walletService v) (View.accounts v)
                  (View.selectedAccount v)
                  (flat_map (contribution (Some wallet) (View.selectedAccount v))
                            (Object_values SUPPORTED_CHAINS))
                  (View.page v) (View.rowsPerPage v) (View.error v))).
  { intros Hsel. unfold updateHoldings.
    destruct (String.eqb_spec (View.selectedAccount v) ""); [contradiction|].
    unfold bind, ret.
    pose proof (getAccountHoldings_result wallet (View.selectedAccount v) w)
      as Hg.
    destruct (getAccountHoldings (Some wallet) (View.selectedAccount v) w)
      as [r w1]. cbn [fst] in Hg. subst r. reflexivity. }
  split; [|split].
  - intros Hsel. unfold updateHoldings. rewrite Hsel. reflexivity.
  - intros Hsel. eexists. split; [apply getAccountHoldings_result|].
    split; [apply Hrun; exact Hsel|].
    apply Forall_forall. intros h Hin.
    apply in_flat_map in Hin. destruct Hin as (chain & _ & Hh).
    unfold contribution in Hh.
    destruct (switch_outcome (Some wallet) (Chain.chainId chain))
      as [provider|e]; [|contradiction].
    unfold checked. rewrite (readings_unselected _ _ _ _ Hh). reflexivity.
  - intros v0 w0 Hconn Hservice.
    destruct (wallet_choice_facts wallet v0 w0 v Hconn Hservice)
      as (first & rest & Hsel & Hhold & _). subst first.
    destruct (String.eqb_spec (View.selectedAccount v) "") as [Hempty|Hne].
    + unfold updateHoldings. rewrite Hempty. reflexivity.
    + rewrite (Hrun Hne). rewrite <- Hhold. destruct v. reflexivity.
Qed.

Lemma refresh_replaces_holdings_witness :
  exists holdings,
    fst (updateHoldings (Some sample_wallet) sample_view world0) =
      Ok (View.mk "metamask" [] "0xX" holdings 1 2 None) /\
    Forall (fun h => checked h = false) holdings.
Proof.
  destruct (refresh_replaces_holdings sample_wallet sample_view world0)
    as (_ & Hrun & _).
  destruct (Hrun ltac:(discriminate)) as (holdings & _ & Hout & Hclear).
  exists holdings. split; [exact Hout | exact Hclear].
Defined.

(** X20. [setupAccountChangeListener] registers the callback exactly when
    [isMetaMaskInstalled] holds, after the listeners that are there, and
    never removes or replaces one: subscribing several callbacks, or the
    same one several times, leaves all of them registered, in order. *)
Theorem subscriptions_accumulate
    (global : Global) (callbacks registered : list nat) :
  for_of callbacks (setupAccountChangeListener global) registered =
  (Ok tt,
   registered ++ (if isMetaMaskInstalled global then callbacks else [])).
Proof.
  revert registered. induction callbacks as [|callback callbacks IH];
    intros registered.
  - cbn [for_of]. unfold ret. destruct (isMetaMaskInstalled global);
      rewrite app_nil_r; reflexivity.
  - cbn [for_of]. unfold bind.
    destruct global as [|[wallet|]]; cbn [setupAccountChangeListener ret];
      rewrite IH; cbn [isMetaMaskInstalled];
      rewrite <- ?app_assoc; reflexivity.
Qed.

(* ------------------------------------------------------------------ *)
(** ** The native-balance variant *)



Lemma native_only_read_result js wallet address chainId p :
  fst (NativeOnly.getTokenBalance js (Some wallet) address chainId p) =
  Ok (NativeOnly.reading js wallet address chainId).
Proof.
  unfold NativeOnly.getTokenBalance, NativeOnly.reading, try_catch, bind, ret,
    NativeOnly.send, NativeOnly.console_error, NativeOnly.getNativeTokenSymbol,
    NativeOnly.getChainName.
  destruct (NativeOnly.switch_reply wallet chainId) as [[]|e];
    cbn [fst snd].
  - destruct (NativeOnly.balance_reply wallet chainId address) as [balance|e];
      cbn [fst snd].
    + destruct (NativeOnly.positive js (NativeOnly.quantity_text js balance));
        [|reflexivity].
      unfold try_catch, bind, ret, NativeOnly.send, NativeOnly.console_error.
      destruct (NativeOnly.chainId_reply wallet chainId); reflexivity.
    + destruct (err_code e) as [c|]; [destruct (c =? 4902)%Z|]; reflexivity.
  - destruct (NativeOnly.balance_reply wallet chainId address);
      destruct (err_code e) as [c|]; try destruct (c =? 4902)%Z; reflexivity.
Qed.

(** X22. [getTokenBalance] of the variant never throws once the wallet is
    there.  It always sends the switch request; when the wallet refuses it,
    the balance is not queried and the result is none.  A refusal, of the
    switch or of the balance query, with code 4902 leaves no trace on the
    console, any other is logged once.  No add-network request is ever sent
    and nothing waits for the network change. *)
Theorem native_only_read_outcome
    (js : NativeOnly.Numbers) (wallet : NativeOnly.Wallet)
    (address chainId : string) (p : NativeOnly.Page) :
  let out := NativeOnly.getTokenBalance js (Some wallet) address chainId p in
  let logged e :=
    if match err_code e with Some c => (c =? 4902)%Z | None => false end
    then [] else [("Error fetching token balance:", e)] in
  (exists result, fst out = Ok result) /\
  (forall e,
     NativeOnly.switch_reply wallet chainId = Err e ->
     fst out = Ok None /\
     NativeOnly.requests (snd out) =
       NativeOnly.requests p ++ [NativeOnly.wallet_switchEthereumChain chainId] /\
     NativeOnly.console (snd out) = NativeOnly.console p ++ logged e) /\
  (forall e,
     NativeOnly.switch_reply wallet chainId = Ok tt ->
     NativeOnly.balance_reply wallet chainId address = Err e ->
     fst out = Ok None /\
     NativeOnly.requests (snd out) =
       NativeOnly.requests p ++
       [NativeOnly.wallet_switchEthereumChain chainId;
        NativeOnly.eth_getBalance address "latest"] /\
     NativeOnly.console (snd out) = NativeOnly.console p ++ logged e) /\
  (forall balance,
     NativeOnly.switch_reply wallet chainId = Ok tt ->
     NativeOnly.balance_reply wallet chainId address = Ok balance ->
     NativeOnly.positive js (NativeOnly.quantity_text js balance) = false ->
     out =
     (Ok None,
      NativeOnly.mkPage
        (NativeOnly.requests p ++
         [NativeOnly.wallet_switchEthereumChain chainId;
          NativeOnly.eth_getBalance address "latest"])
        (NativeOnly.console p))) /\
  (forall balance,
     NativeOnly.switch_reply wallet chainId = Ok tt ->
     NativeOnly.balance_reply wallet chainId address = Ok balance ->
     NativeOnly.positive js (NativeOnly.quantity_text js balance) = true ->
     exists holding,
       fst out = Ok (Some holding) /\
       TokenHolding.quantity holding = NativeOnly.quantity_text js balance /\
       TokenHolding.symbol holding =
         NativeOnly.lookup_or chainId NativeOnly.chainSymbols "ETH" /\
       TokenHolding.selected holding = Some false /\
       NativeOnly.requests (snd out) =
         NativeOnly.requests p ++
         [NativeOnly.wallet_switchEthereumChain chainId;
          NativeOnly.eth_getBalance address "latest";
          NativeOnly.eth_chainId]).
Proof.
  cbv zeta.
  split; [eexists; apply native_only_read_result|].
  unfold NativeOnly.getTokenBalance, try_catch, bind, ret,
    NativeOnly.send, NativeOnly.console_error, NativeOnly.getNativeTokenSymbol,
    NativeOnly.getChainName.
  split; [|split; [|split]].
  - intros e He. rewrite He. cbn [fst snd].
    destruct (err_code e) as [c|]; [destruct (c =? 4902)%Z|];
      cbn [fst snd NativeOnly.requests NativeOnly.console];
      rewrite ?app_nil_r; repeat split; reflexivity.
  - intros e Hs Hb. rewrite Hs, Hb. cbn [fst snd].
    destruct (err_code e) as [c|]; [destruct (c =? 4902)%Z|];
      cbn [fst snd NativeOnly.requests NativeOnly.console];
      rewrite ?app_nil_r, <- ?app_assoc; repeat split; reflexivity.
  - intros balance Hs Hb Hpos. rewrite Hs, Hb. cbn [fst snd].
    rewrite Hpos. cbn [NativeOnly.requests NativeOnly.console].
    rewrite <- app_assoc. reflexivity.
  - intros balance Hs Hb Hpos. rewrite Hs, Hb. cbn [fst snd].
    rewrite Hpos.
    unfold try_catch, bind, ret, NativeOnly.send, NativeOnly.console_error.
    destruct (NativeOnly.chainId_reply wallet chainId);
      cbn [fst snd NativeOnly.requests NativeOnly.console];
      eexists; (split; [reflexivity|]);
      cbn [TokenHolding.quantity TokenHolding.symbol TokenHolding.selected];
      rewrite <- !app_assoc; repeat split; reflexivity.
Qed.

Lemma native_only_read_outcome_witness :
  NativeOnly.console
    (snd (NativeOnly.getTokenBalance NativeOnly.sample_numbers
            (Some NativeOnly.sample_wallet) "0xX" "0x89" NativeOnly.page0))
  = [] /\
  List.length
    (NativeOnly.console
       (snd (NativeOnly.getTokenBalance NativeOnly.sample_numbers
               (Some NativeOnly.sample_wallet) "0xX" "0xa" NativeOnly.page0)))
  = 1.
Proof.
  destruct (native_only_read_outcome NativeOnly.sample_numbers
              NativeOnly.sample_wallet "0xX" "0x89" NativeOnly.page0)
    as (_ & Hunknown & _).
  destruct (native_only_read_outcome NativeOnly.sample_numbers
              NativeOnly.sample_wallet "0xX" "0xa" NativeOnly.page0)
    as (_ & Hrefused & _).
  destruct (Hunknown _ eq_refl) as (_ & _ & H1).
  destruct (Hrefused _ eq_refl) as (_ & _ & H2).
  split; [rewrite H1 | rewrite H2]; reflexivity.
Defined.

Lemma native_only_visit js wallet address chainId holdings p :
  exists p',
    NativeOnly.visit js (Some wallet) address chainId (holdings, p) =
    (Ok tt,
     (holdings ++ option_list (NativeOnly.reading js wallet address chainId),
      p')).
Proof.
  unfold NativeOnly.visit, try_catch, bind, NativeOnly.inner, NativeOnly.push,
    ret. cbn [fst snd].
  pose proof (native_only_read_result js wallet address chainId p) as Hr.
  destruct (NativeOnly.getTokenBalance js (Some wallet) address chainId p)
    as [r p1]. cbn [fst] in Hr. subst r.
  destruct (NativeOnly.reading js wallet address chainId) as [h|];
    cbn [fst snd option_list]; eexists; rewrite ?app_nil_r; reflexivity.
Qed.

Lemma native_only_loop js wallet address ids holdings p :
  exists p',
    for_of ids (NativeOnly.visit js (Some wallet) address) (holdings, p) =
    (Ok tt,
     (holdings ++
      non_null (map (NativeOnly.reading js wallet address) ids), p')).
Proof.
  revert holdings p. induction ids as [|chainId ids IH]; intros holdings p.
  - exists p. cbn [for_of map non_null]. rewrite app_nil_r. reflexivity.
  - cbn [for_of]. unfold bind.
    destruct (native_only_visit js wallet address chainId holdings p)
      as (p1 & Hv).
    rewrite Hv.
    destruct (IH (holdings ++
                  option_list (NativeOnly.reading js wallet address chainId))
                 p1) as (p2 & Hloop).
    exists p2. rewrite Hloop. cbn [map].
    destruct (NativeOnly.reading js wallet address chainId);
      cbn [non_null option_list]; rewrite <- app_assoc; reflexivity.
Qed.

(** X23. [getAccountHoldings] of the variant returns, in the order of its
    eight identifiers, the holding of every network whose switch and balance
    query succeed with a positive quantity: at most eight holdings, each
    unselected.  A network that fails costs its own holding only. *)
Theorem native_only_aggregation
    (js : NativeOnly.Numbers) (wallet : NativeOnly.Wallet) (address : string)
    (p : NativeOnly.Page) :
  let holdings :=
    non_null (map (NativeOnly.reading js wallet address) NativeOnly.chainIds) in
  fst (NativeOnly.getAccountHoldings js (Some wallet) address p) = Ok holdings /\
  List.length holdings <= 8 /\
  Forall (fun h => TokenHolding.selected h = Some false) holdings /\
  (forall chainId,
     In chainId NativeOnly.chainIds ->
     forall h,
       fst (NativeOnly.getTokenBalance js (Some wallet) address chainId p)
         = Ok (Some h) ->
       In h holdings).
Proof.
  cbv zeta. split; [|split; [|split]].
  - unfold NativeOnly.getAccountHoldings.
    destruct (native_only_loop js wallet address NativeOnly.chainIds [] p)
      as (p' & Hloop).
    rewrite Hloop. reflexivity.
  - eapply Nat.le_trans; [apply length_non_null|].
    rewrite List.length_map. reflexivity.
  - apply Forall_forall. intros h Hin.
    apply In_non_null, in_map_iff in Hin.
    destruct Hin as (chainId & Hread & _).
    unfold NativeOnly.reading in Hread.
    destruct (NativeOnly.switch_reply wallet chainId); [|discriminate].
    destruct (NativeOnly.balance_reply wallet chainId address);
      [|discriminate].
    destruct (NativeOnly.positive js _); [|discriminate].
    injection Hread as <-. reflexivity.
  - intros chainId Hin h Hread.
    rewrite native_only_read_result in Hread. injection Hread as Hread.
    apply In_non_null, in_map_iff. exists chainId. split; assumption.
Qed.

Lemma native_only_aggregation_witness :
  exists holdings,
    fst (NativeOnly.getAccountHoldings NativeOnly.sample_numbers
           (Some NativeOnly.sample_wallet) "0xX" NativeOnly.page0)
      = Ok holdings /\
    In (TokenHolding.mk "BNB" "CHAIN 56" "1.0000" (Some false)) holdings.
Proof.
  destruct (native_only_aggregation NativeOnly.sample_numbers
              NativeOnly.sample_wallet "0xX" NativeOnly.page0)
    as (Hres & _ & _ & Hin).
  eexists. split; [exact Hres|].
  apply (Hin "0x38"); [simpl; tauto | reflexivity].
Defined.

Lemma native_only_visit_without_wallet js address chainId holdings p :
  NativeOnly.visit js None address chainId (holdings, p) =
  (Ok tt,
   (holdings,
    NativeOnly.mkPage (NativeOnly.requests p)
      (NativeOnly.console p ++
       [(("Error fetching balance for chain " ++ chainId ++ ":")%string,
         MetaMaskError "MetaMask not installed")]))).
Proof. reflexivity. Qed.

Lemma native_only_loop_without_wallet js address ids holdings p :
  for_of ids (NativeOnly.visit js None address) (holdings, p) =
  (Ok tt,
   (holdings,
    NativeOnly.mkPage (NativeOnly.requests p)
      (NativeOnly.console p ++
       map (fun chainId =>
              (("Error fetching balance for chain " ++ chainId ++ ":")%string,
               MetaMaskError "MetaMask not installed"))
           ids))).
Proof.
  revert p. induction ids as [|chainId ids IH]; intros p.
  - cbn [for_of map]. rewrite app_nil_r. destruct p. reflexivity.
  - cbn [for_of]. unfold bind.
    rewrite native_only_visit_without_wallet, IH.
    cbn [NativeOnly.requests NativeOnly.console map].
    rewrite <- app_assoc. reflexivity.
Qed.

(** X24. Without a wallet, [getAccountHoldings] of the variant does not
    throw, unlike the one of the main library: the error of every read is
    caught in the loop, so it returns the empty list, sends nothing and
    writes one line per identifier to the console. *)
Theorem native_only_without_wallet
    (js : NativeOnly.Numbers) (address : string) (p : NativeOnly.Page)
    (w : World) :
  NativeOnly.getAccountHoldings js None address p =
  (Ok [],
   NativeOnly.mkPage (NativeOnly.requests p)
     (NativeOnly.console p ++
      map (fun chainId =>
             (("Error fetching balance for chain " ++ chainId ++ ":")%string,
              MetaMaskError "MetaMask not installed"))
          NativeOnly.chainIds)) /\
  getAccountHoldings None address w =
  (Err (MetaMaskError "MetaMask not installed"), w).
Proof.
  split; [|reflexivity].
  unfold NativeOnly.getAccountHoldings.
  rewrite native_only_loop_without_wallet. reflexivity.
Qed.
